(** * Wax: the MiniLM quantization script, [scripts/quantize_minilm.py]

    A shallow embedding of the script: the path constants, the model
    locator [find_model], the two-tier quantization [quantize_model], the
    advisory [validate_quantization] and the driver [main], run in a small
    state-and-exception monad over a file-system tree and an injected
    toolkit (coremltools), with a trace of the observable actions. *)

From Stdlib Require Import ZArith List String Ascii Bool Lia.
From Stdlib Require Import DecimalString.
From Stdlib Require Import SpecFloat.
Import ListNotations.

Local Open Scope string_scope.
Local Open Scope Z_scope.

(* ===================================================================== *)
(** ** Python values the script computes with *)
(* ===================================================================== *)

(** The newline character of ["\n..."] literals. *)
Definition LF : string := String (ascii_of_nat 10) EmptyString.

(** [s * n] on a Python string. *)
Fixpoint str_mul (s : string) (n : nat) : string :=
  match n with
  | O => ""
  | S k => s ++ str_mul s k
  end.

(** [str(z)] on a Python int. *)
Definition str_int (z : Z) : string := NilZero.string_of_int (Z.to_int z).

(** [needle in haystack] on Python strings. *)
Fixpoint str_contains (needle haystack : string) : bool :=
  if String.prefix needle haystack then true
  else match haystack with
       | EmptyString => false
       | String _ rest => str_contains needle rest
       end.

(** *** Floats: IEEE 754 binary64, round to nearest even *)

Module Float.

Definition prec : Z := 53.
Definition emax : Z := 1024.

Definition float := spec_float.

(** The exact integer as an unrounded significand with exponent 0. *)
Definition of_Z_exact (z : Z) : float :=
  match z with
  | Z0 => S754_zero false
  | Zpos p => S754_finite false p 0
  | Zneg p => S754_finite true p 0
  end.

(** [float(z)]: the integer rounded to binary64. *)
Definition of_Z (z : Z) : float := binary_normalize prec emax z 0 false.

Definition add : float -> float -> float := SFadd prec emax.
Definition sub : float -> float -> float := SFsub prec emax.
Definition mul : float -> float -> float := SFmul prec emax.
Definition div : float -> float -> float := SFdiv prec emax.

(** The first integer that does not fit the significand. *)
Definition two53 : Z := 2 ^ 53.

Definition is_zero (x : float) : bool :=
  match x with S754_zero _ => true | _ => false end.

Definition is_infinite (x : float) : bool :=
  match x with S754_infinity _ => true | _ => false end.

(** The correctly rounded quotient of two integers, as CPython's
    [int.__truediv__] computes it (before its range check). *)
Definition quotient (a b : Z) : float := div (of_Z_exact a) (of_Z_exact b).

(** Decimal digits of a natural number, left-padded with zeros to at
    least [width] characters. *)
Definition digits (n : N) : string := NilZero.string_of_uint (N.to_uint n).

Definition pad_zeros (width : nat) (s : string) : string :=
  str_mul "0" (width - String.length s) ++ s.

(** [round_half_even num den]: the integer nearest to [num / den], ties to
    the even one ([num >= 0], [den > 0]). *)
Definition round_half_even (num den : Z) : Z :=
  let q := num / den in
  let r := num mod den in
  match (2 * r ?= den) with
  | Lt => q
  | Gt => q + 1
  | Eq => if Z.even q then q else q + 1
  end.

(** The magnitude [m * 2^e] scaled by [10^d] and rounded to an integer. *)
Definition scaled (d : nat) (m : positive) (e : Z) : Z :=
  let p10 := 10 ^ Z.of_nat d in
  if 0 <=? e then Zpos m * 2 ^ e * p10
  else round_half_even (Zpos m * p10) (2 ^ (- e)).

(** Fixed-point rendering of a scaled magnitude with [d] decimals. *)
Definition fixed (d : nat) (n : Z) : string :=
  let ds := pad_zeros (S d) (digits (Z.to_N n)) in
  let k := (String.length ds - d)%nat in
  match d with
  | O => ds
  | _ => substring 0 k ds ++ "." ++ substring k d ds
  end.

Definition sign_str (s : bool) : string := if s then "-" else "".

(** [format(x, ".<d>f")]: the exact binary value correctly rounded to [d]
    decimals, ties to even; the sign of a negative zero is kept. *)
Definition format_f (d : nat) (x : float) : string :=
  match x with
  | S754_nan => "nan"
  | S754_infinity s => sign_str s ++ "inf"
  | S754_zero s => sign_str s ++ fixed d 0
  | S754_finite s m e => sign_str s ++ fixed d (scaled d m e)
  end.

End Float.

(* ===================================================================== *)
(** ** Exceptions *)
(* ===================================================================== *)

(** The exception classes that can reach the script's [except] clauses.
    [SystemExit] and [KeyboardInterrupt] derive from [BaseException] only;
    the others derive from [Exception]; [ModuleNotFoundError] derives from
    [ImportError]. [OtherException] stands for any further class below
    [Exception] that the toolkit raises. *)
Inductive exn_class :=
| SystemExit (code : Z)
| KeyboardInterrupt
| ImportError
| ModuleNotFoundError
| ZeroDivisionError
| OverflowError
| FileNotFoundError
| NotADirectoryError
| OtherException (name : string).

(** A raised exception: its class and [str(e)]. *)
Record exn := mkExn { exn_cls : exn_class; exn_str : string }.

(** [isinstance(e, Exception)]. *)
Definition isinstance_Exception (e : exn) : bool :=
  match exn_cls e with
  | SystemExit _ | KeyboardInterrupt => false
  | _ => true
  end.

(** [isinstance(e, ImportError)]. *)
Definition isinstance_ImportError (e : exn) : bool :=
  match exn_cls e with
  | ImportError | ModuleNotFoundError => true
  | _ => false
  end.

(** The outcome of a statement: a value, or an exception on its way up. *)
Inductive result (A : Type) :=
| Ok (a : A)
| Raise (e : exn).
Arguments Ok {A} a.
Arguments Raise {A} e.

(** The status the interpreter exits with: 0 after a normal end, the code of
    an uncaught [SystemExit], and 1 after any other uncaught exception. *)
Definition exit_status {A} (r : result A) : Z :=
  match r with
  | Ok _ => 0
  | Raise e => match exn_cls e with SystemExit c => c | _ => 1 end
  end.

(** [a / b] on Python ints. *)
Definition int_truediv (a b : Z) : result Float.float :=
  if b =? 0 then Raise (mkExn ZeroDivisionError "division by zero")
  else
    let r := Float.quotient a b in
    if Float.is_infinite r
    then Raise (mkExn OverflowError "integer division result too large for a float")
    else Ok r.

(** [x / b] and [x * b] with a float on the left and an int on the right. *)
Definition float_truediv_int (x : Float.float) (b : Z) : result Float.float :=
  if b =? 0 then Raise (mkExn ZeroDivisionError "float division by zero")
  else Ok (Float.div x (Float.of_Z b)).

(* ===================================================================== *)
(** ** Paths and the file system *)
(* ===================================================================== *)

(** An absolute [pathlib.Path]: its components below the root. *)
Definition Path := list string.

(** [p / name]. *)
Definition joinpath (p : Path) (name : string) : Path := (p ++ [name])%list.
Notation "p // name" := (joinpath p name) (at level 40, left associativity).

(** [p.parent]; the root is its own parent. *)
Definition parent (p : Path) : Path := removelast p.

(** [p.name]; empty for the root. *)
Definition name (p : Path) : string := last p "".

(** [str(p)]. *)
Definition str (p : Path) : string :=
  match p with
  | [] => "/"
  | _ => String.concat "" (map (fun c => "/" ++ c) p)
  end.

Definition Path_eqb (p q : Path) : bool :=
  if list_eq_dec string_dec p q then true else false.

(** A file-system tree: regular files and directories, each with its
    [st_size]; a directory lists its entries in listing order, and a name
    leads to its first entry. *)
#[warnings="-register-all"]
Inductive node :=
| File (st_size : N)
| Dir (st_size : N) (entries : list (string * node)).

Fixpoint lookup_entry (c : string) (es : list (string * node)) : option node :=
  match es with
  | [] => None
  | (k, n) :: rest => if String.eqb k c then Some n else lookup_entry c rest
  end.

(** The node a path leads to, if any. *)
Fixpoint resolve (root : node) (p : Path) : option node :=
  match p with
  | [] => Some root
  | c :: rest =>
      match root with
      | File _ => None
      | Dir _ es =>
          match lookup_entry c es with
          | Some n => resolve n rest
          | None => None
          end
      end
  end.

(** Everything strictly below [n], each with its path. *)
Fixpoint descendants (p : Path) (n : node) : list (Path * node) :=
  match n with
  | File _ => []
  | Dir _ es =>
      flat_map (fun e => (p // fst e, snd e) :: descendants (p // fst e) (snd e)) es
  end.

(** [p.exists()]. *)
Definition fs_exists (fs : node) (p : Path) : bool :=
  match resolve fs p with Some _ => true | None => false end.

(** [p.is_file()]: false for a directory and for a path that leads nowhere. *)
Definition fs_is_file (fs : node) (p : Path) : bool :=
  match resolve fs p with Some (File _) => true | _ => false end.

(** [p.is_dir()]. *)
Definition fs_is_dir (fs : node) (p : Path) : bool :=
  match resolve fs p with Some (Dir _ _) => true | _ => false end.

(** [p.stat().st_size]. *)
Definition fs_st_size (fs : node) (p : Path) : result Z :=
  match resolve fs p with
  | Some (File sz) | Some (Dir sz _) => Ok (Z.of_N sz)
  | None => Raise (mkExn FileNotFoundError (str p))
  end.

(** [list(p.iterdir())]. *)
Definition fs_iterdir (fs : node) (p : Path) : result (list Path) :=
  match resolve fs p with
  | Some (Dir _ es) => Ok (map (fun e => p // fst e) es)
  | Some (File _) => Raise (mkExn NotADirectoryError (str p))
  | None => Raise (mkExn FileNotFoundError (str p))
  end.

(** [list(p.rglob("*"))]: every path below a directory; nothing for a
    regular file or a path that leads nowhere. *)
Definition fs_rglob (fs : node) (p : Path) : list Path :=
  match resolve fs p with
  | Some n => map fst (descendants p n)
  | None => []
  end.

(** [sum(f.stat().st_size for f in p.rglob("*") if f.is_file())], read off
    the tree. *)
Definition bundle_size (fs : node) (p : Path) : Z :=
  fold_left Z.add
    (map (fun f => match fs_st_size fs f with Ok z => z | Raise _ => 0 end)
         (filter (fs_is_file fs) (fs_rglob fs p)))
    0.

(* ===================================================================== *)
(** ** The toolkit: coremltools as an injected capability *)
(* ===================================================================== *)

(** [cto.OpLinearQuantizerConfig(...)], by the keyword arguments passed;
    [None] is a keyword left out, so that the toolkit's default applies, and
    [weight_threshold = Some None] is the keyword passed as Python's [None]. *)
Record OpLinearQuantizerConfig := mkOpLinearQuantizerConfig {
  mode : option string;
  weight_threshold : option (option Z);
  dtype : option string
}.

(** [cto.OptimizationConfig(global_config=...)]. *)
Record OptimizationConfig := mkOptimizationConfig {
  global_config : OpLinearQuantizerConfig
}.

(** The operations the script asks of the toolkit. The toolkit owns the
    world: its own state and the file system it reads models from and saves
    them to; every call may change the world and may raise. *)
Class Toolkit := {
  world : Type;
  fs : world -> node;
  MLModel : Type;
  (** [import <module>] *)
  import_module : string -> world -> world * result unit;
  (** [ct.models.MLModel(path)] *)
  MLModel_load : string -> world -> world * result MLModel;
  (** [model.get_spec().specificationVersion] *)
  specificationVersion : MLModel -> Z;
  (** [cto.linear_quantize_weights(model, config)] *)
  cto_linear_quantize_weights :
    MLModel -> OptimizationConfig -> world -> world * result MLModel;
  (** [model.save(path)] *)
  MLModel_save : MLModel -> string -> world -> world * result unit
}.

(* ===================================================================== *)
(** ** Statements: a state-and-exception monad with a trace *)
(* ===================================================================== *)

Section Monad.

Context {TK : Toolkit}.

(** What a run does that can be observed from outside, in order. *)
Inductive event :=
| EvPrint (line : string)
| EvImport (module : string)
| EvExists (p : Path)
| EvIterdir (p : Path)
| EvRglob (p : Path)
| EvIsFile (p : Path)
| EvStat (p : Path)
| EvLoad (path : string)
| EvConfig (config : OptimizationConfig)
| EvLinearQuantizeWeights (model : MLModel) (config : OptimizationConfig)
| EvSave (model : MLModel) (path : string).

Record state := mkState { st_world : world; st_trace : list event }.

(** Statements: state in, state and outcome out. *)
Definition M (A : Type) : Type := state -> state * result A.

Definition ret {A} (a : A) : M A := fun s => (s, Ok a).

Definition bind {A B} (m : M A) (k : A -> M B) : M B :=
  fun s =>
    match m s with
    | (s', Ok a) => k a s'
    | (s', Raise e) => (s', Raise e)
    end.

Definition raise {A} (e : exn) : M A := fun s => (s, Raise e).

(** [try: body / except <class> as e: handler e]. *)
Definition try_except {A} (body : M A) (isinstance : exn -> bool)
           (handler : exn -> M A) : M A :=
  fun s =>
    match body s with
    | (s', Ok a) => (s', Ok a)
    | (s', Raise e) => if isinstance e then handler e s' else (s', Raise e)
    end.

Definition emit (e : event) : M unit :=
  fun s => (mkState (st_world s) (st_trace s ++ [e])%list, Ok tt).

(** A value or an exception computed without touching the state. *)
Definition lift {A} (r : result A) : M A := fun s => (s, r).

(** A call into the toolkit. *)
Definition call {A} (f : world -> world * result A) : M A :=
  fun s => let (w, r) := f (st_world s) in (mkState w (st_trace s), r).

(** A read of the file system. *)
Definition read_fs {A} (f : node -> A) : M A :=
  fun s => (s, Ok (f (fs (st_world s)))).

End Monad.

Declare Scope py_scope.
Delimit Scope py_scope with py.
Notation "x <- c1 ;; c2" := (bind c1 (fun x => c2))
  (at level 61, c1 at next level, right associativity) : py_scope.
Notation "c1 ;; c2" := (bind c1 (fun _ => c2))
  (at level 61, right associativity) : py_scope.
Local Open Scope py_scope.

(* ===================================================================== *)
(** ** The script *)
(* ===================================================================== *)

Section Script.

Context {TK : Toolkit}.

(** [__file__]: where the script lives. *)
Variable script_file : Path.

(** *** Built-ins and library calls, with the events they leave *)

(** Here standard output takes every line and the file system answers
    every query: [print], [exists_] and [is_file] return, where in Python
    a write or a [stat] can fail with an [OSError] and a line can fail to
    encode. A [print] that can raise is given in [Stdout] below, for the
    one place where the script would catch what it raises. *)

Definition print (line : string) : M unit := emit (EvPrint line).

Definition sys_exit {A} (code : Z) : M A :=
  raise (mkExn (SystemExit code) (str_int code)).

Definition import (module : string) : M unit :=
  emit (EvImport module);; call (import_module module).

Definition exists_ (p : Path) : M bool :=
  emit (EvExists p);; read_fs (fun t => fs_exists t p).

Definition iterdir (p : Path) : M (list Path) :=
  emit (EvIterdir p);; r <- read_fs (fun t => fs_iterdir t p);; lift r.

Definition rglob (p : Path) : M (list Path) :=
  emit (EvRglob p);; read_fs (fun t => fs_rglob t p).

Definition is_file (p : Path) : M bool :=
  emit (EvIsFile p);; read_fs (fun t => fs_is_file t p).

Definition stat_st_size (p : Path) : M Z :=
  emit (EvStat p);; r <- read_fs (fun t => fs_st_size t p);; lift r.

Definition ct_models_MLModel (path : string) : M MLModel :=
  emit (EvLoad path);; call (MLModel_load path).

Definition cto_OptimizationConfig (c : OptimizationConfig) : M OptimizationConfig :=
  emit (EvConfig c);; ret c.

Definition linear_quantize_weights (model : MLModel) (config : OptimizationConfig)
  : M MLModel :=
  emit (EvLinearQuantizeWeights model config);;
  call (cto_linear_quantize_weights model config).

Definition save (model : MLModel) (path : string) : M unit :=
  emit (EvSave model path);; call (MLModel_save model path).

(** [for x in xs: body x]. *)
Fixpoint for_each {A} (xs : list A) (body : A -> M unit) : M unit :=
  match xs with
  | [] => ret tt
  | x :: rest => body x;; for_each rest body
  end.

(** *** Lines 21-27: the import guard *)

Definition import_guard : M unit :=
  try_except
    (import "coremltools";; import "coremltools.optimize.coreml")
    isinstance_ImportError
    (fun _ =>
       print "Error: coremltools not installed.";;
       print "Install with: pip install coremltools>=7.0";;
       sys_exit 1).

(** *** Lines 29-36: paths *)

Definition SCRIPT_DIR : Path := parent script_file.
Definition PROJECT_ROOT : Path := parent SCRIPT_DIR.
Definition RESOURCES_DIR : Path :=
  PROJECT_ROOT // "Sources" // "WaxVectorSearchMiniLM" // "Resources".

Definition SOURCE_MODEL : Path := RESOURCES_DIR // "all-MiniLM-L6-v2.mlmodelc".
Definition OUTPUT_MODEL : Path := RESOURCES_DIR // "all-MiniLM-L6-v2-W8A8.mlmodelc".

(** *** Lines 38-58: [find_model] *)

Definition alt_paths : list Path :=
  [ RESOURCES_DIR // "all-MiniLM-L6-v2.mlpackage";
    RESOURCES_DIR // "model.mlmodel" ].

(** The paths [find_model] tries, in the order it tries them. *)
Definition candidates : list Path := SOURCE_MODEL :: alt_paths.

(** [for path in paths: if path.exists(): return path]; [None] when the
    loop runs to its end. *)
Fixpoint find_model_loop (paths : list Path) : M (option Path) :=
  match paths with
  | [] => ret None
  | path :: rest =>
      b <- exists_ path;;
      if b then ret (Some path) else find_model_loop rest
  end.

Definition find_model : M Path :=
  b <- exists_ SOURCE_MODEL;;
  if b then ret SOURCE_MODEL
  else
    found <- find_model_loop alt_paths;;
    match found with
    | Some path => ret path
    | None =>
        print ("Error: Could not find source model at " ++ str SOURCE_MODEL);;
        print "Available files in Resources:";;
        d <- exists_ RESOURCES_DIR;;
        (if d
         then files <- iterdir RESOURCES_DIR;;
              for_each files (fun f => print ("  - " ++ name f))
         else ret tt);;
        sys_exit 1
    end.

(** *** Lines 61-103: [quantize_model] *)

(** Lines 72-79. *)
Definition config : OptimizationConfig :=
  mkOptimizationConfig
    (mkOpLinearQuantizerConfig (Some "linear_symmetric") (Some None) (Some "int8")).

(** Lines 95-100. *)
Definition fallback_config : OptimizationConfig :=
  mkOptimizationConfig
    (mkOpLinearQuantizerConfig (Some "linear_symmetric") None (Some "int8")).

Definition quantize_model (model_path : Path) : M MLModel :=
  print ("Loading model from: " ++ str model_path);;
  model <- ct_models_MLModel (str model_path);;
  print "Model info:";;
  print ("  - Spec version: " ++ str_int (specificationVersion model));;
  config <- cto_OptimizationConfig config;;
  print (LF ++ "Applying W8A8 quantization...");;
  print "  - Mode: linear_symmetric";;
  print "  - Weight bits: 8";;
  print "  - Activation bits: 8 (dynamic)";;
  try_except
    (quantized_model <- linear_quantize_weights model config;;
     print "✅ Quantization complete";;
     ret quantized_model)
    isinstance_Exception
    (fun e =>
       print "Warning: Full W8A8 not supported, falling back to weight-only quantization";;
       print ("Error: " ++ exn_str e);;
       fallback_config <- cto_OptimizationConfig fallback_config;;
       quantized_model <- linear_quantize_weights model fallback_config;;
       print "✅ Weight-only INT8 quantization complete";;
       ret quantized_model).

(** *** Lines 106-119: [validate_quantization] *)

Definition validate_quantization (original quantized : MLModel) : M unit :=
  print (LF ++ "Quantization validation:");;
  print ("  - Original spec version: " ++ str_int (specificationVersion original));;
  print ("  - Quantized spec version: " ++ str_int (specificationVersion quantized));;
  print "  - ✅ Model quantized successfully".

(** *** Lines 122-153: [main] *)

(** [sum(f.stat().st_size for f in files if f.is_file())], from [acc]. *)
Fixpoint sum_sizes (files : list Path) (acc : Z) : M Z :=
  match files with
  | [] => ret acc
  | f :: rest =>
      b <- is_file f;;
      if b
      then sz <- stat_st_size f;; sum_sizes rest (acc + sz)
      else sum_sizes rest acc
  end.

(** Lines 147-150. *)
Definition size_comparison (original_size quantized_size : Z) : M unit :=
  print (LF ++ "Size comparison:");;
  o1 <- lift (int_truediv original_size 1024);;
  o2 <- lift (float_truediv_int o1 1024);;
  print ("  - Original:  " ++ Float.format_f 2 o2 ++ " MB");;
  q1 <- lift (int_truediv quantized_size 1024);;
  q2 <- lift (float_truediv_int q1 1024);;
  print ("  - Quantized: " ++ Float.format_f 2 q2 ++ " MB");;
  ratio <- lift (int_truediv quantized_size original_size);;
  print ("  - Reduction: "
         ++ Float.format_f 1
              (Float.mul (Float.sub (Float.of_Z 1) ratio) (Float.of_Z 100))
         ++ "%").

(** Lines 143-150. *)
Definition print_file_sizes : M unit :=
  src <- exists_ SOURCE_MODEL;;
  both <- (if src then exists_ OUTPUT_MODEL else ret false);;
  if both
  then
    original_files <- rglob SOURCE_MODEL;;
    original_size <- sum_sizes original_files 0;;
    quantized_files <- rglob OUTPUT_MODEL;;
    quantized_size <- sum_sizes quantized_files 0;;
    size_comparison original_size quantized_size
  else ret tt.

Definition main : M unit :=
  print (str_mul "=" 60);;
  print "Wax MiniLM-L6-v2 W8A8 Quantization";;
  print (str_mul "=" 60);;
  print "";;
  model_path <- find_model;;
  original_model <- ct_models_MLModel (str model_path);;
  quantized_model <- quantize_model model_path;;
  validate_quantization original_model quantized_model;;
  print (LF ++ "Saving quantized model to: " ++ str OUTPUT_MODEL);;
  save quantized_model (str OUTPUT_MODEL);;
  print_file_sizes;;
  print (LF ++ "✅ Done! Update MiniLMEmbeddings.swift to load the quantized model.");;
  print (str_mul "=" 60).

(** Lines 123-140: [main] up to and including the save. *)
Definition main_until_save : M unit :=
  print (str_mul "=" 60);;
  print "Wax MiniLM-L6-v2 W8A8 Quantization";;
  print (str_mul "=" 60);;
  print "";;
  model_path <- find_model;;
  original_model <- ct_models_MLModel (str model_path);;
  quantized_model <- quantize_model model_path;;
  validate_quantization original_model quantized_model;;
  print (LF ++ "Saving quantized model to: " ++ str OUTPUT_MODEL);;
  save quantized_model (str OUTPUT_MODEL).

(** Lines 142-153: the rest of [main]. *)
Definition main_after_save : M unit :=
  print_file_sizes;;
  print (LF ++ "✅ Done! Update MiniLMEmbeddings.swift to load the quantized model.");;
  print (str_mul "=" 60).

(** The whole file, run as a program. *)
Definition script : M unit := import_guard;; main.

End Script.

(* ===================================================================== *)
(** ** Reading a trace *)
(* ===================================================================== *)

Section Traces.

Context {TK : Toolkit}.

(** The lines printed, in order. *)
Definition printed (tr : list event) : list string :=
  flat_map (fun ev => match ev with EvPrint l => [l] | _ => [] end) tr.

(** The configurations built, in order. *)
Definition configs_built (tr : list event) : list OptimizationConfig :=
  flat_map (fun ev => match ev with EvConfig c => [c] | _ => [] end) tr.

(** The configurations handed to [cto.linear_quantize_weights], in order. *)
Definition quantize_calls (tr : list event) : list OptimizationConfig :=
  flat_map (fun ev => match ev with
                      | EvLinearQuantizeWeights _ c => [c]
                      | _ => []
                      end) tr.

(** The paths handed to [ct.models.MLModel], in order. *)
Definition loads (tr : list event) : list string :=
  flat_map (fun ev => match ev with EvLoad p => [p] | _ => [] end) tr.

(** The paths the run asked the file system about, in order. *)
Definition paths_examined (tr : list event) : list Path :=
  flat_map (fun ev => match ev with
                      | EvExists p | EvIterdir p | EvRglob p
                      | EvIsFile p | EvStat p => [p]
                      | _ => []
                      end) tr.

(** The models saved, each with the path it went to, in order. *)
Definition saves (tr : list event) : list (MLModel * string) :=
  flat_map (fun ev => match ev with EvSave m p => [(m, p)] | _ => [] end) tr.

(** What [quantize_model] leaves on the trace before its [try]. *)
Definition quantize_prelude (model_path : Path) (model : MLModel) : list event :=
  [ EvPrint ("Loading model from: " ++ str model_path);
    EvLoad (str model_path);
    EvPrint "Model info:";
    EvPrint ("  - Spec version: " ++ str_int (specificationVersion model));
    EvConfig config;
    EvPrint (LF ++ "Applying W8A8 quantization...");
    EvPrint "  - Mode: linear_symmetric";
    EvPrint "  - Weight bits: 8";
    EvPrint "  - Activation bits: 8 (dynamic)" ].

(** What its [except] clause leaves up to the second attempt. *)
Definition fallback_prelude (model : MLModel) (e : exn) : list event :=
  [ EvPrint "Warning: Full W8A8 not supported, falling back to weight-only quantization";
    EvPrint ("Error: " ++ exn_str e);
    EvConfig fallback_config;
    EvLinearQuantizeWeights model fallback_config ].

(** What [validate_quantization] prints. *)
Definition validation_lines (original quantized : MLModel) : list event :=
  [ EvPrint (LF ++ "Quantization validation:");
    EvPrint ("  - Original spec version: " ++ str_int (specificationVersion original));
    EvPrint ("  - Quantized spec version: " ++ str_int (specificationVersion quantized));
    EvPrint "  - ✅ Model quantized successfully" ].

(** The banner [main] opens with. *)
Definition banner : list event :=
  [ EvPrint (str_mul "=" 60);
    EvPrint "Wax MiniLM-L6-v2 W8A8 Quantization";
    EvPrint (str_mul "=" 60);
    EvPrint "" ].

(** The lines [main] closes with. *)
Definition closing : list event :=
  [ EvPrint (LF ++ "✅ Done! Update MiniLMEmbeddings.swift to load the quantized model.");
    EvPrint (str_mul "=" 60) ].

(** The directory listing [find_model] prints before it gives up: nothing
    when the directory is missing; when [iterdir] raises, the attempt
    alone. *)
Definition listing (t : node) (d : Path) : list event :=
  if fs_exists t d
  then EvIterdir d ::
       match fs_iterdir t d with
       | Ok files => map (fun f => EvPrint ("  - " ++ name f)) files
       | Raise _ => []
       end
  else [].

(** The directories listed with [iterdir], in order. *)
Definition iterdirs (tr : list event) : list Path :=
  flat_map (fun ev => match ev with EvIterdir p => [p] | _ => [] end) tr.

(** What the summing of one bundle asks of the file system: [is_file] for
    every path found, [stat] for the regular files among them. *)
Definition size_events (t : node) (files : list Path) : list event :=
  flat_map (fun f => if fs_is_file t f then [EvIsFile f; EvStat f] else [EvIsFile f])
           files.

(** What lines 143-145 leave on the trace when both paths exist. *)
Definition measuring (t : node) (source output : Path) : list event :=
  [EvExists source; EvExists output; EvRglob source]
  ++ size_events t (fs_rglob t source)
  ++ [EvRglob output]
  ++ size_events t (fs_rglob t output).

(** A byte count in units of 2^20 bytes, to two decimals. *)
Definition megabytes (n : Z) : string :=
  Float.format_f 2 (Float.div (Float.quotient n 1024) (Float.of_Z 1024)).

(** [(1 - quantized_size / original_size) * 100], to one decimal. *)
Definition reduction_percent (original_size quantized_size : Z) : string :=
  Float.format_f 1
    (Float.mul (Float.sub (Float.of_Z 1) (Float.quotient quantized_size original_size))
               (Float.of_Z 100)).

(** The size report, complete. *)
Definition size_report (original_size quantized_size : Z) : list event :=
  [ EvPrint (LF ++ "Size comparison:");
    EvPrint ("  - Original:  " ++ megabytes original_size ++ " MB");
    EvPrint ("  - Quantized: " ++ megabytes quantized_size ++ " MB");
    EvPrint ("  - Reduction: " ++ reduction_percent original_size quantized_size ++ "%") ].

(** The size report shows on a trace by its heading. *)
Definition report_printed (tr : list event) : Prop :=
  In (LF ++ "Size comparison:") (printed tr).

(** The [try] of the import guard fails from world [w], leaving [w'], with
    [e]: the first [import] raises it, or the second after the first went
    through. *)
Definition import_fails (w w' : world) (e : exn) : Prop :=
  import_module "coremltools" w = (w', Raise e) \/
  exists w1,
    import_module "coremltools" w = (w1, Ok tt) /\
    import_module "coremltools.optimize.coreml" w1 = (w', Raise e).

(** [s] with [tr] added to its trace. *)
Definition log (s : state) (tr : list event) : state :=
  mkState (st_world s) (st_trace s ++ tr)%list.

End Traces.

(* ===================================================================== *)
(** ** A standard output that can refuse a line *)
(* ===================================================================== *)

(** [print] above writes to a stream that takes every line. Python's
    [print] raises what the stream's [write] raises: a [UnicodeEncodeError]
    when the encoding of the stream has no byte for a character of the
    line, an [OSError] when the write fails. Of the prints of the script,
    the one at line 88 stands inside a [try]; so [quantize_model] is given
    a second time here, over a stream that is a parameter. *)

Module Stdout.

Section Stream.

Context {TK : Toolkit}.

(** What [sys.stdout] answers when it is handed a line, in a given world. *)
Variable stdout : string -> world -> result unit.

(** [print(line)]: the line is on the trace when the stream took it. *)
Definition print (line : string) : M unit :=
  fun s =>
    match stdout line (st_world s) with
    | Ok _ => (mkState (st_world s) (st_trace s ++ [EvPrint line])%list, Ok tt)
    | Raise e => (s, Raise e)
    end.

(** The stream takes each of the lines, in world [w]. *)
Definition takes (w : world) (lines : list string) : Prop :=
  Forall (fun line => stdout line w = Ok tt) lines.

(** Lines 61-103. *)
Definition quantize_model (model_path : Path) : M MLModel :=
  print ("Loading model from: " ++ str model_path);;
  model <- ct_models_MLModel (str model_path);;
  print "Model info:";;
  print ("  - Spec version: " ++ str_int (specificationVersion model));;
  config <- cto_OptimizationConfig config;;
  print (LF ++ "Applying W8A8 quantization...");;
  print "  - Mode: linear_symmetric";;
  print "  - Weight bits: 8";;
  print "  - Activation bits: 8 (dynamic)";;
  try_except
    (quantized_model <- linear_quantize_weights model config;;
     print "✅ Quantization complete";;
     ret quantized_model)
    isinstance_Exception
    (fun e =>
       print "Warning: Full W8A8 not supported, falling back to weight-only quantization";;
       print ("Error: " ++ exn_str e);;
       fallback_config <- cto_OptimizationConfig fallback_config;;
       quantized_model <- linear_quantize_weights model fallback_config;;
       print "✅ Weight-only INT8 quantization complete";;
       ret quantized_model).

End Stream.

(** *** A stream that takes every line *)

Definition accepting {TK : Toolkit} (line : string) (w : world) : result unit :=
  Ok tt.

(** *** A stream encoded in ASCII, with [errors="strict"] *)

(** The code points of a [str], read off its UTF-8 bytes. *)
Fixpoint code_points (bytes : list N) : list N :=
  match bytes with
  | [] => []
  | b0 :: r0 =>
      if (b0 <? 128)%N then b0 :: code_points r0
      else
        match r0 with
        | [] => [b0]
        | b1 :: r1 =>
            if (b0 <? 224)%N
            then ((b0 mod 32) * 64 + b1 mod 64)%N :: code_points r1
            else
              match r1 with
              | [] => [b0; b1]
              | b2 :: r2 =>
                  if (b0 <? 240)%N
                  then ((b0 mod 16) * 4096 + (b1 mod 64) * 64 + b2 mod 64)%N
                       :: code_points r2
                  else
                    match r2 with
                    | [] => [b0; b1; b2]
                    | b3 :: r3 =>
                        ((b0 mod 8) * 262144 + (b1 mod 64) * 4096
                         + (b2 mod 64) * 64 + b3 mod 64)%N
                        :: code_points r3
                    end
              end
        end
  end.

Definition ords (s : string) : list N :=
  code_points (map N_of_ascii (list_ascii_of_string s)).

(** [n] in hexadecimal, on [width] digits. *)
Fixpoint hex (width : nat) (n : N) : string :=
  match width with
  | O => ""
  | S w => hex w (n / 16) ++ substring (N.to_nat (n mod 16)) 1 "0123456789abcdef"
  end.

(** A character outside ASCII, the way an error message shows it. *)
Definition escaped (c : N) : string :=
  if (c <? 256)%N then "\x" ++ hex 2 c
  else if (c <? 65536)%N then "\u" ++ hex 4 c
  else "\U" ++ hex 8 c.

(** How many characters at the head of [cs] are outside ASCII. *)
Fixpoint run_length (cs : list N) : nat :=
  match cs with
  | [] => O
  | c :: rest => if (c <? 128)%N then O else S (run_length rest)
  end.

(** The first character outside ASCII from position [i] on: where it is,
    what it is, and how many more of them follow it. *)
Fixpoint first_unencodable (cs : list N) (i : nat) : option (nat * N * nat) :=
  match cs with
  | [] => None
  | c :: rest =>
      if (c <? 128)%N then first_unencodable rest (S i)
      else Some (i, c, run_length rest)
  end.

(** [str(e)] of the [UnicodeEncodeError] of the ASCII codec. *)
Definition cannot_encode (i : nat) (c : N) (more : nat) : string :=
  match more with
  | O => "'ascii' codec can't encode character '" ++ escaped c
         ++ "' in position " ++ str_int (Z.of_nat i)
         ++ ": ordinal not in range(128)"
  | S _ => "'ascii' codec can't encode characters in position "
           ++ str_int (Z.of_nat i) ++ "-" ++ str_int (Z.of_nat (i + more))
           ++ ": ordinal not in range(128)"
  end.

(** A line is taken when all of it is ASCII. *)
Definition ascii {TK : Toolkit} (line : string) (w : world) : result unit :=
  match first_unencodable (ords line) 0 with
  | None => Ok tt
  | Some (i, c, more) =>
      Raise (mkExn (OtherException "UnicodeEncodeError") (cannot_encode i c more))
  end.

End Stdout.

(* ===================================================================== *)
(** ** A fake toolkit, made to fail on demand *)
(* ===================================================================== *)

Module Fake.

(** A model handle: its specification version and whether it came out of
    the quantizer. *)
Record model := mkModel { version : Z; quantized : bool }.

(** How the fake behaves: the outcome of each kind of call, and the file
    system that a save leaves behind. *)
Record behaviour := mkBehaviour {
  on_import : result unit;
  on_load : result model;
  on_full : result model;
  on_fallback : result model;
  on_save : result unit;
  after_save : node
}.

(** The full configuration is told from the fallback by the keyword the
    script passes only there. *)
Definition is_full (c : OptimizationConfig) : bool :=
  match weight_threshold (global_config c) with
  | Some _ => true
  | None => false
  end.

Definition toolkit (b : behaviour) : Toolkit :=
  {| world := node;
     fs := fun w => w;
     MLModel := model;
     import_module := fun _ w => (w, on_import b);
     MLModel_load := fun _ w => (w, on_load b);
     specificationVersion := version;
     cto_linear_quantize_weights :=
       fun _ c w => (w, if is_full c then on_full b else on_fallback b);
     MLModel_save := fun _ _ w =>
       match on_save b with
       | Ok _ => (after_save b, Ok tt)
       | Raise e => (w, Raise e)
       end |}.

(** A checkout at [/repo] with the script in [/repo/scripts]. *)
Definition script_file : Path := ["repo"; "scripts"; "quantize_minilm.py"].

(** The checkout with the given entries in its resources directory. *)
Definition checkout (resources : list (string * node)) : node :=
  Dir 4096
    [("repo", Dir 4096
       [("scripts", Dir 4096 [("quantize_minilm.py", File 5120)]);
        ("Sources", Dir 4096
           [("WaxVectorSearchMiniLM", Dir 4096
              [("Resources", Dir 4096 resources)])])])].

(** A compiled bundle whose files add up to [n] bytes. *)
Definition bundle (n : N) : node :=
  Dir 4096
    [("model.mil", File 1024);
     ("weights", Dir 4096 [("weight.bin", File (n - 1024))])].

Definition MiB : N := 1048576.

Definition original : model := mkModel 7 false.
Definition quantized_full : model := mkModel 7 true.
Definition quantized_fallback : model := mkModel 8 true.

Definition unsupported : exn :=
  mkExn (OtherException "ValueError") "activation quantization is not supported".

Definition start (b : behaviour) (t : node) : @state (toolkit b) :=
  @mkState (toolkit b) t [].

Definition source_bundle : string * node :=
  ("all-MiniLM-L6-v2.mlmodelc", bundle (100 * MiB)).
Definition source_file : string * node :=
  ("all-MiniLM-L6-v2.mlmodelc", File 90000000).
Definition package_bundle : string * node :=
  ("all-MiniLM-L6-v2.mlpackage", bundle (100 * MiB)).
Definition plain_model : string * node :=
  ("model.mlmodel", File 90000000).
Definition output_bundle : string * node :=
  ("all-MiniLM-L6-v2-W8A8.mlmodelc", bundle (26 * MiB)).

(** Everything works; the save leaves the output bundle next to the
    primary bundle. *)
Definition happy : behaviour :=
  mkBehaviour (Ok tt) (Ok original) (Ok quantized_full) (Ok quantized_fallback)
              (Ok tt) (checkout [source_bundle; output_bundle]).

(** The full configuration is refused. *)
Definition full_unsupported : behaviour :=
  mkBehaviour (Ok tt) (Ok original) (Raise unsupported) (Ok quantized_fallback)
              (Ok tt) (checkout [source_bundle; output_bundle]).

(** Both configurations are refused. *)
Definition nothing_supported : behaviour :=
  mkBehaviour (Ok tt) (Ok original) (Raise unsupported) (Raise unsupported)
              (Ok tt) (checkout [source_bundle; output_bundle]).

(** The toolkit is not installed. *)
Definition not_installed : behaviour :=
  mkBehaviour (Raise (mkExn ModuleNotFoundError "No module named 'coremltools'"))
              (Ok original) (Ok quantized_full) (Ok quantized_fallback)
              (Ok tt) (checkout [source_bundle; output_bundle]).


(** The primary path holds a single file; the save leaves the output bundle
    next to it. *)
Definition single_file_source : behaviour :=
  mkBehaviour (Ok tt) (Ok original) (Ok quantized_full) (Ok quantized_fallback)
              (Ok tt) (checkout [source_file; output_bundle]).

(** The first quantizer call is interrupted from the keyboard. *)
Definition interrupted : behaviour :=
  mkBehaviour (Ok tt) (Ok original) (Raise (mkExn KeyboardInterrupt ""))
              (Ok quantized_fallback) (Ok tt)
              (checkout [source_bundle; output_bundle]).

(** The model cannot be read. *)
Definition unreadable : behaviour :=
  mkBehaviour (Ok tt)
              (Raise (mkExn (OtherException "RuntimeError") "Error compiling model"))
              (Ok quantized_full) (Ok quantized_fallback) (Ok tt)
              (checkout [source_bundle; output_bundle]).

(** The output path cannot be written. *)
Definition unwritable : behaviour :=
  mkBehaviour (Ok tt) (Ok original) (Ok quantized_full) (Ok quantized_fallback)
              (Raise (mkExn (OtherException "PermissionError") "Permission denied"))
              (checkout [source_bundle]).

(** The toolkit breaks while it is imported, with something other than an
    [ImportError]. *)
Definition broken_install : behaviour :=
  mkBehaviour (Raise (mkExn (OtherException "AttributeError")
                            "module 'numpy' has no attribute 'bool'"))
              (Ok original) (Ok quantized_full) (Ok quantized_fallback)
              (Ok tt) (checkout [source_bundle; output_bundle]).

(** The primary bundle holds directories only; the save leaves the output
    bundle next to it. *)
Definition hollow_source : behaviour :=
  mkBehaviour (Ok tt) (Ok original) (Ok quantized_full) (Ok quantized_fallback)
              (Ok tt)
              (checkout [("all-MiniLM-L6-v2.mlmodelc", Dir 4096 [("weights", Dir 4096 [])]);
                         output_bundle]).


(** The model is a package, found at the first alternate path; the save
    leaves the output bundle next to it. *)
Definition from_package : behaviour :=
  mkBehaviour (Ok tt) (Ok original) (Ok quantized_full) (Ok quantized_fallback)
              (Ok tt) (checkout [package_bundle; output_bundle]).

(** The state a run of [main] is in right after its save. *)
Definition saved (b : behaviour) (t : node) : @state (toolkit b) :=
  fst (@main_until_save (toolkit b) script_file (start b t)).

End Fake.

(* ===================================================================== *)
(** ** Specifying what a statement may do *)
(* ===================================================================== *)

Section Specifying.

Context {TK : Toolkit}.

(** Whatever state [m] starts in, what it adds to the trace and the outcome
    it ends in satisfy [Q]. *)
Definition traces {A} (Q : list event -> result A -> Prop) (m : M A) : Prop :=
  forall s, exists tr,
      st_trace (fst (m s)) = (st_trace s ++ tr)%list /\ Q tr (snd (m s)).

(** Every event [m] adds to the trace satisfies [P]. *)
Definition emits {A} (P : event -> Prop) (m : M A) : Prop :=
  traces (fun tr _ => Forall P tr) m.

(** [m] leaves the world as it found it. *)
Definition keeps_world {A} (m : M A) : Prop :=
  forall s, st_world (fst (m s)) = st_world s.

(** What the locator may do: print, ask whether a candidate or the
    resources directory exists, list the resources directory. *)
Definition locator_event (script_file : Path) (ev : event) : Prop :=
  match ev with
  | EvPrint _ => True
  | EvExists p => In p (candidates script_file) \/ p = RESOURCES_DIR script_file
  | EvIterdir p => p = RESOURCES_DIR script_file
  | _ => False
  end.

(** What [quantize_model] may do: print, load the model at its path, build
    one of the two configurations, call the quantizer with one of them. *)
Definition quantizer_event (model_path : Path) (ev : event) : Prop :=
  match ev with
  | EvPrint _ => True
  | EvLoad path => path = str model_path
  | EvConfig c | EvLinearQuantizeWeights _ c => c = config \/ c = fallback_config
  | _ => False
  end.

(** [q] is [p] or lies below it. *)
Definition below (p q : Path) : Prop := exists rest, q = (p ++ rest)%list.

(** What lines 143-153 may do: print, and look at the primary path, the
    output path and what lies below them. *)
Definition report_event (script_file : Path) (ev : event) : Prop :=
  match ev with
  | EvPrint _ => True
  | EvExists p | EvRglob p =>
      p = SOURCE_MODEL script_file \/ p = OUTPUT_MODEL script_file
  | EvIsFile p | EvStat p =>
      below (SOURCE_MODEL script_file) p \/ below (OUTPUT_MODEL script_file) p
  | _ => False
  end.

(** What [main] may do with the toolkit and the file system: load a
    candidate, save to the output path, and whatever its parts may do. *)
Definition main_event (script_file : Path) (ev : event) : Prop :=
  match ev with
  | EvImport _ => False
  | EvLoad path => exists p, In p (candidates script_file) /\ path = str p
  | EvSave _ path => path = str (OUTPUT_MODEL script_file)
  | EvConfig c | EvLinearQuantizeWeights _ c => c = config \/ c = fallback_config
  | EvExists p =>
      In p (candidates script_file) \/ p = RESOURCES_DIR script_file
      \/ p = OUTPUT_MODEL script_file
  | EvIterdir p => p = RESOURCES_DIR script_file
  | EvRglob p => p = SOURCE_MODEL script_file \/ p = OUTPUT_MODEL script_file
  | EvIsFile p | EvStat p =>
      below (SOURCE_MODEL script_file) p \/ below (OUTPUT_MODEL script_file) p
  | EvPrint _ => True
  end.

End Specifying.

(** A tree in which no directory, at any depth, lists a name twice. *)
Fixpoint well_formed (n : node) : Prop :=
  match n with
  | File _ => True
  | Dir _ es =>
      NoDup (map fst es) /\
      (fix all (l : list (string * node)) : Prop :=
         match l with
         | [] => True
         | e :: rest => well_formed (snd e) /\ all rest
         end) es
  end.

(** The bytes in the regular files strictly below a node, at any depth; the
    sizes of the directories themselves do not count. *)
Fixpoint files_total (n : node) : N :=
  match n with
  | File _ => 0%N
  | Dir _ es =>
      (fix total (l : list (string * node)) : N :=
         match l with
         | [] => 0%N
         | e :: rest =>
             (match snd e with
              | File sz => sz
              | Dir _ _ => files_total (snd e)
              end + total rest)%N
         end) es
  end.

(** The bytes of the regular files among the nodes found. *)
Definition found_bytes (found : list (Path * node)) : Z :=
  fold_right (fun e acc => match snd e with
                           | File sz => Z.of_N sz + acc
                           | Dir _ _ => acc
                           end) 0%Z found.

(* ===================================================================== *)
(** ** Running statements *)
(* ===================================================================== *)

Local Open Scope list_scope.

Section Running.

Context {TK : Toolkit}.

Lemma bind_ok {A B} (m : M A) (k : A -> M B) s s' a :
  m s = (s', Ok a) -> bind m k s = k a s'.
Proof. intros H. unfold bind. rewrite H. reflexivity. Qed.

Lemma bind_raise {A B} (m : M A) (k : A -> M B) s s' e :
  m s = (s', Raise e) -> bind m k s = (s', Raise e).
Proof. intros H. unfold bind. rewrite H. reflexivity. Qed.

Lemma bind_assoc {A B C} (m : M A) (k : A -> M B) (h : B -> M C) s :
  bind (bind m k) h s = bind m (fun a => bind (k a) h) s.
Proof. unfold bind. destruct (m s) as [s' [a | e]]; reflexivity. Qed.

Lemma log_nil s : log s [] = s.
Proof. destruct s. unfold log. cbn [st_world st_trace]. rewrite app_nil_r. reflexivity. Qed.

Lemma log_log s tr1 tr2 : log (log s tr1) tr2 = log s (tr1 ++ tr2).
Proof. unfold log. cbn [st_world st_trace]. rewrite app_assoc. reflexivity. Qed.

Lemma run_emit ev s : emit ev s = (log s [ev], Ok tt).
Proof. reflexivity. Qed.

Lemma run_print line s : print line s = (log s [EvPrint line], Ok tt).
Proof. reflexivity. Qed.

Lemma run_exists p s :
  exists_ p s = (log s [EvExists p], Ok (fs_exists (fs (st_world s)) p)).
Proof. reflexivity. Qed.

Lemma run_config c s :
  cto_OptimizationConfig c s = (log s [EvConfig c], Ok c).
Proof. reflexivity. Qed.

Lemma run_load path s w r :
  MLModel_load path (st_world s) = (w, r) ->
  ct_models_MLModel path s = (mkState w (st_trace s ++ [EvLoad path]), r).
Proof.
  intros H. unfold ct_models_MLModel, bind, emit, call. cbn [st_world st_trace].
  rewrite H. destruct r; reflexivity.
Qed.

Lemma run_quantize model c s w r :
  cto_linear_quantize_weights model c (st_world s) = (w, r) ->
  linear_quantize_weights model c s
  = (mkState w (st_trace s ++ [EvLinearQuantizeWeights model c]), r).
Proof.
  intros H. unfold linear_quantize_weights, bind, emit, call.
  cbn [st_world st_trace]. rewrite H. destruct r; reflexivity.
Qed.

Lemma run_save model path s w r :
  MLModel_save model path (st_world s) = (w, r) ->
  save model path s = (mkState w (st_trace s ++ [EvSave model path]), r).
Proof.
  intros H. unfold save, bind, emit, call. cbn [st_world st_trace].
  rewrite H. destruct r as [[] | e]; reflexivity.
Qed.

(** [quantize_model] up to its [try]: the load, the report of the
    specification version and the full configuration. *)
Lemma quantize_model_full_attempt model_path s w1 model w2 r :
  MLModel_load (str model_path) (st_world s) = (w1, Ok model) ->
  cto_linear_quantize_weights model config w1 = (w2, r) ->
  quantize_model model_path s
  = match r with
    | Ok q =>
        (mkState w2 (st_trace s ++ quantize_prelude model_path model
                       ++ [EvLinearQuantizeWeights model config;
                           EvPrint "✅ Quantization complete"]),
         Ok q)
    | Raise e =>
        if isinstance_Exception e
        then
          let (w3, r') := cto_linear_quantize_weights model fallback_config w2 in
          (mkState w3 (st_trace s ++ quantize_prelude model_path model
                         ++ [EvLinearQuantizeWeights model config]
                         ++ fallback_prelude model e
                         ++ match r' with
                            | Ok _ => [EvPrint "✅ Weight-only INT8 quantization complete"]
                            | Raise _ => []
                            end),
           r')
        else
          (mkState w2 (st_trace s ++ quantize_prelude model_path model
                         ++ [EvLinearQuantizeWeights model config]),
           Raise e)
    end.
Proof.
  intros Hload Hfull.
  unfold quantize_model.
  rewrite (bind_ok _ _ _ _ _ (run_print _ _)).
  erewrite bind_ok by (apply run_load; cbn [log st_world st_trace]; exact Hload).
  rewrite (bind_ok _ _ _ _ _ (run_print _ _)).
  rewrite (bind_ok _ _ _ _ _ (run_print _ _)).
  rewrite (bind_ok _ _ _ _ _ (run_config _ _)).
  do 4 rewrite (bind_ok _ _ _ _ _ (run_print _ _)).
  unfold try_except.
  destruct r as [q | e].
  - erewrite bind_ok by (apply run_quantize; cbn [log st_world st_trace]; exact Hfull).
    rewrite (bind_ok _ _ _ _ _ (run_print _ _)).
    unfold ret, log, quantize_prelude. cbn [st_world st_trace].
    repeat rewrite <- app_assoc. reflexivity.
  - erewrite bind_raise by (apply run_quantize; cbn [log st_world st_trace]; exact Hfull).
    destruct (isinstance_Exception e).
    + do 2 rewrite (bind_ok _ _ _ _ _ (run_print _ _)).
      rewrite (bind_ok _ _ _ _ _ (run_config _ _)).
      destruct (cto_linear_quantize_weights model fallback_config w2) as [w3 r'] eqn:Hfb.
      destruct r' as [q | e'].
      * erewrite bind_ok by (apply run_quantize; cbn [log st_world st_trace]; exact Hfb).
        rewrite (bind_ok _ _ _ _ _ (run_print _ _)).
        unfold ret, log, quantize_prelude, fallback_prelude. cbn [st_world st_trace].
        repeat rewrite <- app_assoc. reflexivity.
      * erewrite bind_raise by (apply run_quantize; cbn [log st_world st_trace]; exact Hfb).
        unfold log, quantize_prelude, fallback_prelude. cbn [st_world st_trace].
        repeat rewrite <- app_assoc. reflexivity.
    + unfold log, quantize_prelude. cbn [st_world st_trace].
      repeat rewrite <- app_assoc. reflexivity.
Qed.

End Running.

(* ===================================================================== *)
(** ** Running [quantize_model] over a stream *)
(* ===================================================================== *)

Section StreamRunning.

Context {TK : Toolkit}.

Variable stdout : string -> world -> result unit.

(** Over a stream that takes every line, [Stdout.quantize_model] is
    [quantize_model]. *)
Lemma quantize_model_on_accepting_stdout model_path :
  Stdout.quantize_model Stdout.accepting model_path = quantize_model model_path.
Proof. reflexivity. Qed.

Lemma run_stdout_print line s :
  stdout line (st_world s) = Ok tt ->
  Stdout.print stdout line s = (log s [EvPrint line], Ok tt).
Proof. intros H. unfold Stdout.print. rewrite H. reflexivity. Qed.

Lemma run_stdout_print_refused line s e :
  stdout line (st_world s) = Raise e ->
  Stdout.print stdout line s = (s, Raise e).
Proof. intros H. unfold Stdout.print. rewrite H. reflexivity. Qed.

(** [Stdout.quantize_model] up to its [try], on a stream that takes the
    lines printed on the way there. *)
Lemma stdout_quantize_model_prelude model_path s w1 model :
  Stdout.takes stdout (st_world s) [("Loading model from: " ++ str model_path)%string] ->
  MLModel_load (str model_path) (st_world s) = (w1, Ok model) ->
  Stdout.takes stdout w1 (tl (printed (quantize_prelude model_path model))) ->
  Stdout.quantize_model stdout model_path s
  = try_except
      (quantized_model <- linear_quantize_weights model config;;
       Stdout.print stdout "✅ Quantization complete";;
       ret quantized_model)
      isinstance_Exception
      (fun e =>
         Stdout.print stdout "Warning: Full W8A8 not supported, falling back to weight-only quantization";;
         Stdout.print stdout ("Error: " ++ exn_str e);;
         fallback_config <- cto_OptimizationConfig fallback_config;;
         quantized_model <- linear_quantize_weights model fallback_config;;
         Stdout.print stdout "✅ Weight-only INT8 quantization complete";;
         ret quantized_model)
      (mkState w1 (st_trace s ++ quantize_prelude model_path model)).
Proof.
  intros H0 Hload H1.
  apply Forall_inv in H0.
  unfold quantize_prelude, printed in H1. cbn [flat_map app tl] in H1.
  unfold Stdout.takes in H1.
  repeat match goal with
         | H : Forall _ (_ :: _) |- _ =>
             let Hh := fresh "Hline" in
             pose proof (Forall_inv H) as Hh; apply Forall_inv_tail in H;
             cbv beta in Hh
         end.
  clear H1.
  unfold Stdout.quantize_model.
  erewrite bind_ok by (apply run_stdout_print; exact H0).
  erewrite bind_ok by (apply run_load; cbn [log st_world st_trace]; exact Hload).
  erewrite bind_ok by (apply run_stdout_print; cbn [st_world]; assumption).
  erewrite bind_ok by (apply run_stdout_print; cbn [log st_world]; assumption).
  rewrite (bind_ok _ _ _ _ _ (run_config _ _)).
  do 4 (erewrite bind_ok by (apply run_stdout_print; cbn [log st_world]; assumption)).
  unfold log, quantize_prelude. cbn [st_world st_trace].
  repeat rewrite <- app_assoc. reflexivity.
Qed.

End StreamRunning.

Section Locator.

Context {TK : Toolkit}.
Variable script_file : Path.

Lemma run_for_each_print (g : Path -> string) files s :
  for_each files (fun f => print (g f)) s
  = (log s (map (fun f => EvPrint (g f)) files), Ok tt).
Proof.
  revert s. induction files as [| f rest IH]; intros s.
  - cbn [for_each map]. rewrite log_nil. reflexivity.
  - cbn [for_each map].
    rewrite (bind_ok _ _ _ _ _ (run_print _ _)).
    rewrite IH, log_log. reflexivity.
Qed.

Lemma run_iterdir p s :
  iterdir p s = (log s [EvIterdir p], fs_iterdir (fs (st_world s)) p).
Proof.
  unfold iterdir, bind, emit, read_fs, lift, log. cbn [st_world st_trace].
  reflexivity.
Qed.

(** The loop over the alternates stops at the first one that exists. *)
Lemma find_model_loop_first pre p post s :
  (forall q, In q pre -> fs_exists (fs (st_world s)) q = false) ->
  fs_exists (fs (st_world s)) p = true ->
  find_model_loop (pre ++ p :: post) s
  = (log s (map EvExists (pre ++ [p])), Ok (Some p)).
Proof.
  revert s. induction pre as [| a pre IH]; intros s Hpre Hp.
  - cbn [app find_model_loop map].
    rewrite (bind_ok _ _ _ _ _ (run_exists _ _)), Hp. reflexivity.
  - cbn [app find_model_loop map].
    rewrite (bind_ok _ _ _ _ _ (run_exists _ _)).
    rewrite (Hpre a (or_introl eq_refl)).
    rewrite IH.
    + rewrite log_log. reflexivity.
    + intros q Hq. apply Hpre. right. exact Hq.
    + exact Hp.
Qed.

(** The loop runs to its end when no path exists. *)
Lemma find_model_loop_none paths s :
  (forall q, In q paths -> fs_exists (fs (st_world s)) q = false) ->
  find_model_loop paths s = (log s (map EvExists paths), Ok None).
Proof.
  revert s. induction paths as [| a rest IH]; intros s Hall.
  - cbn [find_model_loop map]. rewrite log_nil. reflexivity.
  - cbn [find_model_loop map].
    rewrite (bind_ok _ _ _ _ _ (run_exists _ _)).
    rewrite (Hall a (or_introl eq_refl)).
    rewrite IH.
    + rewrite log_log. reflexivity.
    + intros q Hq. apply Hall. right. exact Hq.
Qed.

Lemma find_model_first pre p post s :
  candidates script_file = pre ++ p :: post ->
  (forall q, In q pre -> fs_exists (fs (st_world s)) q = false) ->
  fs_exists (fs (st_world s)) p = true ->
  find_model script_file s = (log s (map EvExists (pre ++ [p])), Ok p).
Proof.
  intros Hc Hpre Hp. unfold find_model.
  rewrite (bind_ok _ _ _ _ _ (run_exists _ _)).
  destruct pre as [| a pre].
  - cbn [app] in Hc. unfold candidates in Hc. injection Hc as Hs _. subst p.
    rewrite Hp. reflexivity.
  - cbn [app] in Hc. unfold candidates in Hc. injection Hc as Hs Halt. subst a.
    rewrite (Hpre _ (or_introl eq_refl)).
    rewrite Halt.
    erewrite bind_ok.
    2:{ apply find_model_loop_first.
        - intros q Hq. apply Hpre. right. exact Hq.
        - exact Hp. }
    cbn [app map]. rewrite log_log. reflexivity.
Qed.

(** What the locator leaves on the trace when it finds nothing. *)
Lemma find_model_nothing s :
  (forall q, In q (candidates script_file) ->
             fs_exists (fs (st_world s)) q = false) ->
  find_model script_file s
  = (log s (map EvExists (candidates script_file)
            ++ [EvPrint ("Error: Could not find source model at "
                         ++ str (SOURCE_MODEL script_file));
                EvPrint "Available files in Resources:";
                EvExists (RESOURCES_DIR script_file)]
            ++ listing (fs (st_world s)) (RESOURCES_DIR script_file)),
     Raise (if fs_exists (fs (st_world s)) (RESOURCES_DIR script_file)
            then match fs_iterdir (fs (st_world s)) (RESOURCES_DIR script_file) with
                 | Ok _ => mkExn (SystemExit 1) "1"
                 | Raise e => e
                 end
            else mkExn (SystemExit 1) "1")).
Proof.
  intros Hall. unfold find_model.
  rewrite (bind_ok _ _ _ _ _ (run_exists _ _)).
  rewrite (Hall _ (or_introl eq_refl)).
  erewrite bind_ok.
  2:{ apply find_model_loop_none. intros q Hq. apply Hall. right. exact Hq. }
  cbv beta iota.
  do 2 rewrite (bind_ok _ _ _ _ _ (run_print _ _)).
  rewrite (bind_ok _ _ _ _ _ (run_exists _ _)).
  unfold listing. cbn [log st_world].
  destruct (fs_exists (fs (st_world s)) (RESOURCES_DIR script_file)).
  - rewrite bind_assoc.
    destruct (fs_iterdir (fs (st_world s)) (RESOURCES_DIR script_file))
      as [files | e] eqn:Hit.
    + erewrite bind_ok.
      2:{ rewrite run_iterdir. cbn [log st_world]. rewrite Hit. reflexivity. }
      rewrite (bind_ok _ _ _ _ _ (run_for_each_print _ _ _)).
      unfold sys_exit, raise. rewrite !log_log. cbn [app map candidates].
      reflexivity.
    + erewrite bind_raise.
      2:{ rewrite run_iterdir. cbn [log st_world]. rewrite Hit. reflexivity. }
      rewrite !log_log. cbn [app map candidates]. reflexivity.
  - erewrite bind_ok by reflexivity.
    unfold sys_exit, raise. rewrite !log_log. cbn [app map candidates].
    reflexivity.
Qed.

End Locator.

(* ===================================================================== *)
(** ** The two-tier quantization *)
(* ===================================================================== *)

Section Quantization.

Context {TK : Toolkit}.

Lemma config_neq_fallback : config <> fallback_config.
Proof. discriminate. Qed.

(** C1: when the first attempt, made with the full configuration, raises
    an error (an exception below [Exception], the class the [except]
    clause names), [quantize_model] catches it, prints a warning that
    contains "falling back", builds the weight-only configuration and calls
    the quantizer with it exactly once, on the same model; the outcome of
    that second call is the outcome of [quantize_model], so that an
    exception raised by the second attempt leaves it uncaught. *)
Theorem C1_fallback_invoked_once :
  forall (model_path : Path) (s : state) w1 model w2 e,
    MLModel_load (str model_path) (st_world s) = (w1, Ok model) ->
    cto_linear_quantize_weights model config w1 = (w2, Raise e) ->
    isinstance_Exception e = true ->
    exists w3 r tr,
      cto_linear_quantize_weights model fallback_config w2 = (w3, r) /\
      quantize_model model_path s = (mkState w3 (st_trace s ++ tr), r) /\
      quantize_calls tr = [config; fallback_config] /\
      configs_built tr = [config; fallback_config] /\
      In (EvLinearQuantizeWeights model fallback_config) tr /\
      (exists line, In line (printed tr) /\
                    str_contains "falling back" line = true) /\
      (forall e', r = Raise e' ->
                  snd (quantize_model model_path s) = Raise e').
Proof.
  intros model_path s w1 model w2 e Hload Hfull He.
  pose proof (quantize_model_full_attempt model_path s w1 model w2 _ Hload Hfull) as Hrun.
  cbv beta iota in Hrun. rewrite He in Hrun.
  destruct (cto_linear_quantize_weights model fallback_config w2) as [w3 r] eqn:Hfb.
  exists w3, r. eexists. split; [reflexivity |].
  split; [exact Hrun |].
  split; [destruct r; reflexivity |].
  split; [destruct r; reflexivity |].
  split.
  { apply in_or_app. right. apply in_or_app. right.
    apply in_or_app. left. cbn. tauto. }
  split.
  { eexists. split.
    - unfold printed. rewrite !flat_map_app. apply in_or_app. right.
      apply in_or_app. right. apply in_or_app. left. cbn. left. reflexivity.
    - vm_compute. reflexivity. }
  intros e' Hr. rewrite Hrun, Hr. reflexivity.
Qed.

End Quantization.

Section QuantizationRuns.

Import Fake.

Lemma C1_fallback_invoked_once_witness :
  exists w3 r tr,
    @cto_linear_quantize_weights (toolkit full_unsupported)
      original fallback_config (checkout [source_bundle]) = (w3, r) /\
    @quantize_model (toolkit full_unsupported)
      (SOURCE_MODEL script_file) (start full_unsupported (checkout [source_bundle]))
    = (@mkState (toolkit full_unsupported) w3 ([] ++ tr), r) /\
    quantize_calls tr = [config; fallback_config] /\
    configs_built tr = [config; fallback_config] /\
    In (@EvLinearQuantizeWeights (toolkit full_unsupported) original fallback_config) tr /\
    (exists line, In line (printed tr) /\
                  str_contains "falling back" line = true) /\
    (forall e', r = Raise e' ->
                snd (@quantize_model (toolkit full_unsupported)
                       (SOURCE_MODEL script_file)
                       (start full_unsupported (checkout [source_bundle])))
                = Raise e').
Proof.
  apply (@C1_fallback_invoked_once (toolkit full_unsupported)
           (SOURCE_MODEL script_file)
           (start full_unsupported (checkout [source_bundle]))
           (checkout [source_bundle]) original
           (checkout [source_bundle]) unsupported);
    reflexivity.
Defined.

(** C2: the claim does not hold of the code, by a slip in it. The [print]
    of line 88 stands inside the [try] of lines 86-89, so an exception that
    this [print] raises is taken by [except Exception] for a refusal of the
    full configuration. Here the toolkit accepts the full configuration and
    the first call returns the quantized model; standard output is encoded
    in ASCII and has no byte for the check mark of line 88. The script then
    prints its warning that the full configuration is not supported, builds
    the fallback configuration and calls the quantizer with it; the result
    of the first attempt is not returned, and the run ends in the
    [UnicodeEncodeError] of the [print] of line 102. *)
Theorem C2_fallback_runs_after_success_on_ascii_stdout :
  @cto_linear_quantize_weights (toolkit happy) original config
    (checkout [source_bundle])
  = (checkout [source_bundle], Ok quantized_full) /\
  exists e tr,
    @Stdout.quantize_model (toolkit happy) Stdout.ascii
      (SOURCE_MODEL script_file) (start happy (checkout [source_bundle]))
    = (@mkState (toolkit happy) (checkout [source_bundle]) tr, Raise e) /\
    e = mkExn (OtherException "UnicodeEncodeError")
              "'ascii' codec can't encode character '\u2705' in position 0: ordinal not in range(128)" /\
    tr = @quantize_prelude (toolkit happy) (SOURCE_MODEL script_file) original
         ++ [@EvLinearQuantizeWeights (toolkit happy) original config;
             EvPrint "Warning: Full W8A8 not supported, falling back to weight-only quantization";
             EvPrint ("Error: " ++ exn_str e);
             EvConfig fallback_config;
             @EvLinearQuantizeWeights (toolkit happy) original fallback_config] /\
    configs_built tr = [config; fallback_config] /\
    quantize_calls tr = [config; fallback_config].
Proof.
  split; [reflexivity |].
  eexists. eexists.
  split; [| split; [reflexivity | split; [reflexivity | split; reflexivity]]].
  vm_compute. reflexivity.
Qed.

(** C5: the full configuration and the fallback configuration ask for the
    same mode, [linear_symmetric], and the same data type, [int8]; they
    differ in one keyword only, [weight_threshold], which the full
    configuration passes as [None] and the fallback leaves out. In a run
    where the full configuration is refused, both reach the toolkit through
    the same call, [cto.linear_quantize_weights], on the same model; no
    call that quantizes activations is made. *)
Theorem C5_configurations_differ_in_weight_threshold_only :
  mode (global_config config) = Some "linear_symmetric"%string /\
  mode (global_config fallback_config) = Some "linear_symmetric"%string /\
  dtype (global_config config) = Some "int8"%string /\
  dtype (global_config fallback_config) = Some "int8"%string /\
  weight_threshold (global_config config) = Some None /\
  weight_threshold (global_config fallback_config) = None /\
  fallback_config
  = mkOptimizationConfig
      (mkOpLinearQuantizerConfig (mode (global_config config)) None
                                 (dtype (global_config config))) /\
  filter (fun ev => match ev with
                    | EvPrint _ | EvConfig _ => false
                    | _ => true
                    end)
         (st_trace (fst (@quantize_model (toolkit full_unsupported)
                           (SOURCE_MODEL script_file)
                           (start full_unsupported (checkout [source_bundle])))))
  = [ EvLoad (str (SOURCE_MODEL script_file));
      @EvLinearQuantizeWeights (toolkit full_unsupported) original config;
      @EvLinearQuantizeWeights (toolkit full_unsupported) original fallback_config ].
Proof. repeat split. Qed.

End QuantizationRuns.

(* ===================================================================== *)
(** ** The range of integer division *)
(* ===================================================================== *)

Section FloatRange.

Lemma digits2_pos_size p : digits2_pos p = Pos.size p.
Proof. induction p; cbn; congruence. Qed.

Lemma Zdigits2_nonneg m : 0 <= Zdigits2 m.
Proof. destruct m; cbn; lia. Qed.

Lemma Zdigits2_gt m : 0 <= m -> m < 2 ^ Zdigits2 m.
Proof.
  intros Hm. destruct m as [| p | p]; [reflexivity | | lia].
  cbn [Zdigits2]. rewrite digits2_pos_size.
  pose proof (Pos.size_gt p) as H.
  rewrite <- Pos2Z.inj_pow. lia.
Qed.

Lemma Zdigits2_le m k : 0 <= m -> 0 <= k -> m < 2 ^ k -> Zdigits2 m <= k.
Proof.
  intros Hm Hk Hlt. destruct m as [| p | p]; [exact Hk | | lia].
  cbn [Zdigits2]. rewrite digits2_pos_size.
  pose proof (Pos.size_le p) as H.
  assert (H' : 2 ^ Zpos (Pos.size p) <= 2 * Zpos p).
  { rewrite <- Pos2Z.inj_pow. change (2 * Zpos p) with (Zpos p~0). lia. }
  destruct (Z_lt_le_dec k (Zpos (Pos.size p))) as [Hgt | Hle]; [| exact Hle].
  exfalso.
  assert (Hk1 : 2 ^ (k + 1) <= 2 ^ Zpos (Pos.size p)) by (apply Z.pow_le_mono_r; lia).
  rewrite Z.pow_add_r in Hk1 by lia. lia.
Qed.

Lemma shr_1_m mrs : 0 <= shr_m mrs -> shr_m (shr_1 mrs) = shr_m mrs / 2.
Proof.
  destruct mrs as [m r s]. cbn [shr_m]. intros Hm.
  rewrite <- Z.div2_div.
  destruct m as [| [p | p |] | p]; try reflexivity; lia.
Qed.

Lemma iter_shr_1_m n :
  forall mrs, 0 <= shr_m mrs ->
              shr_m (iter_pos shr_1 n mrs) = shr_m mrs / 2 ^ Zpos n.
Proof.
  induction n as [n IH | n IH |]; intros mrs Hm; cbn [iter_pos].
  - assert (H1 : 0 <= shr_m (shr_1 mrs)).
    { rewrite shr_1_m by exact Hm. apply Z.div_pos; lia. }
    assert (H2 : 0 <= shr_m (iter_pos shr_1 n (shr_1 mrs))).
    { rewrite IH by exact H1. apply Z.div_pos; [exact H1 | apply Z.pow_pos_nonneg; lia]. }
    rewrite IH by exact H2. rewrite IH by exact H1. rewrite shr_1_m by exact Hm.
    assert (Hp : 0 < 2 ^ Zpos n) by (apply Z.pow_pos_nonneg; lia).
    rewrite !Z.div_div by lia.
    f_equal. replace (Zpos n~1) with (1 + Zpos n + Zpos n) by lia.
    rewrite !Z.pow_add_r by lia. change (2 ^ 1) with 2. ring.
  - assert (H2 : 0 <= shr_m (iter_pos shr_1 n mrs)).
    { rewrite IH by exact Hm. apply Z.div_pos; [exact Hm | apply Z.pow_pos_nonneg; lia]. }
    rewrite IH by exact H2. rewrite IH by exact Hm.
    assert (Hp : 0 < 2 ^ Zpos n) by (apply Z.pow_pos_nonneg; lia).
    rewrite !Z.div_div by lia.
    f_equal. replace (Zpos n~0) with (Zpos n + Zpos n) by lia.
    rewrite !Z.pow_add_r by lia. reflexivity.
  - rewrite shr_1_m by exact Hm. reflexivity.
Qed.

Lemma shr_m_of_loc m l : shr_m (shr_record_of_loc m l) = m.
Proof. destruct l as [| []]; reflexivity. Qed.

(** The first step of rounding: the significand comes out below [2^53], at
    the exponent the format asks for. *)
Lemma shr_fexp_spec m e l :
  0 <= m ->
  exists mrs e',
    shr_fexp Float.prec Float.emax m e l = (mrs, e') /\
    0 <= shr_m mrs < Float.two53 /\
    e' = Z.max e (fexp Float.prec Float.emax (Zdigits2 m + e)).
Proof.
  intros Hm. unfold shr_fexp, shr.
  pose proof (Zdigits2_gt m Hm) as Hd.
  pose proof (Zdigits2_nonneg m) as Hd0.
  set (d := Zdigits2 m) in *.
  assert (Hf : fexp Float.prec Float.emax (d + e) = Z.max (d + e - 53) (-1074)).
  { reflexivity. }
  destruct (fexp Float.prec Float.emax (d + e) - e) as [| n | n] eqn:Hn.
  - eexists. eexists. split; [reflexivity |]. rewrite shr_m_of_loc.
    split; [| lia]. split; [exact Hm |].
    apply Z.lt_le_trans with (1 := Hd). unfold Float.two53. apply Z.pow_le_mono_r; lia.
  - eexists. eexists. split; [reflexivity |].
    rewrite iter_shr_1_m by (rewrite shr_m_of_loc; exact Hm).
    rewrite shr_m_of_loc.
    assert (Hp : 0 < 2 ^ Zpos n) by (apply Z.pow_pos_nonneg; lia).
    split; [| lia]. split; [apply Z.div_pos; lia |].
    apply Z.div_lt_upper_bound; [exact Hp |].
    apply Z.lt_le_trans with (1 := Hd). unfold Float.two53.
    rewrite <- Z.pow_add_r by lia. apply Z.pow_le_mono_r; lia.
  - eexists. eexists. split; [reflexivity |]. rewrite shr_m_of_loc.
    split; [| lia]. split; [exact Hm |].
    apply Z.lt_le_trans with (1 := Hd). unfold Float.two53. apply Z.pow_le_mono_r; lia.
Qed.

Lemma round_nearest_even_bounds m l :
  m <= round_nearest_even m l <= m + 1.
Proof.
  destruct l as [| []]; cbn; try lia. destruct (Z.even m); lia.
Qed.

(** Rounding stays in range when the value is below [2^1023]. *)
Lemma binary_round_aux_finite sx mx ex lx :
  0 <= mx -> Zdigits2 mx + ex <= 1023 -> ex <= 970 ->
  Float.is_infinite (binary_round_aux Float.prec Float.emax sx mx ex lx) = false.
Proof.
  intros Hm Hd He. unfold binary_round_aux.
  destruct (shr_fexp_spec mx ex lx Hm) as (mrs1 & e1 & -> & [Hm1 Hm1'] & He1).
  pose proof (round_nearest_even_bounds (shr_m mrs1) (loc_of_shr_record mrs1)) as Hr.
  set (m1 := round_nearest_even (shr_m mrs1) (loc_of_shr_record mrs1)) in *.
  assert (Hm1nn : 0 <= m1) by lia.
  destruct (shr_fexp_spec m1 e1 loc_Exact Hm1nn) as (mrs2 & e2 & -> & _ & He2).
  assert (Hd1 : Zdigits2 m1 <= 54).
  { apply Zdigits2_le; [lia | lia |].
    change (2 ^ 54) with (2 * Float.two53). lia. }
  assert (Hf1 : fexp Float.prec Float.emax (Zdigits2 mx + ex)
                = Z.max (Zdigits2 mx + ex - 53) (-1074)) by reflexivity.
  assert (Hf2 : fexp Float.prec Float.emax (Zdigits2 m1 + e1)
                = Z.max (Zdigits2 m1 + e1 - 53) (-1074)) by reflexivity.
  assert (He2' : e2 <= 971) by lia.
  destruct (shr_m mrs2); try reflexivity.
  change (Float.emax - Float.prec) with 971.
  destruct (Z.leb_spec e2 971); [reflexivity | lia].
Qed.

(** The quotient of two byte counts is never out of the range of a float. *)
Lemma quotient_finite a b :
  0 <= a < 2 ^ 1023 -> 0 < b ->
  Float.is_infinite (Float.quotient a b) = false.
Proof.
  intros [Ha Ha'] Hb.
  destruct a as [| pa | pa]; [destruct b; reflexivity | | lia].
  destruct b as [| pb | pb]; try lia.
  unfold Float.quotient, Float.div, Float.of_Z_exact, SFdiv, SFdiv_core_binary.
  set (e' := Z.min _ _).
  assert (He' : e' <= 0) by (unfold e'; lia).
  set (s := 0 - 0 - e').
  set (m' := match s with Z0 => Zpos pa | Zpos _ => Z.shiftl (Zpos pa) s | Zneg _ => 0 end).
  assert (Hm' : m' = Zpos pa * 2 ^ s).
  { unfold m'. destruct s eqn:Hs; [cbn; lia | | lia].
    rewrite Z.shiftl_mul_pow2 by lia. reflexivity. }
  assert (Hs : 0 <= s) by (unfold s; lia).
  assert (Hp : 0 < 2 ^ s) by (apply Z.pow_pos_nonneg; lia).
  pose proof (Z_div_mod m' (Zpos pb) ltac:(lia)) as Hdm.
  destruct (Z.div_eucl m' (Zpos pb)) as [q r].
  destruct Hdm as [Hq Hr].
  assert (Hq0 : 0 <= q) by nia.
  assert (Hqm : q <= m') by nia.
  apply binary_round_aux_finite; [exact Hq0 | | lia].
  assert (Zdigits2 q <= 1023 + s); [| unfold s in *; lia].
  apply Zdigits2_le; [exact Hq0 | lia |].
  rewrite Z.pow_add_r by lia. nia.
Qed.

Lemma int_truediv_in_range a b :
  0 <= a < 2 ^ 1023 -> 0 < b ->
  int_truediv a b = Ok (Float.quotient a b).
Proof.
  intros Ha Hb. unfold int_truediv.
  destruct (Z.eqb_spec b 0); [lia |].
  rewrite quotient_finite by assumption. reflexivity.
Qed.

End FloatRange.

(* ===================================================================== *)
(** ** The size report *)
(* ===================================================================== *)

Section Reporting.

Context {TK : Toolkit}.
Variable script_file : Path.

Lemma is_file_st_size t f :
  fs_is_file t f = true -> exists z, fs_st_size t f = Ok z.
Proof.
  unfold fs_is_file, fs_st_size.
  destruct (resolve t f) as [[sz | sz es] |]; try discriminate.
  intros _. eexists. reflexivity.
Qed.

Lemma run_is_file f s :
  is_file f s = (log s [EvIsFile f], Ok (fs_is_file (fs (st_world s)) f)).
Proof. reflexivity. Qed.

Lemma run_stat f s :
  stat_st_size f s = (log s [EvStat f], fs_st_size (fs (st_world s)) f).
Proof. reflexivity. Qed.

Lemma run_rglob p s :
  rglob p s = (log s [EvRglob p], Ok (fs_rglob (fs (st_world s)) p)).
Proof. reflexivity. Qed.

(** The summing loop never raises: it asks [stat] of regular files only. *)
Lemma run_sum_sizes files :
  forall acc s,
    sum_sizes files acc s
    = (log s (size_events (fs (st_world s)) files),
       Ok (fold_left Z.add
             (map (fun f => match fs_st_size (fs (st_world s)) f with
                            | Ok z => z
                            | Raise _ => 0
                            end)
                  (filter (fs_is_file (fs (st_world s))) files))
             acc)).
Proof.
  induction files as [| f rest IH]; intros acc s.
  - cbn. rewrite log_nil. reflexivity.
  - cbn [sum_sizes size_events flat_map filter].
    rewrite (bind_ok _ _ _ _ _ (run_is_file _ _)).
    destruct (fs_is_file (fs (st_world s)) f) eqn:Hf.
    + destruct (is_file_st_size _ _ Hf) as [z Hz].
      erewrite bind_ok.
      2:{ rewrite run_stat. cbn [log st_world]. rewrite Hz. reflexivity. }
      rewrite IH, !log_log. cbn [log st_world map fold_left app].
      rewrite Hz. reflexivity.
    + rewrite IH, log_log. reflexivity.
Qed.

(** Lines 143-145: the gate and the two sums. *)
Lemma run_print_file_sizes s :
  let t := fs (st_world s) in
  print_file_sizes script_file s
  = if fs_exists t (SOURCE_MODEL script_file)
    then if fs_exists t (OUTPUT_MODEL script_file)
         then size_comparison
                (bundle_size t (SOURCE_MODEL script_file))
                (bundle_size t (OUTPUT_MODEL script_file))
                (log s (measuring t (SOURCE_MODEL script_file)
                                    (OUTPUT_MODEL script_file)))
         else (log s [EvExists (SOURCE_MODEL script_file);
                      EvExists (OUTPUT_MODEL script_file)], Ok tt)
    else (log s [EvExists (SOURCE_MODEL script_file)], Ok tt).
Proof.
  cbv zeta. unfold print_file_sizes.
  rewrite (bind_ok _ _ _ _ _ (run_exists _ _)).
  destruct (fs_exists (fs (st_world s)) (SOURCE_MODEL script_file)).
  - rewrite (bind_ok _ _ _ _ _ (run_exists _ _)). cbn [log st_world].
    destruct (fs_exists (fs (st_world s)) (OUTPUT_MODEL script_file)).
    + rewrite (bind_ok _ _ _ _ _ (run_rglob _ _)).
      rewrite (bind_ok _ _ _ _ _ (run_sum_sizes _ _ _)).
      rewrite (bind_ok _ _ _ _ _ (run_rglob _ _)).
      rewrite (bind_ok _ _ _ _ _ (run_sum_sizes _ _ _)).
      rewrite !log_log. cbn [log st_world].
      unfold measuring, bundle_size. rewrite <- !app_assoc. reflexivity.
    + rewrite log_log. reflexivity.
  - erewrite bind_ok by reflexivity. reflexivity.
Qed.

(** Lines 147-150 print their heading before anything can go wrong. *)
Lemma size_comparison_heading o q s :
  exists tr r,
    size_comparison o q s = (log s (EvPrint (LF ++ "Size comparison:") :: tr), r).
Proof.
  unfold size_comparison.
  rewrite (bind_ok _ _ _ _ _ (run_print _ _)).
  unfold bind, lift, print, emit, log. cbn [st_world st_trace].
  destruct (int_truediv o 1024) as [o1 | e]; [| exists [], (Raise e); reflexivity].
  destruct (float_truediv_int o1 1024) as [o2 | e]; [| exists [], (Raise e); reflexivity].
  destruct (int_truediv q 1024) as [q1 | e].
  2:{ eexists [_], (Raise e). rewrite <- app_assoc. reflexivity. }
  destruct (float_truediv_int q1 1024) as [q2 | e].
  2:{ eexists [_], (Raise e). rewrite <- app_assoc. reflexivity. }
  destruct (int_truediv q o) as [ratio | e].
  2:{ eexists [_; _], (Raise e). rewrite <- !app_assoc. reflexivity. }
  eexists [_; _; _], (Ok tt). rewrite <- !app_assoc. reflexivity.
Qed.

(** Lines 147-150 on byte counts in range, the original not empty. *)
Lemma size_comparison_in_range o q s :
  0 < o < 2 ^ 1023 -> 0 <= q < 2 ^ 1023 ->
  size_comparison o q s = (log s (size_report o q), Ok tt).
Proof.
  intros Ho Hq. unfold size_comparison.
  rewrite (bind_ok _ _ _ _ _ (run_print _ _)).
  unfold bind, lift.
  rewrite (int_truediv_in_range o 1024) by lia.
  rewrite (int_truediv_in_range q 1024) by lia.
  rewrite (int_truediv_in_range q o) by lia.
  unfold float_truediv_int. change (1024 =? 0) with false. cbv iota.
  unfold print, emit, log, size_report, megabytes, reduction_percent.
  cbn [st_world st_trace]. rewrite <- !app_assoc. reflexivity.
Qed.

(** Lines 147-150 on an original without a single byte in regular files. *)
Lemma size_comparison_empty_original q s :
  0 <= q < 2 ^ 1023 ->
  exists tr,
    size_comparison 0 q s
    = (log s tr, Raise (mkExn ZeroDivisionError "division by zero")).
Proof.
  intros Hq. unfold size_comparison.
  rewrite (bind_ok _ _ _ _ _ (run_print _ _)).
  unfold bind, lift.
  change (int_truediv 0 1024) with (Ok (Float.quotient 0 1024)).
  rewrite (int_truediv_in_range q 1024) by lia.
  unfold float_truediv_int. change (1024 =? 0) with false. cbv iota.
  unfold print, emit, log. cbn [st_world st_trace].
  change (int_truediv q 0) with (@Raise Float.float (mkExn ZeroDivisionError "division by zero")).
  cbv iota. eexists. rewrite <- !app_assoc. reflexivity.
Qed.

Lemma main_split s :
  main script_file s
  = bind (main_until_save script_file) (fun _ => main_after_save script_file) s.
Proof.
  unfold main, main_until_save, main_after_save, bind.
  repeat match goal with
         | |- context [match ?m ?st with _ => _ end] =>
             match type of (m st) with
             | (state * result _)%type => destruct (m st) as [? [? | ?]]
             end
         end; reflexivity.
Qed.

Lemma run_closing s :
  (print (LF ++ "✅ Done! Update MiniLMEmbeddings.swift to load the quantized model.");;
   print (str_mul "=" 60)) s
  = (log s closing, Ok tt).
Proof.
  rewrite (bind_ok _ _ _ _ _ (run_print _ _)), run_print, log_log. reflexivity.
Qed.

(** Whatever happens after the save only adds to the trace. *)
Lemma main_after_save_extends s :
  exists tr r, main_after_save script_file s = (log s tr, r).
Proof.
  unfold main_after_save.
  pose proof (run_print_file_sizes s) as Hrun. cbv zeta in Hrun.
  destruct (fs_exists (fs (st_world s)) (SOURCE_MODEL script_file)).
  - destruct (fs_exists (fs (st_world s)) (OUTPUT_MODEL script_file)).
    + destruct (size_comparison_heading
                  (bundle_size (fs (st_world s)) (SOURCE_MODEL script_file))
                  (bundle_size (fs (st_world s)) (OUTPUT_MODEL script_file))
                  (log s (measuring (fs (st_world s)) (SOURCE_MODEL script_file)
                                    (OUTPUT_MODEL script_file))))
        as (tr & r & Hcmp).
      rewrite Hcmp in Hrun. rewrite log_log in Hrun.
      destruct r as [[] | e].
      * rewrite (bind_ok _ _ _ _ _ Hrun), run_closing, log_log.
        eexists. eexists. reflexivity.
      * rewrite (bind_raise _ _ _ _ _ Hrun). eexists. eexists. reflexivity.
    + rewrite (bind_ok _ _ _ _ _ Hrun), run_closing, log_log.
      eexists. eexists. reflexivity.
  - rewrite (bind_ok _ _ _ _ _ Hrun), run_closing, log_log.
    eexists. eexists. reflexivity.
Qed.

End Reporting.

(* ===================================================================== *)
(** ** The model locator and the import guard *)
(* ===================================================================== *)

Section TraceReaders.

Context {TK : Toolkit}.

Lemma printed_app tr1 tr2 : printed (tr1 ++ tr2) = printed tr1 ++ printed tr2.
Proof. apply flat_map_app. Qed.

Lemma loads_app tr1 tr2 : loads (tr1 ++ tr2) = loads tr1 ++ loads tr2.
Proof. apply flat_map_app. Qed.

Lemma iterdirs_app tr1 tr2 : iterdirs (tr1 ++ tr2) = iterdirs tr1 ++ iterdirs tr2.
Proof. apply flat_map_app. Qed.

Lemma paths_examined_exists ps : paths_examined (map EvExists ps) = ps.
Proof. induction ps as [| p ps IH]; [reflexivity | cbn; f_equal; exact IH]. Qed.

Lemma printed_exists ps : printed (map EvExists ps) = [].
Proof. induction ps as [| p ps IH]; [reflexivity | exact IH]. Qed.

Lemma loads_exists ps : loads (map EvExists ps) = [].
Proof. induction ps as [| p ps IH]; [reflexivity | exact IH]. Qed.

Lemma iterdirs_exists ps : iterdirs (map EvExists ps) = [].
Proof. induction ps as [| p ps IH]; [reflexivity | exact IH]. Qed.

Lemma printed_prints {A} (g : A -> string) xs :
  printed (map (fun x => EvPrint (g x)) xs) = map g xs.
Proof. induction xs as [| x xs IH]; [reflexivity | cbn; f_equal; exact IH]. Qed.

Lemma loads_prints {A} (g : A -> string) xs :
  loads (map (fun x => EvPrint (g x)) xs) = [].
Proof. induction xs as [| x xs IH]; [reflexivity | exact IH]. Qed.

Lemma iterdirs_prints {A} (g : A -> string) xs :
  iterdirs (map (fun x => EvPrint (g x)) xs) = [].
Proof. induction xs as [| x xs IH]; [reflexivity | exact IH]. Qed.

Lemma loads_listing t d : loads (listing t d) = [].
Proof.
  unfold listing. destruct (fs_exists t d); [| reflexivity].
  destruct (fs_iterdir t d); [| reflexivity].
  cbn. apply loads_prints.
Qed.

Lemma iterdirs_listing t d :
  iterdirs (listing t d) = if fs_exists t d then [d] else [].
Proof.
  unfold listing. destruct (fs_exists t d); [| reflexivity].
  destruct (fs_iterdir t d) as [files | e]; [| reflexivity].
  exact (f_equal (cons d) (iterdirs_prints (fun f => ("  - " ++ name f)%string) files)).
Qed.

Lemma iterdir_exists t d files : fs_iterdir t d = Ok files -> fs_exists t d = true.
Proof.
  unfold fs_iterdir, fs_exists.
  destruct (resolve t d) as [[] |]; intros H; try discriminate; reflexivity.
Qed.

End TraceReaders.

Section LocatorClaims.

Context {TK : Toolkit}.
Variable script_file : Path.

(** C3: whatever the file system holds, [find_model] returns the first of
    its candidates that exists (the primary path, then the two alternates,
    in this order), and the only thing it does on the way is to ask whether
    the candidates before it and that one exist: no candidate after it is
    looked at, and nothing is printed. *)
Theorem C3_first_existing_candidate :
  forall (s : state) (pre : list Path) (p : Path) (post : list Path),
    candidates script_file = pre ++ p :: post ->
    (forall q, In q pre -> fs_exists (fs (st_world s)) q = false) ->
    fs_exists (fs (st_world s)) p = true ->
    exists tr,
      find_model script_file s = (log s tr, Ok p) /\
      tr = map EvExists (pre ++ [p]) /\
      paths_examined tr = pre ++ [p] /\
      printed tr = [].
Proof.
  intros s pre p post Hc Hpre Hp.
  eexists. split; [apply (find_model_first script_file pre p post s Hc Hpre Hp) |].
  split; [reflexivity |].
  split; [apply paths_examined_exists | apply printed_exists].
Qed.

Lemma main_locate_raises s s' e :
  find_model script_file (log s banner) = (s', Raise e) ->
  main script_file s = (s', Raise e).
Proof.
  intros H. unfold main.
  do 4 rewrite (bind_ok _ _ _ _ _ (run_print _ _)).
  rewrite !log_log. cbn [app].
  apply bind_raise. exact H.
Qed.

(** C4: when none of the candidates exists, [find_model] prints the primary
    path it looked for, lists the resources directory exactly when that
    directory exists, printing the name of every entry, and ends in an
    exception that nothing catches: [main] ends there, the exit status is
    not zero, and no model has been loaded. *)
Theorem C4_locate_failure_exits :
  forall (s : state),
    (forall q, In q (candidates script_file) ->
               fs_exists (fs (st_world s)) q = false) ->
    exists tr e,
      find_model script_file s = (log s tr, Raise e) /\
      main script_file s = (log s (banner ++ tr), Raise e) /\
      exit_status (@Raise unit e) <> 0 /\
      In ("Error: Could not find source model at "
          ++ str (SOURCE_MODEL script_file))%string (printed tr) /\
      iterdirs tr
      = (if fs_exists (fs (st_world s)) (RESOURCES_DIR script_file)
         then [RESOURCES_DIR script_file] else []) /\
      (forall files f,
          fs_iterdir (fs (st_world s)) (RESOURCES_DIR script_file) = Ok files ->
          In f files -> In ("  - " ++ name f)%string (printed tr)) /\
      loads (banner ++ tr) = [].
Proof.
  intros s Hall.
  pose proof (find_model_nothing script_file s Hall) as Hfind.
  pose proof (find_model_nothing script_file (log s banner) Hall) as Hmain.
  cbn [log st_world] in Hmain. fold (log s banner) in Hmain.
  rewrite log_log in Hmain.
  apply main_locate_raises in Hmain.
  eexists. eexists.
  split; [exact Hfind |]. split; [exact Hmain |].
  split.
  { destruct (fs_exists (fs (st_world s)) (RESOURCES_DIR script_file)) eqn:Hd;
      [| discriminate].
    unfold fs_exists, fs_iterdir in *.
    destruct (resolve (fs (st_world s)) (RESOURCES_DIR script_file)) as [[] |];
      discriminate. }
  split.
  { rewrite printed_app, printed_exists, printed_app. cbn. left. reflexivity. }
  split.
  { rewrite iterdirs_app, iterdirs_exists, iterdirs_app, iterdirs_listing.
    reflexivity. }
  split.
  { intros files f Hit Hf.
    rewrite printed_app, printed_app.
    apply in_or_app. right. apply in_or_app. right.
    unfold listing. rewrite (iterdir_exists _ _ _ Hit), Hit.
    change (In ("  - " ++ name f)%string
               (printed (map (fun f0 => EvPrint ("  - " ++ name f0)%string) files))).
    rewrite (printed_prints (fun f0 => ("  - " ++ name f0)%string)).
    exact (in_map (fun f0 => ("  - " ++ name f0)%string) files f Hf). }
  rewrite !loads_app, loads_exists, loads_listing. reflexivity.
Qed.

Lemma run_import module s w r :
  import_module module (st_world s) = (w, r) ->
  import module s = (mkState w (st_trace s ++ [EvImport module]), r).
Proof.
  intros H. unfold import, bind, emit, call. cbn [st_world st_trace].
  rewrite H. destruct r as [[] | e]; reflexivity.
Qed.

(** C10: when the toolkit cannot be imported (either [import] raises an
    [ImportError]), the script prints its two lines of advice and exits with
    status 1; up to there it has asked nothing of the file system and loaded
    nothing. *)
Theorem C10_import_guard_exits :
  forall (s : state) (w' : world) (e : exn),
    import_fails (st_world s) w' e ->
    isinstance_ImportError e = true ->
    exists tr,
      script script_file s
      = (mkState w' (st_trace s ++ tr), Raise (mkExn (SystemExit 1) "1")) /\
      exit_status (@Raise unit (mkExn (SystemExit 1) "1")) = 1 /\
      printed tr = [ "Error: coremltools not installed."%string;
                     "Install with: pip install coremltools>=7.0"%string ] /\
      paths_examined tr = [] /\
      loads tr = [].
Proof.
  intros s w' e Hfail He.
  unfold script, import_guard.
  destruct Hfail as [H1 | (w1 & H1 & H2)].
  - eexists. split.
    + apply bind_raise. unfold try_except.
      erewrite bind_raise by (apply run_import; exact H1).
      cbv beta iota. rewrite He.
      do 2 rewrite (bind_ok _ _ _ _ _ (run_print _ _)).
      unfold sys_exit, raise, log. cbn [st_world st_trace].
      rewrite <- !app_assoc. reflexivity.
    + repeat split.
  - eexists. split.
    + apply bind_raise. unfold try_except.
      erewrite bind_ok by (apply run_import; exact H1).
      erewrite run_import by (cbn [st_world]; exact H2).
      cbv beta iota. rewrite He.
      do 2 rewrite (bind_ok _ _ _ _ _ (run_print _ _)).
      unfold sys_exit, raise, log. cbn [st_world st_trace].
      rewrite <- !app_assoc. reflexivity.
    + repeat split.
Qed.

End LocatorClaims.

Section LocatorRuns.

Import Fake.

Lemma C3_first_existing_candidate_witness :
  exists tr,
    @find_model (toolkit happy) script_file (start happy (checkout [plain_model]))
    = (log (start happy (checkout [plain_model])) tr,
       Ok (RESOURCES_DIR script_file // "model.mlmodel")) /\
    tr = map (@EvExists (toolkit happy))
             ([SOURCE_MODEL script_file;
               RESOURCES_DIR script_file // "all-MiniLM-L6-v2.mlpackage"]
              ++ [RESOURCES_DIR script_file // "model.mlmodel"]) /\
    paths_examined tr
    = [SOURCE_MODEL script_file;
       RESOURCES_DIR script_file // "all-MiniLM-L6-v2.mlpackage"]
      ++ [RESOURCES_DIR script_file // "model.mlmodel"] /\
    printed tr = [].
Proof.
  apply (@C3_first_existing_candidate (toolkit happy) script_file
           (start happy (checkout [plain_model]))
           [SOURCE_MODEL script_file;
            RESOURCES_DIR script_file // "all-MiniLM-L6-v2.mlpackage"]
           (RESOURCES_DIR script_file // "model.mlmodel") []).
  - reflexivity.
  - intros q [<- | [<- | []]]; reflexivity.
  - reflexivity.
Defined.

Lemma C4_locate_failure_exits_witness :
  exists tr e,
    @find_model (toolkit happy) script_file
      (start happy (checkout [("README.md"%string, File 120)]))
    = (log (start happy (checkout [("README.md"%string, File 120)])) tr, Raise e) /\
    @main (toolkit happy) script_file
      (start happy (checkout [("README.md"%string, File 120)]))
    = (log (start happy (checkout [("README.md"%string, File 120)])) (banner ++ tr),
       Raise e) /\
    exit_status (@Raise unit e) <> 0 /\
    In ("Error: Could not find source model at "
        ++ str (SOURCE_MODEL script_file))%string (printed tr) /\
    iterdirs tr = [RESOURCES_DIR script_file] /\
    (forall files f,
        fs_iterdir (checkout [("README.md"%string, File 120)])
                   (RESOURCES_DIR script_file) = Ok files ->
        In f files -> In ("  - " ++ name f)%string (printed tr)) /\
    loads (banner ++ tr) = [].
Proof.
  apply (@C4_locate_failure_exits (toolkit happy) script_file
           (start happy (checkout [("README.md"%string, File 120)]))).
  intros q [<- | [<- | [<- | []]]]; reflexivity.
Defined.

Lemma C10_import_guard_exits_witness :
  exists tr,
    @script (toolkit not_installed) script_file
      (start not_installed (checkout [source_bundle]))
    = (@mkState (toolkit not_installed) (checkout [source_bundle]) ([] ++ tr),
       Raise (mkExn (SystemExit 1) "1")) /\
    exit_status (@Raise unit (mkExn (SystemExit 1) "1")) = 1 /\
    printed tr = [ "Error: coremltools not installed."%string;
                   "Install with: pip install coremltools>=7.0"%string ] /\
    paths_examined tr = [] /\
    loads tr = [].
Proof.
  apply (@C10_import_guard_exits (toolkit not_installed) script_file
           (start not_installed (checkout [source_bundle]))
           (checkout [source_bundle])
           (mkExn ModuleNotFoundError "No module named 'coremltools'")).
  - left. reflexivity.
  - reflexivity.
Defined.

End LocatorRuns.

(* ===================================================================== *)
(** ** Validation and what follows the save *)
(* ===================================================================== *)

Section PipelineClaims.

Context {TK : Toolkit}.
Variable script_file : Path.

Lemma run_validate original quantized s :
  validate_quantization original quantized s
  = (log s (validation_lines original quantized), Ok tt).
Proof.
  unfold validate_quantization.
  do 3 rewrite (bind_ok _ _ _ _ _ (run_print _ _)).
  rewrite run_print, !log_log. reflexivity.
Qed.

(** [main] from its start to the save, when the model is found, loaded and
    quantized. *)
Lemma main_up_to_save s s1 p w2 original s3 quantized w4 r :
  find_model script_file (log s banner) = (s1, Ok p) ->
  MLModel_load (str p) (st_world s1) = (w2, Ok original) ->
  quantize_model p (mkState w2 (st_trace s1 ++ [EvLoad (str p)])) = (s3, Ok quantized) ->
  MLModel_save quantized (str (OUTPUT_MODEL script_file)) (st_world s3) = (w4, r) ->
  main script_file s
  = let s4 := mkState w4
                (st_trace s3 ++ validation_lines original quantized
                 ++ [EvPrint (LF ++ "Saving quantized model to: "
                              ++ str (OUTPUT_MODEL script_file))%string;
                     EvSave quantized (str (OUTPUT_MODEL script_file))]) in
    match r with
    | Ok _ => main_after_save script_file s4
    | Raise e => (s4, Raise e)
    end.
Proof.
  intros Hfind Hload Hq Hsave. unfold main.
  do 4 rewrite (bind_ok _ _ _ _ _ (run_print _ _)).
  rewrite !log_log. cbn [app]. fold (@banner TK).
  rewrite (bind_ok _ _ _ _ _ Hfind).
  rewrite (bind_ok _ _ _ _ _ (run_load _ _ _ _ Hload)).
  rewrite (bind_ok _ _ _ _ _ Hq).
  rewrite (bind_ok _ _ _ _ _ (run_validate _ _ _)).
  rewrite (bind_ok _ _ _ _ _ (run_print _ _)).
  rewrite log_log. cbv zeta.
  destruct r as [[] | e].
  - erewrite bind_ok.
    2:{ apply run_save. cbn [log st_world]. exact Hsave. }
    unfold main_after_save, log. cbn [st_world st_trace].
    rewrite <- !app_assoc. reflexivity.
  - erewrite bind_raise.
    2:{ apply run_save. cbn [log st_world]. exact Hsave. }
    unfold log. cbn [st_world st_trace].
    rewrite <- !app_assoc. reflexivity.
Qed.

(** C9: [validate_quantization] prints the specification version of the
    original model and of the quantized one and returns, for every pair of
    models and in every state: it never raises and decides nothing. In
    [main], once the model is found, loaded and quantized, the validation
    lines are followed by the save of the quantized model, whatever the two
    versions are. *)
Theorem C9_validation_never_gates :
  forall (s s1 : state) (p : Path) w2 (original : MLModel) (s3 : state)
         (quantized : MLModel),
    find_model script_file (log s banner) = (s1, Ok p) ->
    MLModel_load (str p) (st_world s1) = (w2, Ok original) ->
    quantize_model p (mkState w2 (st_trace s1 ++ [EvLoad (str p)]))
    = (s3, Ok quantized) ->
    (forall o q st,
        validate_quantization o q st = (log st (validation_lines o q), Ok tt)) /\
    printed (validation_lines original quantized)
    = [ (LF ++ "Quantization validation:")%string;
        ("  - Original spec version: "
         ++ str_int (specificationVersion original))%string;
        ("  - Quantized spec version: "
         ++ str_int (specificationVersion quantized))%string;
        "  - ✅ Model quantized successfully"%string ] /\
    exists s' r tr,
      main script_file s = (s', r) /\
      st_trace s'
      = st_trace s3 ++ validation_lines original quantized
        ++ EvPrint (LF ++ "Saving quantized model to: "
                    ++ str (OUTPUT_MODEL script_file))%string
           :: EvSave quantized (str (OUTPUT_MODEL script_file))
           :: tr.
Proof.
  intros s s1 p w2 original s3 quantized Hfind Hload Hq.
  split; [intros o q st; apply run_validate |].
  split; [reflexivity |].
  destruct (MLModel_save quantized (str (OUTPUT_MODEL script_file)) (st_world s3))
    as [w4 r] eqn:Hsave.
  rewrite (main_up_to_save s s1 p w2 original s3 quantized w4 r Hfind Hload Hq Hsave).
  cbv zeta. destruct r as [[] | e].
  - match goal with
    | |- context [main_after_save script_file ?s4] =>
        destruct (main_after_save_extends script_file s4) as (tr & r & Hrest)
    end.
    rewrite Hrest. eexists. exists r, tr. split; [reflexivity |].
    unfold log. cbn [st_trace]. rewrite <- !app_assoc. reflexivity.
  - eexists. eexists. exists []. split; [reflexivity |]. reflexivity.
Qed.

End PipelineClaims.

Section ReportClaims.

Context {TK : Toolkit}.
Variable script_file : Path.

Lemma st_size_or_zero_nonneg t f :
  0 <= match fs_st_size t f with Ok z => z | Raise _ => 0 end.
Proof.
  unfold fs_st_size. destruct (resolve t f) as [[sz | sz es] |]; lia.
Qed.

Lemma fold_add_nonneg (g : Path -> Z) files :
  (forall f, 0 <= g f) ->
  forall acc, acc <= fold_left Z.add (map g files) acc.
Proof.
  intros Hg. induction files as [| f rest IH]; intros acc; cbn [map fold_left].
  - lia.
  - specialize (IH (acc + g f)). specialize (Hg f). lia.
Qed.

Lemma bundle_size_nonneg t p : 0 <= bundle_size t p.
Proof.
  unfold bundle_size. apply fold_add_nonneg. intros f. apply st_size_or_zero_nonneg.
Qed.



Lemma megabytes_zero : megabytes 0 = "0.00"%string.
Proof. vm_compute. reflexivity. Qed.


(** What [main] does after the save when one of the two paths is missing. *)
Lemma main_after_save_skips s :
  fs_exists (fs (st_world s)) (SOURCE_MODEL script_file) = false \/
  fs_exists (fs (st_world s)) (OUTPUT_MODEL script_file) = false ->
  exists probes,
    main_after_save script_file s = (log s (probes ++ closing), Ok tt) /\
    printed probes = [] /\
    paths_examined probes
    = (if fs_exists (fs (st_world s)) (SOURCE_MODEL script_file)
       then [SOURCE_MODEL script_file; OUTPUT_MODEL script_file]
       else [SOURCE_MODEL script_file]).
Proof.
  intros Habsent. unfold main_after_save.
  pose proof (run_print_file_sizes script_file s) as Hrun. cbv zeta in Hrun.
  destruct (fs_exists (fs (st_world s)) (SOURCE_MODEL script_file)).
  - destruct (fs_exists (fs (st_world s)) (OUTPUT_MODEL script_file)).
    + destruct Habsent; discriminate.
    + rewrite (bind_ok _ _ _ _ _ Hrun), run_closing, log_log.
      eexists. split; [reflexivity |]. split; reflexivity.
  - rewrite (bind_ok _ _ _ _ _ Hrun), run_closing, log_log.
    eexists. split; [reflexivity |]. split; reflexivity.
Qed.

(** What [main] does after the save when both paths exist and the byte
    counts are in range, the original not empty. *)
Lemma main_after_save_reports s :
  fs_exists (fs (st_world s)) (SOURCE_MODEL script_file) = true ->
  fs_exists (fs (st_world s)) (OUTPUT_MODEL script_file) = true ->
  0 < bundle_size (fs (st_world s)) (SOURCE_MODEL script_file) < 2 ^ 1023 ->
  bundle_size (fs (st_world s)) (OUTPUT_MODEL script_file) < 2 ^ 1023 ->
  main_after_save script_file s
  = (log s (measuring (fs (st_world s)) (SOURCE_MODEL script_file)
                      (OUTPUT_MODEL script_file)
            ++ size_report (bundle_size (fs (st_world s)) (SOURCE_MODEL script_file))
                           (bundle_size (fs (st_world s)) (OUTPUT_MODEL script_file))
            ++ closing),
     Ok tt).
Proof.
  intros Hs Ho Hso Hoo. unfold main_after_save.
  pose proof (run_print_file_sizes script_file s) as Hrun. cbv zeta in Hrun.
  rewrite Hs, Ho in Hrun.
  rewrite size_comparison_in_range in Hrun.
  2: exact Hso.
  2:{ split; [apply bundle_size_nonneg | exact Hoo]. }
  rewrite (bind_ok _ _ _ _ _ Hrun), run_closing, !log_log.
  reflexivity.
Qed.

Lemma heading_not_in_closing :
  ~ In (LF ++ "Size comparison:")%string (printed (@closing TK)).
Proof.
  intros [H | [H | []]]; vm_compute in H; discriminate.
Qed.


(** C7, as the code has it: after the save, the size report is started
    exactly when the primary source path (whichever candidate the locator
    returned) and the output path both exist; when either is missing the
    run goes on in silence to its closing lines and ends normally; when both
    exist and the regular files below the primary path add up to more than
    nothing, the report gives both totals, summed over every regular file
    below each path, and the reduction in percent, and the run ends
    normally. *)
Theorem C7_report_gated_on_primary_and_output :
  forall (s s4 : state),
    main_until_save script_file s = (s4, Ok tt) ->
    exists tr r,
      main script_file s = (log s4 tr, r) /\
      (report_printed tr <->
       fs_exists (fs (st_world s4)) (SOURCE_MODEL script_file) = true /\
       fs_exists (fs (st_world s4)) (OUTPUT_MODEL script_file) = true) /\
      (fs_exists (fs (st_world s4)) (SOURCE_MODEL script_file) = false \/
       fs_exists (fs (st_world s4)) (OUTPUT_MODEL script_file) = false ->
       r = Ok tt /\ printed tr = printed (@closing TK)) /\
      (fs_exists (fs (st_world s4)) (SOURCE_MODEL script_file) = true ->
       fs_exists (fs (st_world s4)) (OUTPUT_MODEL script_file) = true ->
       0 < bundle_size (fs (st_world s4)) (SOURCE_MODEL script_file) < 2 ^ 1023 ->
       bundle_size (fs (st_world s4)) (OUTPUT_MODEL script_file) < 2 ^ 1023 ->
       r = Ok tt /\
       tr = measuring (fs (st_world s4)) (SOURCE_MODEL script_file)
                      (OUTPUT_MODEL script_file)
            ++ size_report
                 (bundle_size (fs (st_world s4)) (SOURCE_MODEL script_file))
                 (bundle_size (fs (st_world s4)) (OUTPUT_MODEL script_file))
            ++ closing).
Proof.
  intros s s4 Hsave.
  rewrite main_split, (bind_ok _ _ _ _ _ Hsave).
  destruct (fs_exists (fs (st_world s4)) (SOURCE_MODEL script_file)) eqn:Hs;
    [destruct (fs_exists (fs (st_world s4)) (OUTPUT_MODEL script_file)) eqn:Ho |].
  - (* both exist *)
    unfold main_after_save.
    pose proof (run_print_file_sizes script_file s4) as Hrun. cbv zeta in Hrun.
    rewrite Hs, Ho in Hrun.
    assert (Hshape : exists tr r,
               (print_file_sizes script_file;;
                print (LF ++ "✅ Done! Update MiniLMEmbeddings.swift to load the quantized model.");;
                print (str_mul "=" 60)) s4 = (log s4 tr, r) /\
               report_printed tr /\
               (0 < bundle_size (fs (st_world s4)) (SOURCE_MODEL script_file) < 2 ^ 1023 ->
                bundle_size (fs (st_world s4)) (OUTPUT_MODEL script_file) < 2 ^ 1023 ->
                r = Ok tt /\
                tr = measuring (fs (st_world s4)) (SOURCE_MODEL script_file)
                               (OUTPUT_MODEL script_file)
                     ++ size_report
                          (bundle_size (fs (st_world s4)) (SOURCE_MODEL script_file))
                          (bundle_size (fs (st_world s4)) (OUTPUT_MODEL script_file))
                     ++ closing)).
    { destruct (size_comparison_heading
                  (bundle_size (fs (st_world s4)) (SOURCE_MODEL script_file))
                  (bundle_size (fs (st_world s4)) (OUTPUT_MODEL script_file))
                  (log s4 (measuring (fs (st_world s4)) (SOURCE_MODEL script_file)
                                     (OUTPUT_MODEL script_file))))
        as (tr & r & Hcmp).
      assert (Hhead : forall rest,
                 report_printed
                   (measuring (fs (st_world s4)) (SOURCE_MODEL script_file)
                              (OUTPUT_MODEL script_file)
                    ++ (EvPrint (LF ++ "Size comparison:")%string :: tr) ++ rest)).
      { intros rest. unfold report_printed. rewrite printed_app.
        apply in_or_app. right. left. reflexivity. }
      pose proof Hrun as Hrun'. rewrite Hcmp, log_log in Hrun'.
      destruct r as [[] | e].
      - rewrite (bind_ok _ _ _ _ _ Hrun'), run_closing, log_log.
        eexists. eexists. split; [reflexivity |].
        split; [rewrite <- app_assoc; apply Hhead |].
        intros Hso Hoo.
        split; [reflexivity |].
        rewrite size_comparison_in_range in Hcmp;
          [| exact Hso | split; [apply bundle_size_nonneg | exact Hoo]].
        injection Hcmp as Htr.
        apply app_inv_head in Htr.
        rewrite <- app_assoc. f_equal. f_equal. symmetry. exact Htr.
      - rewrite (bind_raise _ _ _ _ _ Hrun').
        eexists. eexists. split; [reflexivity |].
        split; [rewrite <- (app_nil_r (_ ++ _)), <- app_assoc; apply Hhead |].
        intros Hso Hoo.
        rewrite size_comparison_in_range in Hcmp;
          [| exact Hso | split; [apply bundle_size_nonneg | exact Hoo]].
        discriminate. }
    destruct Hshape as (tr & r & Hrun2 & Hprinted & Hfull).
    exists tr, r. split; [exact Hrun2 |].
    split; [tauto |].
    split; [intros [H | H]; discriminate |].
    intros _ _. exact Hfull.
  - (* the output is missing *)
    destruct (main_after_save_skips s4) as (probes & Hrun & Hp & _);
      [right; exact Ho |].
    exists (probes ++ closing), (Ok tt). split; [exact Hrun |].
    split.
    { split; [| intros [_ H]; discriminate].
      unfold report_printed. rewrite printed_app, Hp. intros H.
      exfalso. exact (heading_not_in_closing H). }
    split; [intros _; split; [reflexivity | rewrite printed_app, Hp; reflexivity] |].
    intros _ H. discriminate.
  - (* the primary path is missing *)
    destruct (main_after_save_skips s4) as (probes & Hrun & Hp & _);
      [left; exact Hs |].
    exists (probes ++ closing), (Ok tt). split; [exact Hrun |].
    split.
    { split; [| intros [H _]; discriminate].
      unfold report_printed. rewrite printed_app, Hp. intros H.
      exfalso. exact (heading_not_in_closing H). }
    split; [intros _; split; [reflexivity | rewrite printed_app, Hp; reflexivity] |].
    intros H. discriminate.
Qed.

End ReportClaims.

Section ReductionClaim.

Context {TK : Toolkit}.
Variable script_file : Path.

(** C8: when both paths exist after the save and the regular files below
    them add up to [o] bytes for the original, more than nothing, and [q]
    bytes for the quantized model, the run prints the size report and ends
    normally, and the reduction it reports is
    [(1 - q / o) * 100] to one decimal, computed in binary64 and rounded to
    the nearest tenth; for 100 MB and 26 MB, in units of 2^20 bytes as the
    report counts them or in units of 10^6 bytes, that is 74.0%. (Byte
    counts are taken below 2^1023, which is where Python's integer division
    stops fitting a float.) *)
Theorem C8_reduction_to_one_decimal :
  forall (s s4 : state) (o q : Z),
    main_until_save script_file s = (s4, Ok tt) ->
    fs_exists (fs (st_world s4)) (SOURCE_MODEL script_file) = true ->
    fs_exists (fs (st_world s4)) (OUTPUT_MODEL script_file) = true ->
    bundle_size (fs (st_world s4)) (SOURCE_MODEL script_file) = o ->
    bundle_size (fs (st_world s4)) (OUTPUT_MODEL script_file) = q ->
    0 < o < 2 ^ 1023 ->
    q < 2 ^ 1023 ->
    main script_file s
    = (log s4 (measuring (fs (st_world s4)) (SOURCE_MODEL script_file)
                         (OUTPUT_MODEL script_file)
               ++ size_report o q ++ closing),
       Ok tt) /\
    In ("  - Reduction: " ++ reduction_percent o q ++ "%")%string
       (printed (size_report o q)) /\
    reduction_percent o q
    = Float.format_f 1
        (Float.mul (Float.sub (Float.of_Z 1) (Float.quotient q o)) (Float.of_Z 100)) /\
    reduction_percent (100 * 1048576) (26 * 1048576) = "74.0"%string /\
    reduction_percent 100000000 26000000 = "74.0"%string.
Proof.
  intros s s4 o q Hsave Hs Ho Hso Hsq Hor Hqr.
  split.
  - rewrite main_split, (bind_ok _ _ _ _ _ Hsave).
    rewrite main_after_save_reports; try assumption.
    + rewrite Hso, Hsq. reflexivity.
    + rewrite Hso. exact Hor.
    + rewrite Hsq. exact Hqr.
  - split; [cbn; tauto |].
    split; [reflexivity |].
    split; vm_compute; reflexivity.
Qed.

End ReductionClaim.


Section ReportedOrNot.

Context {TK : Toolkit}.
Variable script_file : Path.


(** A run that misses one of the two paths shows no report on its trace. *)
Lemma report_not_printed_when_absent s s4 tr r :
  main_until_save script_file s = (s4, Ok tt) ->
  fs_exists (fs (st_world s4)) (SOURCE_MODEL script_file) = false \/
  fs_exists (fs (st_world s4)) (OUTPUT_MODEL script_file) = false ->
  main script_file s = (log s4 tr, r) ->
  ~ report_printed tr.
Proof.
  intros Hsave Habsent Hrun.
  rewrite main_split, (bind_ok _ _ _ _ _ Hsave) in Hrun.
  destruct (main_after_save_skips script_file s4 Habsent) as (probes & Hskip & Hp & _).
  rewrite Hskip in Hrun.
  apply (f_equal fst) in Hrun. apply (f_equal st_trace) in Hrun.
  cbn [fst log st_trace] in Hrun. apply app_inv_head in Hrun. subst tr.
  unfold report_printed. rewrite printed_app, Hp.
  apply heading_not_in_closing.
Qed.

End ReportedOrNot.

Section ReportRuns.

Import Fake.

Lemma saved_run b t :
  snd (@main_until_save (toolkit b) script_file (start b t)) = Ok tt ->
  @main_until_save (toolkit b) script_file (start b t) = (saved b t, Ok tt).
Proof.
  unfold saved. destruct (main_until_save script_file (start b t)) as [s4 r].
  cbn. intros ->. reflexivity.
Defined.

Lemma C8_reduction_to_one_decimal_witness :
  @main (toolkit happy) script_file (start happy (checkout [source_bundle]))
  = (log (saved happy (checkout [source_bundle]))
         (measuring (checkout [source_bundle; output_bundle])
                    (SOURCE_MODEL script_file) (OUTPUT_MODEL script_file)
          ++ size_report (100 * 1048576) (26 * 1048576) ++ closing),
     Ok tt) /\
  In ("  - Reduction: " ++ reduction_percent (100 * 1048576) (26 * 1048576) ++ "%")%string
     (printed (@size_report (toolkit happy) (100 * 1048576) (26 * 1048576))) /\
  reduction_percent (100 * 1048576) (26 * 1048576)
  = Float.format_f 1
      (Float.mul (Float.sub (Float.of_Z 1)
                            (Float.quotient (26 * 1048576) (100 * 1048576)))
                 (Float.of_Z 100)) /\
  reduction_percent (100 * 1048576) (26 * 1048576) = "74.0"%string /\
  reduction_percent 100000000 26000000 = "74.0"%string.
Proof.
  apply (@C8_reduction_to_one_decimal (toolkit happy) script_file
           (start happy (checkout [source_bundle]))
           (saved happy (checkout [source_bundle]))
           (100 * 1048576) (26 * 1048576)).
  - apply saved_run. vm_compute. reflexivity.
  - vm_compute. reflexivity.
  - vm_compute. reflexivity.
  - vm_compute. reflexivity.
  - vm_compute. reflexivity.
  - split; vm_compute; reflexivity.
  - vm_compute. reflexivity.
Defined.


(** A single file at the primary path makes the run end in a
    [ZeroDivisionError], after the heading and both sizes are printed. *)
Lemma single_file_source_raises :
  snd (@main (toolkit single_file_source) script_file
         (start single_file_source (checkout [source_file])))
  = Raise (mkExn ZeroDivisionError "division by zero").
Proof. vm_compute. reflexivity. Qed.

(** C7 as stated fails: with the model found at an alternate path and the
    output bundle saved next to it, both of them directories, no size report
    is printed. *)
Lemma C7_located_alternate_is_not_reported :
  ~ (forall (TK : Toolkit) (script_file : Path) (s s1 s4 : state) (p : Path),
        find_model script_file (log s banner) = (s1, Ok p) ->
        main_until_save script_file s = (s4, Ok tt) ->
        fs_is_dir (fs (st_world s4)) p = true ->
        fs_is_dir (fs (st_world s4)) (OUTPUT_MODEL script_file) = true ->
        exists tr r,
          main script_file s = (log s4 tr, r) /\ report_printed tr).
Proof.
  intros Hclaim.
  assert (Hsaved : @main_until_save (toolkit from_package) script_file
                     (start from_package (checkout [package_bundle]))
                   = (saved from_package (checkout [package_bundle]), Ok tt)).
  { apply saved_run. vm_compute. reflexivity. }
  assert (Hfound : @find_model (toolkit from_package) script_file
                     (log (start from_package (checkout [package_bundle])) banner)
                   = (fst (@find_model (toolkit from_package) script_file
                             (log (start from_package (checkout [package_bundle]))
                                  banner)),
                      Ok (RESOURCES_DIR script_file // "all-MiniLM-L6-v2.mlpackage"))).
  { vm_compute. reflexivity. }
  destruct (Hclaim (toolkit from_package) script_file
                   (start from_package (checkout [package_bundle]))
                   _
                   (saved from_package (checkout [package_bundle]))
                   (RESOURCES_DIR script_file // "all-MiniLM-L6-v2.mlpackage")
                   Hfound Hsaved)
    as (tr & r & Hrun & Hprinted).
  - vm_compute. reflexivity.
  - vm_compute. reflexivity.
  - revert Hprinted.
    apply (@report_not_printed_when_absent (toolkit from_package) script_file
             (start from_package (checkout [package_bundle]))
             (saved from_package (checkout [package_bundle]))
             tr r Hsaved);
      [ left; vm_compute; reflexivity | exact Hrun ].
Qed.

End ReportRuns.

Section PipelineRuns.

Import Fake.


Lemma C7_report_gated_on_primary_and_output_witness :
  exists tr r,
    @main (toolkit from_package) script_file
      (start from_package (checkout [package_bundle]))
    = (log (saved from_package (checkout [package_bundle])) tr, r) /\
    (report_printed tr <->
     fs_exists (checkout [package_bundle; output_bundle])
               (SOURCE_MODEL script_file) = true /\
     fs_exists (checkout [package_bundle; output_bundle])
               (OUTPUT_MODEL script_file) = true) /\
    (fs_exists (checkout [package_bundle; output_bundle])
               (SOURCE_MODEL script_file) = false \/
     fs_exists (checkout [package_bundle; output_bundle])
               (OUTPUT_MODEL script_file) = false ->
     r = Ok tt /\ printed tr = printed (@closing (toolkit from_package))) /\
    (fs_exists (checkout [package_bundle; output_bundle])
               (SOURCE_MODEL script_file) = true ->
     fs_exists (checkout [package_bundle; output_bundle])
               (OUTPUT_MODEL script_file) = true ->
     0 < bundle_size (checkout [package_bundle; output_bundle])
                     (SOURCE_MODEL script_file) < 2 ^ 1023 ->
     bundle_size (checkout [package_bundle; output_bundle])
                 (OUTPUT_MODEL script_file) < 2 ^ 1023 ->
     r = Ok tt /\
     tr = measuring (checkout [package_bundle; output_bundle])
                    (SOURCE_MODEL script_file) (OUTPUT_MODEL script_file)
          ++ size_report
               (bundle_size (checkout [package_bundle; output_bundle])
                            (SOURCE_MODEL script_file))
               (bundle_size (checkout [package_bundle; output_bundle])
                            (OUTPUT_MODEL script_file))
          ++ closing).
Proof.
  apply (@C7_report_gated_on_primary_and_output
           (toolkit from_package) script_file
           (start from_package (checkout [package_bundle]))
           (saved from_package (checkout [package_bundle]))).
  apply saved_run. vm_compute. reflexivity.
Defined.

Lemma C9_validation_never_gates_witness :
  (forall o q st,
      @validate_quantization (toolkit full_unsupported) o q st
      = (log st (validation_lines o q), Ok tt)) /\
  printed (@validation_lines (toolkit full_unsupported) original quantized_fallback)
  = [ (LF ++ "Quantization validation:")%string;
      "  - Original spec version: 7"%string;
      "  - Quantized spec version: 8"%string;
      "  - ✅ Model quantized successfully"%string ] /\
  exists (s' : @state (toolkit full_unsupported)) r tr,
    @main (toolkit full_unsupported) script_file
      (start full_unsupported (checkout [source_bundle])) = (s', r) /\
    st_trace s'
    = st_trace
        (fst (@quantize_model (toolkit full_unsupported) (SOURCE_MODEL script_file)
                (@mkState (toolkit full_unsupported) (checkout [source_bundle])
                   (banner ++ [EvExists (SOURCE_MODEL script_file);
                               EvLoad (str (SOURCE_MODEL script_file))]))))
      ++ @validation_lines (toolkit full_unsupported) original quantized_fallback
      ++ EvPrint (LF ++ "Saving quantized model to: "
                  ++ str (OUTPUT_MODEL script_file))%string
         :: @EvSave (toolkit full_unsupported) quantized_fallback
              (str (OUTPUT_MODEL script_file))
         :: tr.
Proof.
  apply (@C9_validation_never_gates (toolkit full_unsupported) script_file
           (start full_unsupported (checkout [source_bundle]))
           (@mkState (toolkit full_unsupported) (checkout [source_bundle])
              (banner ++ [EvExists (SOURCE_MODEL script_file)]))
           (SOURCE_MODEL script_file)
           (checkout [source_bundle])
           original
           (fst (@quantize_model (toolkit full_unsupported) (SOURCE_MODEL script_file)
                   (@mkState (toolkit full_unsupported) (checkout [source_bundle])
                      (banner ++ [EvExists (SOURCE_MODEL script_file);
                                  EvLoad (str (SOURCE_MODEL script_file))]))))
           quantized_fallback).
  - vm_compute. reflexivity.
  - reflexivity.
  - vm_compute. reflexivity.
Defined.

End PipelineRuns.

(* ===================================================================== *)
(** ** Composing specifications of statements *)
(* ===================================================================== *)

Section Composing.

Context {TK : Toolkit}.

Lemma traces_weaken {A} (Q Q' : list event -> result A -> Prop) (m : M A) :
  (forall tr r, Q tr r -> Q' tr r) -> traces Q m -> traces Q' m.
Proof.
  intros HQ Hm s. destruct (Hm s) as (tr & Htr & H). exists tr. auto.
Qed.

Lemma traces_silent {A} (Q : list event -> result A -> Prop) (m : M A) :
  (forall s, st_trace (fst (m s)) = st_trace s) ->
  (forall s, Q [] (snd (m s))) ->
  traces Q m.
Proof.
  intros Hsilent HQ s. exists []. rewrite app_nil_r. auto.
Qed.

Lemma traces_emit (Q : list event -> result unit -> Prop) ev :
  Q [ev] (Ok tt) -> traces Q (emit ev).
Proof. intros HQ s. exists [ev]. split; [reflexivity | exact HQ]. Qed.

Lemma traces_bind {A B} (Q1 : list event -> result A -> Prop)
      (Q2 : A -> list event -> result B -> Prop)
      (Q : list event -> result B -> Prop) (m : M A) (k : A -> M B) :
  traces Q1 m ->
  (forall a t1, Q1 t1 (Ok a) -> traces (Q2 a) (k a)) ->
  (forall t1 e, Q1 t1 (Raise e) -> Q t1 (Raise e)) ->
  (forall t1 a t2 r, Q1 t1 (Ok a) -> Q2 a t2 r -> Q (t1 ++ t2) r) ->
  traces Q (bind m k).
Proof.
  intros Hm Hk Hraise Hseq s. unfold bind.
  destruct (Hm s) as (t1 & Ht1 & H1).
  destruct (m s) as [s1 [a | e]]; cbn [fst snd] in *.
  - destruct (Hk a t1 H1 s1) as (t2 & Ht2 & H2).
    exists (t1 ++ t2). rewrite Ht2, Ht1, app_assoc. split; [reflexivity |].
    eapply Hseq; eassumption.
  - exists t1. split; [exact Ht1 | apply Hraise; exact H1].
Qed.

Lemma traces_try_except {A} (Q1 Q : list event -> result A -> Prop)
      (Q2 : exn -> list event -> result A -> Prop)
      (body : M A) (isinstance : exn -> bool) (handler : exn -> M A) :
  traces Q1 body ->
  (forall e t1, Q1 t1 (Raise e) -> isinstance e = true ->
                traces (Q2 e) (handler e)) ->
  (forall t1 a, Q1 t1 (Ok a) -> Q t1 (Ok a)) ->
  (forall t1 e, Q1 t1 (Raise e) -> isinstance e = false -> Q t1 (Raise e)) ->
  (forall t1 e t2 r, Q1 t1 (Raise e) -> isinstance e = true ->
                     Q2 e t2 r -> Q (t1 ++ t2) r) ->
  traces Q (try_except body isinstance handler).
Proof.
  intros Hb Hh Hok Hpass Hseq s. unfold try_except.
  destruct (Hb s) as (t1 & Ht1 & H1).
  destruct (body s) as [s1 [a | e]]; cbn [fst snd] in *.
  - exists t1. split; [exact Ht1 | apply Hok; exact H1].
  - destruct (isinstance e) eqn:He.
    + destruct (Hh e t1 H1 He s1) as (t2 & Ht2 & H2).
      exists (t1 ++ t2). rewrite Ht2, Ht1, app_assoc. split; [reflexivity |].
      eapply Hseq; eassumption.
    + exists t1. split; [exact Ht1 | apply Hpass; assumption].
Qed.

(** *** Events of one kind *)

Lemma emits_bind {A B} (P : event -> Prop) (m : M A) (k : A -> M B) :
  emits P m -> (forall a, emits P (k a)) -> emits P (bind m k).
Proof.
  intros Hm Hk.
  apply (traces_bind (fun tr _ => Forall P tr) (fun _ tr _ => Forall P tr)
                     (fun tr _ => Forall P tr) m k Hm).
  - intros a t1 _. apply Hk.
  - auto.
  - intros t1 a t2 r H1 H2. apply Forall_app. auto.
Qed.

Lemma emits_try_except {A} (P : event -> Prop) (body : M A) isinstance handler :
  emits P body -> (forall e, emits P (handler e)) ->
  emits P (try_except body isinstance handler).
Proof.
  intros Hb Hh.
  apply (traces_try_except (fun tr _ => Forall P tr) (fun tr _ => Forall P tr)
                           (fun _ tr _ => Forall P tr) body isinstance handler Hb).
  - intros e t1 _ _. apply Hh.
  - auto.
  - auto.
  - intros t1 e t2 r H1 _ H2. apply Forall_app. auto.
Qed.

Lemma emits_silent {A} (P : event -> Prop) (m : M A) :
  (forall s, st_trace (fst (m s)) = st_trace s) -> emits P m.
Proof. intros H. apply traces_silent; [exact H | intros; constructor]. Qed.

Lemma emits_ret {A} P (a : A) : emits P (ret a).
Proof. apply emits_silent. reflexivity. Qed.

Lemma emits_raise {A} P e : emits P (@raise TK A e).
Proof. apply emits_silent. reflexivity. Qed.

Lemma emits_lift {A} P (r : result A) : emits P (lift r).
Proof. apply emits_silent. reflexivity. Qed.

Lemma emits_read_fs {A} P (f : node -> A) : emits P (read_fs f).
Proof. apply emits_silent. reflexivity. Qed.

Lemma emits_call {A} P (f : world -> world * result A) : emits P (call f).
Proof.
  apply emits_silent. intros s. unfold call.
  destruct (f (st_world s)). reflexivity.
Qed.

Lemma emits_emit (P : event -> Prop) ev : P ev -> emits P (emit ev).
Proof. intros H. apply traces_emit. constructor; [exact H | constructor]. Qed.

Lemma emits_weaken {A} (P P' : event -> Prop) (m : M A) :
  (forall ev, P ev -> P' ev) -> emits P m -> emits P' m.
Proof.
  intros HP. apply traces_weaken. intros tr _. apply Forall_impl. exact HP.
Qed.

Lemma emits_for_each {A} P (xs : list A) (body : A -> M unit) :
  (forall x, emits P (body x)) -> emits P (for_each xs body).
Proof.
  intros Hb. induction xs as [| x rest IH]; cbn [for_each].
  - apply emits_ret.
  - apply emits_bind; [apply Hb | intros _; exact IH].
Qed.

(** *** Statements that leave the world alone *)

Lemma keeps_world_bind {A B} (m : M A) (k : A -> M B) :
  keeps_world m -> (forall a, keeps_world (k a)) -> keeps_world (bind m k).
Proof.
  intros Hm Hk s. unfold bind. specialize (Hm s).
  destruct (m s) as [s1 [a | e]]; cbn [fst] in *.
  - rewrite Hk. exact Hm.
  - exact Hm.
Qed.

Lemma keeps_world_ret {A} (a : A) : keeps_world (ret a).
Proof. intros s. reflexivity. Qed.

Lemma keeps_world_raise {A} e : keeps_world (@raise TK A e).
Proof. intros s. reflexivity. Qed.

Lemma keeps_world_lift {A} (r : result A) : keeps_world (lift r).
Proof. intros s. reflexivity. Qed.

Lemma keeps_world_read_fs {A} (f : node -> A) : keeps_world (read_fs f).
Proof. intros s. reflexivity. Qed.

Lemma keeps_world_emit ev : keeps_world (emit ev).
Proof. intros s. reflexivity. Qed.

Lemma keeps_world_for_each {A} (xs : list A) (body : A -> M unit) :
  (forall x, keeps_world (body x)) -> keeps_world (for_each xs body).
Proof.
  intros Hb. induction xs as [| x rest IH]; cbn [for_each].
  - apply keeps_world_ret.
  - apply keeps_world_bind; [apply Hb | intros _; exact IH].
Qed.

End Composing.

(* ===================================================================== *)
(** ** What the locator may and may not do *)
(* ===================================================================== *)

Section LocatorScope.

Context {TK : Toolkit}.
Variable script_file : Path.

Lemma emits_print P line : P (EvPrint line) -> emits P (print line).
Proof. apply emits_emit. Qed.

Lemma emits_exists P p : P (EvExists p) -> emits P (exists_ p).
Proof.
  intros H. apply emits_bind; [apply emits_emit; exact H |].
  intros _. apply emits_read_fs.
Qed.

Lemma emits_iterdir P p : P (EvIterdir p) -> emits P (iterdir p).
Proof.
  intros H. apply emits_bind; [apply emits_emit; exact H |].
  intros _. apply emits_bind; [apply emits_read_fs | intros r; apply emits_lift].
Qed.

Lemma keeps_world_exists p : keeps_world (exists_ p).
Proof.
  apply keeps_world_bind; [apply keeps_world_emit | intros _; apply keeps_world_read_fs].
Qed.

Lemma keeps_world_iterdir p : keeps_world (iterdir p).
Proof.
  apply keeps_world_bind; [apply keeps_world_emit |].
  intros _. apply keeps_world_bind; [apply keeps_world_read_fs |].
  intros r. apply keeps_world_lift.
Qed.

Lemma emits_find_model_loop P paths :
  (forall p, In p paths -> P (EvExists p)) -> emits P (find_model_loop paths).
Proof.
  induction paths as [| p rest IH]; intros HP; cbn [find_model_loop].
  - apply emits_ret.
  - apply emits_bind; [apply emits_exists; apply HP; left; reflexivity |].
    intros [|]; [apply emits_ret |].
    apply IH. intros q Hq. apply HP. right. exact Hq.
Qed.

Lemma keeps_world_find_model_loop paths : keeps_world (find_model_loop paths).
Proof.
  induction paths as [| p rest IH]; cbn [find_model_loop].
  - apply keeps_world_ret.
  - apply keeps_world_bind; [apply keeps_world_exists |].
    intros [|]; [apply keeps_world_ret | exact IH].
Qed.

Lemma emits_find_model : emits (locator_event script_file) (find_model script_file).
Proof.
  unfold find_model.
  apply emits_bind.
  { apply emits_exists. left. left. reflexivity. }
  intros [|]; [apply emits_ret |].
  apply emits_bind.
  { apply emits_find_model_loop. intros p Hp. left. right. exact Hp. }
  intros [p |]; [apply emits_ret |].
  apply emits_bind; [apply emits_print; exact I | intros _].
  apply emits_bind; [apply emits_print; exact I | intros _].
  apply emits_bind; [apply emits_exists; right; reflexivity | intros d].
  apply emits_bind; [| intros _; apply emits_raise].
  destruct d; [| apply emits_ret].
  apply emits_bind; [apply emits_iterdir; reflexivity | intros files].
  apply emits_for_each. intros f. apply emits_print. exact I.
Qed.

Lemma keeps_world_find_model : keeps_world (find_model script_file).
Proof.
  unfold find_model.
  apply keeps_world_bind; [apply keeps_world_exists |].
  intros [|]; [apply keeps_world_ret |].
  apply keeps_world_bind; [apply keeps_world_find_model_loop |].
  intros [p |]; [apply keeps_world_ret |].
  apply keeps_world_bind; [apply keeps_world_emit | intros _].
  apply keeps_world_bind; [apply keeps_world_emit | intros _].
  apply keeps_world_bind; [apply keeps_world_exists | intros d].
  apply keeps_world_bind; [| intros _; apply keeps_world_raise].
  destruct d; [| apply keeps_world_ret].
  apply keeps_world_bind; [apply keeps_world_iterdir | intros files].
  apply keeps_world_for_each. intros f. apply keeps_world_emit.
Qed.

(** What [find_model] returns is a candidate that exists; on a file system
    that answers every existence check, no candidate exists when it
    raises. *)
Lemma find_model_outcome s :
  match snd (find_model script_file s) with
  | Ok p => In p (candidates script_file) /\ fs_exists (fs (st_world s)) p = true
  | Raise _ => existsb (fs_exists (fs (st_world s))) (candidates script_file) = false
  end.
Proof.
  set (t := fs (st_world s)).
  destruct (fs_exists t (SOURCE_MODEL script_file)) eqn:E0.
  { rewrite (find_model_first script_file [] _ (alt_paths script_file) s eq_refl);
      [| intros q [] | exact E0].
    cbn [snd]. split; [left; reflexivity | exact E0]. }
  destruct (fs_exists t (RESOURCES_DIR script_file // "all-MiniLM-L6-v2.mlpackage"))
           eqn:E1.
  { rewrite (find_model_first script_file [SOURCE_MODEL script_file] _
               [RESOURCES_DIR script_file // "model.mlmodel"] s eq_refl);
      [| intros q [<- | []]; exact E0 | exact E1].
    cbn [snd]. split; [right; left; reflexivity | exact E1]. }
  destruct (fs_exists t (RESOURCES_DIR script_file // "model.mlmodel")) eqn:E2.
  { rewrite (find_model_first script_file
               [SOURCE_MODEL script_file;
                RESOURCES_DIR script_file // "all-MiniLM-L6-v2.mlpackage"] _
               [] s eq_refl);
      [| intros q [<- | [<- | []]]; assumption | exact E2].
    cbn [snd]. split; [right; right; left; reflexivity | exact E2]. }
  rewrite find_model_nothing.
  - cbn [snd existsb candidates alt_paths]. fold t. rewrite E0, E1, E2. reflexivity.
  - intros q [<- | [<- | [<- | []]]]; assumption.
Qed.

(** X1: the locator only reads. In every state, [find_model] leaves the
    world as it found it; all it adds to the trace are printed lines,
    existence checks on its three candidates and on the resources directory,
    and a listing of the resources directory (no import, load, quantizer
    call or save); and a path it returns is one of the candidates and
    exists. *)
Theorem X1_locator_only_reads :
  forall s : state,
    st_world (fst (find_model script_file s)) = st_world s /\
    (exists tr,
        st_trace (fst (find_model script_file s)) = st_trace s ++ tr /\
        Forall (locator_event script_file) tr) /\
    (forall p,
        snd (find_model script_file s) = Ok p ->
        In p (candidates script_file) /\ fs_exists (fs (st_world s)) p = true).
Proof.
  intros s. split; [apply keeps_world_find_model |].
  split; [apply emits_find_model |].
  intros p Hp. pose proof (find_model_outcome s) as H.
  rewrite Hp in H. exact H.
Qed.

End LocatorScope.

(* ===================================================================== *)
(** ** What the quantization step may and may not do *)
(* ===================================================================== *)

Section QuantizerScope.

Context {TK : Toolkit}.

(** Sequencing when what follows depends on the value handed over. *)
Lemma emits_bind_value {A B} (P : event -> Prop) (R : A -> Prop)
      (m : M A) (k : A -> M B) :
  traces (fun tr r => Forall P tr /\ forall a, r = Ok a -> R a) m ->
  (forall a, R a -> emits P (k a)) ->
  emits P (bind m k).
Proof.
  intros Hm Hk.
  apply (traces_bind (fun tr r => Forall P tr /\ forall a, r = Ok a -> R a)
                     (fun _ tr _ => Forall P tr)
                     (fun tr _ => Forall P tr) m k Hm).
  - intros a t1 [_ HR]. apply Hk. apply HR. reflexivity.
  - intros t1 e [H _]. exact H.
  - intros t1 a t2 r [H1 _] H2. apply Forall_app. auto.
Qed.

Lemma emits_load P path : P (EvLoad path) -> emits P (ct_models_MLModel path).
Proof.
  intros H. apply emits_bind; [apply emits_emit; exact H | intros _; apply emits_call].
Qed.

Lemma config_returned P c :
  P (EvConfig c) ->
  traces (fun tr r => Forall P tr /\ forall a, r = Ok a -> a = c)
         (cto_OptimizationConfig c).
Proof.
  intros H s. exists [EvConfig c]. split; [reflexivity |].
  split; [constructor; [exact H | constructor] |].
  intros a Ha. cbn in Ha. congruence.
Qed.

Lemma emits_quantize P model c :
  P (EvLinearQuantizeWeights model c) -> emits P (linear_quantize_weights model c).
Proof.
  intros H. apply emits_bind; [apply emits_emit; exact H | intros _; apply emits_call].
Qed.

Lemma emits_save P model path :
  P (EvSave model path) -> emits P (save model path).
Proof.
  intros H. apply emits_bind; [apply emits_emit; exact H | intros _; apply emits_call].
Qed.

Lemma emits_quantize_model model_path :
  emits (quantizer_event model_path) (quantize_model model_path).
Proof.
  unfold quantize_model.
  apply emits_bind; [apply emits_print; exact I | intros _].
  apply emits_bind; [apply emits_load; reflexivity | intros model].
  apply emits_bind; [apply emits_print; exact I | intros _].
  apply emits_bind; [apply emits_print; exact I | intros _].
  apply (emits_bind_value _ (fun c => c = config));
    [apply config_returned; left; reflexivity | intros c ->].
  apply emits_bind; [apply emits_print; exact I | intros _].
  apply emits_bind; [apply emits_print; exact I | intros _].
  apply emits_bind; [apply emits_print; exact I | intros _].
  apply emits_bind; [apply emits_print; exact I | intros _].
  apply emits_try_except.
  - apply emits_bind; [apply emits_quantize; left; reflexivity | intros q].
    apply emits_bind; [apply emits_print; exact I | intros _; apply emits_ret].
  - intros e.
    apply emits_bind; [apply emits_print; exact I | intros _].
    apply emits_bind; [apply emits_print; exact I | intros _].
    apply (emits_bind_value _ (fun c => c = fallback_config));
      [apply config_returned; right; reflexivity | intros c ->].
    apply emits_bind; [apply emits_quantize; right; reflexivity | intros q].
    apply emits_bind; [apply emits_print; exact I | intros _; apply emits_ret].
Qed.

(** X3: an exception of the first quantizer call that is not below
    [Exception] (a [KeyboardInterrupt], a [SystemExit]) is not taken for a
    refusal: [quantize_model] lets it through as it is, prints no warning and
    neither builds nor uses the fallback configuration. *)
Theorem X3_interrupt_is_not_a_refusal :
  forall (model_path : Path) (s : state) w1 model w2 e,
    MLModel_load (str model_path) (st_world s) = (w1, Ok model) ->
    cto_linear_quantize_weights model config w1 = (w2, Raise e) ->
    isinstance_Exception e = false ->
    exists tr,
      quantize_model model_path s = (mkState w2 (st_trace s ++ tr), Raise e) /\
      tr = quantize_prelude model_path model
           ++ [EvLinearQuantizeWeights model config] /\
      configs_built tr = [config] /\
      quantize_calls tr = [config].
Proof.
  intros model_path s w1 model w2 e Hload Hfull He.
  pose proof (quantize_model_full_attempt model_path s w1 model w2 _ Hload Hfull) as Hrun.
  cbv beta iota in Hrun. rewrite He in Hrun.
  eexists. split; [exact Hrun |].
  split; [reflexivity |]. split; reflexivity.
Qed.

(** X4: [quantize_model] keeps to its own business. In every state, all it
    adds to the trace are printed lines, a load of [str model_path], the
    building of one of the two configurations and quantizer calls with one
    of them: it asks nothing of the file system itself, imports nothing and
    saves nothing. *)
Theorem X4_quantize_model_scope :
  forall (model_path : Path) (s : state),
    exists tr,
      st_trace (fst (quantize_model model_path s)) = st_trace s ++ tr /\
      Forall (quantizer_event model_path) tr /\
      paths_examined tr = [] /\
      saves tr = [].
Proof.
  intros model_path s.
  destruct (emits_quantize_model model_path s) as (tr & Htr & Hall).
  exists tr. split; [exact Htr |]. split; [exact Hall |].
  clear Htr. induction Hall as [| ev tr Hev _ IH]; [split; reflexivity |].
  destruct IH as [IH1 IH2].
  destruct ev; cbn in Hev; try contradiction; split; cbn; assumption.
Qed.

End QuantizerScope.

(* ===================================================================== *)
(** ** The quantization step over a stream that can refuse a line *)
(* ===================================================================== *)

Section QuantizerStream.

Context {TK : Toolkit}.

Variable stdout : string -> world -> result unit.

Lemma bind_returned {A B} (m : M A) (k : A -> M B) s s' b :
  bind m k s = (s', Ok b) ->
  exists s1 a, m s = (s1, Ok a) /\ k a s1 = (s', Ok b).
Proof.
  unfold bind. destruct (m s) as [s1 [a | e]]; [| discriminate].
  intros H. exists s1, a. split; [reflexivity | exact H].
Qed.

Lemma bind_raised {A B} (m : M A) (k : A -> M B) s s' e :
  bind m k s = (s', Raise e) ->
  m s = (s', Raise e) \/
  exists s1 a, m s = (s1, Ok a) /\ k a s1 = (s', Raise e).
Proof.
  unfold bind. destruct (m s) as [s1 [a | e1]]; intros H.
  - right. exists s1, a. split; [reflexivity | exact H].
  - left. injection H as <- <-. reflexivity.
Qed.

Lemma try_except_returned {A} (body : M A) isinstance handler s s' a :
  try_except body isinstance handler s = (s', Ok a) ->
  body s = (s', Ok a) \/
  exists s1 e, body s = (s1, Raise e) /\ isinstance e = true /\
               handler e s1 = (s', Ok a).
Proof.
  unfold try_except. destruct (body s) as [s1 [a1 | e]]; intros H.
  - left. exact H.
  - right. destruct (isinstance e) eqn:He; [| discriminate].
    exists s1, e. split; [reflexivity |]. split; [exact He | exact H].
Qed.

Lemma stdout_print_returned line s s' u :
  Stdout.print stdout line s = (s', Ok u) ->
  stdout line (st_world s) = Ok tt /\ s' = log s [EvPrint line].
Proof.
  unfold Stdout.print. destruct (stdout line (st_world s)) as [[] | e]; [| discriminate].
  intros H. injection H as <- _. split; reflexivity.
Qed.

Lemma stdout_print_raised line s s' e :
  Stdout.print stdout line s = (s', Raise e) ->
  stdout line (st_world s) = Raise e /\ s' = s.
Proof.
  unfold Stdout.print. destruct (stdout line (st_world s)) as [[] | e1]; [discriminate |].
  intros H. injection H as <- <-. split; reflexivity.
Qed.

Lemma load_outcome path s s' r :
  ct_models_MLModel path s = (s', r) ->
  MLModel_load path (st_world s) = (st_world s', r) /\
  st_trace s' = st_trace s ++ [EvLoad path].
Proof.
  destruct (MLModel_load path (st_world s)) as [w r0] eqn:H.
  rewrite (run_load _ _ _ _ H). intros E.
  injection E as <- <-. split; reflexivity.
Qed.

Lemma quantize_outcome model c s s' r :
  linear_quantize_weights model c s = (s', r) ->
  cto_linear_quantize_weights model c (st_world s) = (st_world s', r) /\
  st_trace s' = st_trace s ++ [EvLinearQuantizeWeights model c].
Proof.
  destruct (cto_linear_quantize_weights model c (st_world s)) as [w r0] eqn:H.
  rewrite (run_quantize _ _ _ _ _ H). intros E.
  injection E as <- <-. split; reflexivity.
Qed.

(** X2: what [quantize_model] returns was made by the quantizer from the
    model it loaded itself from [model_path], whatever standard output does
    with the lines printed on the way. It is the result of the first call,
    with the full configuration, when the line of line 88 was printed after
    it; or the result of the second call, with the fallback configuration,
    in the world the first call left, after an exception below [Exception]
    that either the first call raised or the [print] of line 88 raised once
    the first call had returned. Nothing else is ever returned; in
    particular never the loaded model itself. *)
Theorem X2_quantize_model_returns_a_quantizer_result :
  forall (model_path : Path) (s s' : state) (q : MLModel),
    Stdout.quantize_model stdout model_path s = (s', Ok q) ->
    exists w1 model tr,
      MLModel_load (str model_path) (st_world s) = (w1, Ok model) /\
      st_trace s' = st_trace s ++ tr /\
      ((cto_linear_quantize_weights model config w1 = (st_world s', Ok q) /\
        stdout "✅ Quantization complete" (st_world s') = Ok tt /\
        quantize_calls tr = [config])
       \/
       (exists w2 first e,
           cto_linear_quantize_weights model config w1 = (w2, first) /\
           match first with
           | Ok _ => stdout "✅ Quantization complete" w2 = Raise e
           | Raise e1 => e1 = e
           end /\
           isinstance_Exception e = true /\
           cto_linear_quantize_weights model fallback_config w2
           = (st_world s', Ok q) /\
           quantize_calls tr = [config; fallback_config])).
Proof.
  intros model_path s s' q Hrun.
  unfold Stdout.quantize_model in Hrun.
  apply bind_returned in Hrun as (s1 & [] & [_ ->]%stdout_print_returned & Hrun).
  apply bind_returned in Hrun as (s2 & model & [Hload Ht2]%load_outcome & Hrun).
  apply bind_returned in Hrun as (s3 & [] & [_ ->]%stdout_print_returned & Hrun).
  apply bind_returned in Hrun as (s4 & [] & [_ ->]%stdout_print_returned & Hrun).
  apply bind_returned in Hrun as (s5 & c & Hc & Hrun).
  rewrite run_config in Hc. injection Hc as <- <-.
  apply bind_returned in Hrun as (s6 & [] & [_ ->]%stdout_print_returned & Hrun).
  apply bind_returned in Hrun as (s7 & [] & [_ ->]%stdout_print_returned & Hrun).
  apply bind_returned in Hrun as (s8 & [] & [_ ->]%stdout_print_returned & Hrun).
  apply bind_returned in Hrun as (s9 & [] & [_ ->]%stdout_print_returned & Hrun).
  cbn [log st_world st_trace] in Hload.
  exists (st_world s2), model.
  assert (Hhandler : forall s10 e,
             st_trace s10 = st_trace s2 ++ tl (tl (quantize_prelude model_path model))
                            ++ [EvLinearQuantizeWeights model config] ->
             (Stdout.print stdout "Warning: Full W8A8 not supported, falling back to weight-only quantization";;
              Stdout.print stdout ("Error: " ++ exn_str e);;
              fallback_config <- cto_OptimizationConfig fallback_config;;
              quantized_model <- linear_quantize_weights model fallback_config;;
              Stdout.print stdout "✅ Weight-only INT8 quantization complete";;
              ret quantized_model) s10 = (s', Ok q) ->
             cto_linear_quantize_weights model fallback_config (st_world s10)
             = (st_world s', Ok q) /\
             exists tr, st_trace s' = st_trace s ++ tr /\
                        quantize_calls tr = [config; fallback_config]).
  { intros s10 e Ht10 H.
    apply bind_returned in H as (t1 & [] & [_ ->]%stdout_print_returned & H).
    apply bind_returned in H as (t2 & [] & [_ ->]%stdout_print_returned & H).
    apply bind_returned in H as (t3 & c & Hc & H).
    rewrite run_config in Hc. injection Hc as <- <-.
    apply bind_returned in H as (t4 & q' & [Hfb Ht4]%quantize_outcome & H).
    apply bind_returned in H as (t5 & [] & [_ ->]%stdout_print_returned & H).
    injection H as <- <-.
    cbn [log st_world st_trace] in *.
    split; [exact Hfb |].
    rewrite Ht4. cbn [log st_world st_trace]. rewrite Ht10, Ht2.
    cbn [log st_world st_trace].
    eexists. split.
    - repeat rewrite <- app_assoc. reflexivity.
    - reflexivity. }
  apply try_except_returned in Hrun as [Hbody | (s10 & e & Hbody & He & Hh)].
  - apply bind_returned in Hbody as (s10 & q1 & [Hfull Ht10]%quantize_outcome & Hbody).
    apply bind_returned in Hbody as (s11 & [] & [Hline ->]%stdout_print_returned & Hbody).
    injection Hbody as <- <-.
    cbn [log st_world st_trace] in *.
    eexists. split; [exact Hload |]. split.
    + rewrite Ht10. cbn [log st_world st_trace]. rewrite Ht2.
      cbn [log st_world st_trace]. repeat rewrite <- app_assoc. reflexivity.
    + left. split; [exact Hfull |]. split; [exact Hline | reflexivity].
  - apply bind_raised in Hbody as [Hq | (s11 & q1 & [Hfull Ht11]%quantize_outcome & Hbody)].
    + apply quantize_outcome in Hq as [Hfull Ht10].
      cbn [log st_world st_trace] in *.
      destruct (Hhandler s10 e) as [Hfb (tr & Htr & Hcalls)]; [| exact Hh |].
      { rewrite Ht10. cbn [tl quantize_prelude]. repeat rewrite <- app_assoc. reflexivity. }
      exists tr. split; [exact Hload |]. split; [exact Htr |].
      right. exists (st_world s10), (Raise e), e.
      split; [exact Hfull |]. split; [reflexivity |].
      split; [exact He |]. split; [exact Hfb | exact Hcalls].
    + apply bind_raised in Hbody as [Hp | (s12 & [] & _ & Hret)]; [| discriminate].
      apply stdout_print_raised in Hp as [Hline ->].
      cbn [log st_world st_trace] in *.
      destruct (Hhandler s11 e) as [Hfb (tr & Htr & Hcalls)]; [| exact Hh |].
      { rewrite Ht11. cbn [tl quantize_prelude]. repeat rewrite <- app_assoc. reflexivity. }
      exists tr. split; [exact Hload |]. split; [exact Htr |].
      right. exists (st_world s11), (Ok q1), e.
      split; [exact Hfull |]. split; [exact Hline |].
      split; [exact He |]. split; [exact Hfb | exact Hcalls].
Qed.

(** X14: when the first attempt, made with the full configuration, returns
    and standard output takes the lines printed up to and including the
    line of line 88, [quantize_model] returns that very result; the full
    configuration is the only one built and the only one handed to the
    quantizer, so the fallback configuration is neither built nor used. *)
Theorem X14_no_fallback_once_success_is_printed :
  forall (model_path : Path) (s : state) w1 model w2 q,
    Stdout.takes stdout (st_world s)
                 [("Loading model from: " ++ str model_path)%string] ->
    MLModel_load (str model_path) (st_world s) = (w1, Ok model) ->
    Stdout.takes stdout w1 (tl (printed (quantize_prelude model_path model))) ->
    cto_linear_quantize_weights model config w1 = (w2, Ok q) ->
    stdout "✅ Quantization complete" w2 = Ok tt ->
    exists tr,
      Stdout.quantize_model stdout model_path s
      = (mkState w2 (st_trace s ++ tr), Ok q) /\
      tr = quantize_prelude model_path model
           ++ [EvLinearQuantizeWeights model config;
               EvPrint "✅ Quantization complete"] /\
      configs_built tr = [config] /\
      quantize_calls tr = [config] /\
      ~ In fallback_config (configs_built tr) /\
      ~ In fallback_config (quantize_calls tr).
Proof.
  intros model_path s w1 model w2 q H0 Hload H1 Hfull Hline.
  rewrite (stdout_quantize_model_prelude stdout _ _ _ _ H0 Hload H1).
  unfold try_except.
  erewrite bind_ok by (apply run_quantize; cbn [st_world]; exact Hfull).
  erewrite bind_ok by (apply run_stdout_print; cbn [st_world]; exact Hline).
  unfold ret, log. cbn [st_world st_trace].
  eexists. split; [repeat rewrite <- app_assoc; reflexivity |].
  assert (Hno : ~ In fallback_config [config]).
  { intros [H | []]. exact (config_neq_fallback H). }
  repeat split; try reflexivity; exact Hno.
Qed.

(** X15: when the first attempt returns but standard output refuses the
    line of line 88 with an exception below [Exception], the [except]
    clause of line 90 takes that for a refusal of the full configuration:
    on a stream that takes the warning and the error line, the fallback
    configuration is built and the quantizer is called a second time, with
    it, on the same model; [quantize_model] then ends as that second call
    and the [print] of line 102 end, and the result of the first attempt is
    dropped. *)
Theorem X15_refused_success_line_is_taken_for_a_refusal :
  forall (model_path : Path) (s : state) w1 model w2 q e,
    Stdout.takes stdout (st_world s)
                 [("Loading model from: " ++ str model_path)%string] ->
    MLModel_load (str model_path) (st_world s) = (w1, Ok model) ->
    Stdout.takes stdout w1 (tl (printed (quantize_prelude model_path model))) ->
    cto_linear_quantize_weights model config w1 = (w2, Ok q) ->
    stdout "✅ Quantization complete" w2 = Raise e ->
    isinstance_Exception e = true ->
    Stdout.takes stdout w2 (printed (fallback_prelude model e)) ->
    exists w3 r tr,
      cto_linear_quantize_weights model fallback_config w2 = (w3, r) /\
      tr = quantize_prelude model_path model
           ++ [EvLinearQuantizeWeights model config]
           ++ fallback_prelude model e /\
      configs_built tr = [config; fallback_config] /\
      quantize_calls tr = [config; fallback_config] /\
      Stdout.quantize_model stdout model_path s
      = match r with
        | Ok q' =>
            match stdout "✅ Weight-only INT8 quantization complete" w3 with
            | Ok _ =>
                (mkState w3 (st_trace s ++ tr
                             ++ [EvPrint "✅ Weight-only INT8 quantization complete"]),
                 Ok q')
            | Raise e' => (mkState w3 (st_trace s ++ tr), Raise e')
            end
        | Raise e' => (mkState w3 (st_trace s ++ tr), Raise e')
        end.
Proof.
  intros model_path s w1 model w2 q e H0 Hload H1 Hfull Hline He H2.
  unfold fallback_prelude, printed in H2. cbn [flat_map app] in H2.
  pose proof (Forall_inv H2) as Hwarn.
  pose proof (Forall_inv (Forall_inv_tail H2)) as Herr.
  cbv beta in Hwarn, Herr. clear H2.
  destruct (cto_linear_quantize_weights model fallback_config w2) as [w3 r] eqn:Hfb.
  exists w3, r. eexists. split; [reflexivity |]. split; [reflexivity |].
  split; [reflexivity |]. split; [reflexivity |].
  rewrite (stdout_quantize_model_prelude stdout _ _ _ _ H0 Hload H1).
  unfold try_except.
  erewrite bind_ok by (apply run_quantize; cbn [st_world]; exact Hfull).
  erewrite bind_raise by (apply run_stdout_print_refused; cbn [st_world]; exact Hline).
  rewrite He.
  erewrite bind_ok by (apply run_stdout_print; cbn [st_world]; exact Hwarn).
  erewrite bind_ok by (apply run_stdout_print; cbn [log st_world]; exact Herr).
  rewrite (bind_ok _ _ _ _ _ (run_config _ _)).
  destruct r as [q' | e'].
  - erewrite bind_ok by (apply run_quantize; cbn [log st_world]; exact Hfb).
    destruct (stdout "✅ Weight-only INT8 quantization complete" w3) as [[] | e'] eqn:Hlast.
    + erewrite bind_ok by (apply run_stdout_print; cbn [st_world]; exact Hlast).
      unfold ret, log, fallback_prelude. cbn [st_world st_trace].
      repeat rewrite <- app_assoc. reflexivity.
    + erewrite bind_raise by (apply run_stdout_print_refused; cbn [st_world]; exact Hlast).
      unfold log, fallback_prelude. cbn [st_world st_trace].
      repeat rewrite <- app_assoc. reflexivity.
  - erewrite bind_raise by (apply run_quantize; cbn [log st_world]; exact Hfb).
    unfold log, fallback_prelude. cbn [st_world st_trace].
    repeat rewrite <- app_assoc. reflexivity.
Qed.

End QuantizerStream.

(* ===================================================================== *)
(** ** Trees, paths and what the sums add up *)
(* ===================================================================== *)

Section Trees.

(** Induction on a tree, with the hypothesis for every entry of a
    directory. *)
Lemma node_induction (P : node -> Prop) :
  (forall sz, P (File sz)) ->
  (forall sz es, Forall (fun e => P (snd e)) es -> P (Dir sz es)) ->
  forall n, P n.
Proof.
  intros Hfile Hdir.
  fix IH 1. intros [sz | sz es].
  - apply Hfile.
  - apply Hdir.
    induction es as [| [k n] rest IHrest]; constructor.
    + cbn [snd]. apply IH.
    + exact IHrest.
Qed.

Lemma joinpath_app p c rest : (p // c) ++ rest = p ++ c :: rest.
Proof. unfold joinpath. rewrite <- app_assoc. reflexivity. Qed.

Lemma below_refl p : below p p.
Proof. exists []. rewrite app_nil_r. reflexivity. Qed.

Lemma below_joinpath p c q : below (p // c) q -> below p q.
Proof. intros [rest ->]. exists (c :: rest). apply joinpath_app. Qed.

(** Everything [rglob] finds lies below where it started. *)
Lemma descendants_below n :
  forall p q m, In (q, m) (descendants p n) -> below p q.
Proof.
  induction n as [sz | sz es IH] using node_induction; intros p q m Hin.
  - destruct Hin.
  - cbn [descendants] in Hin. apply in_flat_map in Hin.
    destruct Hin as (e & He & [Hhead | Htail]).
    + injection Hhead as <- _. apply (below_joinpath p (fst e)), below_refl.
    + rewrite Forall_forall in IH.
      apply (below_joinpath p (fst e)). apply (IH e He _ _ _ Htail).
Qed.

Lemma rglob_below t p f : In f (fs_rglob t p) -> below p f.
Proof.
  unfold fs_rglob. destruct (resolve t p) as [n |]; [| intros []].
  intros Hin. apply in_map_iff in Hin. destruct Hin as ([q m] & <- & Hin).
  apply (descendants_below n p q m Hin).
Qed.

Lemma resolve_app t p rest :
  resolve t (p ++ rest)
  = match resolve t p with Some n => resolve n rest | None => None end.
Proof.
  revert t. induction p as [| c p IH]; intros t; cbn [app resolve].
  - reflexivity.
  - destruct t as [sz | sz es]; [reflexivity |].
    destruct (lookup_entry c es); [apply IH | reflexivity].
Qed.

Lemma lookup_entry_first es :
  NoDup (map fst es) ->
  forall e, In e es -> lookup_entry (fst e) es = Some (snd e).
Proof.
  induction es as [| [k n] rest IH]; intros Hnd e Hin; [destruct Hin |].
  cbn [map fst] in Hnd. apply NoDup_cons_iff in Hnd. destruct Hnd as [Hk Hnd].
  cbn [lookup_entry]. destruct Hin as [<- | Hin].
  - cbn [fst snd]. rewrite String.eqb_refl. reflexivity.
  - destruct (String.eqb_spec k (fst e)) as [-> | _].
    + exfalso. apply Hk. apply in_map. exact Hin.
    + apply IH; assumption.
Qed.

Lemma well_formed_entries sz es :
  well_formed (Dir sz es) ->
  NoDup (map fst es) /\ Forall (fun e => well_formed (snd e)) es.
Proof.
  cbn [well_formed]. intros [Hnd Hall]. split; [exact Hnd |].
  induction es as [| e rest IH]; constructor.
  - apply Hall.
  - apply IH.
    + cbn [map] in Hnd. apply NoDup_cons_iff in Hnd. apply Hnd.
    + apply Hall.
Qed.

(** In a well-formed tree, every path [rglob] finds leads to the node it
    was found at. *)
Lemma descendants_resolve t n :
  well_formed n ->
  forall p, resolve t p = Some n ->
  forall q m, In (q, m) (descendants p n) -> resolve t q = Some m.
Proof.
  induction n as [sz | sz es IH] using node_induction; intros Hwf p Hp q m Hin.
  - destruct Hin.
  - destruct (well_formed_entries sz es Hwf) as [Hnd Hsub].
    cbn [descendants] in Hin. apply in_flat_map in Hin.
    destruct Hin as (e & He & Hin).
    assert (Hstep : resolve t (p // fst e) = Some (snd e)).
    { unfold joinpath. rewrite resolve_app, Hp. cbn [resolve].
      rewrite (lookup_entry_first es Hnd e He). reflexivity. }
    destruct Hin as [Hhead | Htail].
    + injection Hhead as <- <-. exact Hstep.
    + rewrite Forall_forall in IH, Hsub.
      apply (IH e He (Hsub e He) _ Hstep _ _ Htail).
Qed.

End Trees.

Section Sums.

Lemma found_bytes_app a b : found_bytes (a ++ b) = found_bytes a + found_bytes b.
Proof.
  induction a as [| [q m] a IH]; cbn [app found_bytes fold_right snd].
  - reflexivity.
  - fold (found_bytes (a ++ b)). fold (found_bytes a). rewrite IH.
    destruct m; lia.
Qed.

(** The regular files found below a node hold what [files_total] counts. *)
Lemma found_bytes_descendants n :
  forall p, found_bytes (descendants p n) = Z.of_N (files_total n).
Proof.
  induction n as [sz | sz es IH] using node_induction; intros p.
  - reflexivity.
  - cbn [descendants files_total].
    induction es as [| [k m] rest IHrest].
    + reflexivity.
    + cbn [flat_map fst snd].
      change ((p // k, m) :: descendants (p // k) m ++ _)
        with (((p // k, m) :: descendants (p // k) m)
                ++ flat_map (fun e => (p // fst e, snd e)
                                        :: descendants (p // fst e) (snd e)) rest).
      rewrite found_bytes_app.
      apply Forall_cons_iff in IH. destruct IH as [IHm IHall].
      rewrite (IHrest IHall).
      cbn [found_bytes fold_right snd]. fold (found_bytes (descendants (p // k) m)).
      cbn [snd] in IHm. rewrite IHm.
      destruct m as [fsz | dsz des]; [cbn [files_total] |]; lia.
Qed.

(** When every path found leads to the node it was found at, the sum the
    script computes is the sum over the regular files found. *)
Lemma sum_of_found t (found : list (Path * node)) :
  (forall q m, In (q, m) found -> resolve t q = Some m) ->
  forall acc,
    fold_left Z.add
      (map (fun f => match fs_st_size t f with Ok z => z | Raise _ => 0 end)
           (filter (fs_is_file t) (map fst found)))
      acc
    = acc + found_bytes found.
Proof.
  induction found as [| [q m] rest IH]; intros Hres acc.
  - cbn. lia.
  - cbn [map fst filter found_bytes fold_right snd]. fold (found_bytes rest).
    assert (Hq : resolve t q = Some m) by (apply Hres; left; reflexivity).
    assert (Hrest : forall q' m', In (q', m') rest -> resolve t q' = Some m').
    { intros q' m' Hin. apply Hres. right. exact Hin. }
    assert (Hf : fs_is_file t q = match m with File _ => true | Dir _ _ => false end).
    { unfold fs_is_file. rewrite Hq. destruct m; reflexivity. }
    assert (Hs : forall sz, m = File sz -> fs_st_size t q = Ok (Z.of_N sz)).
    { intros sz ->. unfold fs_st_size. rewrite Hq. reflexivity. }
    rewrite Hf. destruct m as [sz | sz es].
    + cbn [map fold_left]. rewrite (Hs sz eq_refl).
      rewrite (IH Hrest). lia.
    + apply (IH Hrest).
Qed.

(** X5: below a path that leads to a well-formed tree, the sum of lines
    144-145 ([rglob], [is_file], [stat]) is the number of bytes in the
    regular files at any depth below that path, each counted once; the sizes
    of the directories on the way count for nothing, and the summing itself
    never raises. *)
Theorem X5_bundle_size_is_the_recursive_total :
  forall {TK : Toolkit} (s : state) (p : Path) (n : node),
    resolve (fs (st_world s)) p = Some n ->
    well_formed n ->
    bundle_size (fs (st_world s)) p = Z.of_N (files_total n) /\
    snd ((files <- rglob p;; sum_sizes files 0) s) = Ok (Z.of_N (files_total n)).
Proof.
  intros TK s p n Hp Hwf.
  assert (Hsize : bundle_size (fs (st_world s)) p = Z.of_N (files_total n)).
  { unfold bundle_size, fs_rglob. rewrite Hp.
    rewrite (sum_of_found (fs (st_world s)) (descendants p n)).
    - rewrite found_bytes_descendants. lia.
    - intros q m. apply (descendants_resolve _ n Hwf p Hp). }
  split; [exact Hsize |].
  rewrite (bind_ok _ _ _ _ _ (run_rglob _ _)), run_sum_sizes.
  cbn [snd log st_world]. fold (bundle_size (fs (st_world s)) p).
  rewrite Hsize. reflexivity.
Qed.

End Sums.

Section SumRuns.

Import Fake.

Lemma bundle_well_formed n : well_formed (bundle n).
Proof.
  cbn. repeat split; repeat constructor; cbn; intuition discriminate.
Defined.

Lemma X5_bundle_size_is_the_recursive_total_witness :
  bundle_size (checkout [source_bundle]) (SOURCE_MODEL script_file)
  = Z.of_N (files_total (bundle (100 * MiB))) /\
  snd ((files <- @rglob (toolkit happy) (SOURCE_MODEL script_file);;
        sum_sizes files 0) (start happy (checkout [source_bundle])))
  = Ok (Z.of_N (files_total (bundle (100 * MiB)))).
Proof.
  apply (@X5_bundle_size_is_the_recursive_total (toolkit happy)
           (start happy (checkout [source_bundle]))
           (SOURCE_MODEL script_file) (bundle (100 * MiB))).
  - vm_compute. reflexivity.
  - apply bundle_well_formed.
Defined.

End SumRuns.

(* ===================================================================== *)
(** ** Where the paths point *)
(* ===================================================================== *)

Section Layout.

Variable script_file : Path.

Lemma joinpath_inj p a b : p // a = p // b -> a = b.
Proof.
  unfold joinpath. intros H. apply app_inv_head in H. congruence.
Qed.

Lemma parent_joinpath p c : parent (p // c) = p.
Proof. apply removelast_last. Qed.

Lemma name_joinpath p c : name (p // c) = c.
Proof. apply last_last. Qed.

Lemma append_inv_head (s x y : string) :
  (s ++ x = s ++ y)%string -> x = y.
Proof.
  induction s as [| c s IH]; cbn; intros H; [exact H |].
  injection H as H. apply IH. exact H.
Qed.

Lemma str_last_inj (l : list string) (a b : string) :
  String.concat "" (map (fun c => "/" ++ c)%string (l ++ [a]))
  = String.concat "" (map (fun c => "/" ++ c)%string (l ++ [b])) ->
  a = b.
Proof.
  induction l as [| c l IH]; intros H.
  - cbn in H. injection H as H. exact H.
  - assert (Hne : forall x, exists h t,
                 map (fun c => "/" ++ c)%string (l ++ [x]) = h :: t).
    { intros x. destruct l; cbn; eauto. }
    destruct (Hne a) as (h1 & t1 & E1). destruct (Hne b) as (h2 & t2 & E2).
    cbn [app map String.concat] in H. rewrite E1, E2 in H.
    rewrite <- E1, <- E2 in H.
    apply append_inv_head in H. cbn [append] in H.
    apply IH. exact H.
Qed.

(** The strings of two entries of one directory differ when the names do. *)
Lemma str_joinpath_inj p a b : str (p // a) = str (p // b) -> a = b.
Proof.
  unfold str, joinpath.
  destruct (p ++ [a]) eqn:Ea; [destruct p; discriminate |].
  destruct (p ++ [b]) eqn:Eb; [destruct p; discriminate |].
  rewrite <- Ea, <- Eb. apply str_last_inj.
Qed.

(** X6: where the paths point. For a script at [root/dir/file], whatever
    [dir] and [file] are called, the resources directory is
    [root/Sources/WaxVectorSearchMiniLM/Resources]. Wherever the script is,
    the three candidates and the output path are entries of the resources
    directory with four different names, so that the output path is none of
    the candidates and the string handed to [save] differs from every string
    that can be handed to the loader: the save cannot overwrite the model
    that was located. *)
Theorem X6_output_is_not_a_candidate :
  (forall root dir file,
      RESOURCES_DIR (root ++ [dir; file])
      = root ++ ["Sources"; "WaxVectorSearchMiniLM"; "Resources"]%string) /\
  Forall (fun p => parent p = RESOURCES_DIR script_file)
         (OUTPUT_MODEL script_file :: candidates script_file) /\
  NoDup (map name (OUTPUT_MODEL script_file :: candidates script_file)) /\
  ~ In (OUTPUT_MODEL script_file) (candidates script_file) /\
  (forall p, In p (candidates script_file) ->
             str p <> str (OUTPUT_MODEL script_file)).
Proof.
  split.
  { intros root dir file. unfold RESOURCES_DIR, PROJECT_ROOT, SCRIPT_DIR, parent.
    change (root ++ [dir; file]) with (root ++ [dir] ++ [file]).
    rewrite app_assoc, removelast_last, removelast_last.
    unfold joinpath. rewrite <- !app_assoc. reflexivity. }
  split.
  { repeat constructor; apply parent_joinpath. }
  split.
  { cbn [map candidates alt_paths].
    unfold OUTPUT_MODEL, SOURCE_MODEL. rewrite !name_joinpath.
    repeat constructor; cbn; intuition discriminate. }
  split.
  { intros [H | [H | [H | []]]];
      apply joinpath_inj in H; discriminate. }
  intros p [<- | [<- | [<- | []]]] H;
    apply str_joinpath_inj in H; discriminate.
Qed.

End Layout.

(* ===================================================================== *)
(** ** Failures on the way to the save *)
(* ===================================================================== *)

Section Failures.

Context {TK : Toolkit}.
Variable script_file : Path.

Lemma saves_app tr1 tr2 : saves (tr1 ++ tr2) = saves tr1 ++ saves tr2.
Proof. apply flat_map_app. Qed.

Lemma quantize_calls_app tr1 tr2 :
  quantize_calls (tr1 ++ tr2) = quantize_calls tr1 ++ quantize_calls tr2.
Proof. apply flat_map_app. Qed.

Lemma locator_trace_quiet tr :
  Forall (locator_event script_file) tr ->
  loads tr = [] /\ quantize_calls tr = [] /\ saves tr = [].
Proof.
  induction 1 as [| ev tr Hev _ IH]; [repeat split |].
  destruct ev; cbn in Hev; try contradiction; exact IH.
Qed.

Lemma quantizer_trace_quiet model_path tr :
  Forall (quantizer_event model_path) tr -> saves tr = [].
Proof.
  induction 1 as [| ev tr Hev _ IH]; [reflexivity |].
  destruct ev; cbn in Hev; try contradiction; exact IH.
Qed.

(** [main] up to the point where [find_model] has returned. *)
Lemma main_located s s1 p :
  find_model script_file (log s banner) = (s1, Ok p) ->
  exists tr1,
    st_trace s1 = st_trace s ++ banner ++ tr1 /\
    Forall (locator_event script_file) tr1 /\
    In p (candidates script_file) /\
    st_world s1 = st_world s.
Proof.
  intros Hfind.
  destruct (emits_find_model script_file (log s banner)) as (tr1 & Htr & Hall).
  pose proof (find_model_outcome script_file (log s banner)) as Hout.
  pose proof (keeps_world_find_model script_file (log s banner)) as Hw.
  rewrite Hfind in Htr, Hout, Hw. cbn [fst snd log st_trace st_world] in *.
  exists tr1. rewrite Htr, <- app_assoc. intuition.
Qed.

Lemma main_load_raises s s1 p w e :
  find_model script_file (log s banner) = (s1, Ok p) ->
  MLModel_load (str p) (st_world s1) = (w, Raise e) ->
  main script_file s = (mkState w (st_trace s1 ++ [EvLoad (str p)]), Raise e).
Proof.
  intros Hfind Hload. unfold main.
  do 4 rewrite (bind_ok _ _ _ _ _ (run_print _ _)).
  rewrite !log_log. cbn [app]. fold (@banner TK).
  rewrite (bind_ok _ _ _ _ _ Hfind).
  apply bind_raise. apply run_load. exact Hload.
Qed.

Lemma main_quantize_raises s s1 p w2 original s3 e :
  find_model script_file (log s banner) = (s1, Ok p) ->
  MLModel_load (str p) (st_world s1) = (w2, Ok original) ->
  quantize_model p (mkState w2 (st_trace s1 ++ [EvLoad (str p)])) = (s3, Raise e) ->
  main script_file s = (s3, Raise e).
Proof.
  intros Hfind Hload Hq. unfold main.
  do 4 rewrite (bind_ok _ _ _ _ _ (run_print _ _)).
  rewrite !log_log. cbn [app]. fold (@banner TK).
  rewrite (bind_ok _ _ _ _ _ Hfind).
  rewrite (bind_ok _ _ _ _ _ (run_load _ _ _ _ Hload)).
  apply bind_raise. exact Hq.
Qed.

(** X7: a model that is found but cannot be loaded ends the run. When the
    load in [main] raises, whatever the exception, [main] ends with that
    very exception; up to there it has asked for exactly one load, of the
    path the locator returned, and has made no quantizer call and no save. *)
Theorem X7_load_failure_ends_the_run :
  forall (s s1 : state) (p : Path) w e,
    find_model script_file (log s banner) = (s1, Ok p) ->
    MLModel_load (str p) (st_world s1) = (w, Raise e) ->
    exists tr,
      main script_file s = (mkState w (st_trace s ++ tr), Raise e) /\
      loads tr = [str p] /\
      quantize_calls tr = [] /\
      saves tr = [].
Proof.
  intros s s1 p w e Hfind Hload.
  destruct (main_located s s1 p Hfind) as (tr1 & Htr1 & Hall & _ & _).
  destruct (locator_trace_quiet tr1 Hall) as (Hl & Hq & Hs).
  exists (banner ++ tr1 ++ [EvLoad (str p)]).
  split.
  - rewrite (main_load_raises s s1 p w e Hfind Hload), Htr1.
    rewrite <- !app_assoc. reflexivity.
  - rewrite !loads_app, !quantize_calls_app, !saves_app, Hl, Hq, Hs.
    repeat split.
Qed.

(** X8: a failure of the quantization step ends the run before anything is
    saved. When [quantize_model] raises in [main] (its own load failed, the
    first call raised something that is not below [Exception], or both calls
    raised), [main] ends with that exception, and nothing has been saved. *)
Theorem X8_quantization_failure_saves_nothing :
  forall (s s1 : state) (p : Path) w2 (original : MLModel) (s3 : state) e,
    find_model script_file (log s banner) = (s1, Ok p) ->
    MLModel_load (str p) (st_world s1) = (w2, Ok original) ->
    quantize_model p (mkState w2 (st_trace s1 ++ [EvLoad (str p)])) = (s3, Raise e) ->
    exists tr,
      main script_file s = (s3, Raise e) /\
      st_trace s3 = st_trace s ++ tr /\
      saves tr = [].
Proof.
  intros s s1 p w2 original s3 e Hfind Hload Hq.
  destruct (main_located s s1 p Hfind) as (tr1 & Htr1 & Hall & _ & _).
  destruct (locator_trace_quiet tr1 Hall) as (_ & _ & Hs).
  destruct (emits_quantize_model p (mkState w2 (st_trace s1 ++ [EvLoad (str p)])))
    as (tr3 & Htr3 & Hall3).
  rewrite Hq in Htr3. cbn [fst st_trace] in Htr3.
  exists (banner ++ tr1 ++ [EvLoad (str p)] ++ tr3).
  split; [apply (main_quantize_raises s s1 p w2 original s3 e Hfind Hload Hq) |].
  split.
  - rewrite Htr3, Htr1, <- !app_assoc. reflexivity.
  - rewrite !saves_app, Hs, (quantizer_trace_quiet p tr3 Hall3). reflexivity.
Qed.

(** X9: a save that raises ends the run on the spot. [main] ends with the
    exception of [save]; the save is the last thing on the trace, so that no
    size report is made and the closing lines are not printed. *)
Theorem X9_save_failure_ends_the_run :
  forall (s s1 : state) (p : Path) w2 (original : MLModel) (s3 : state)
         (quantized : MLModel) w4 e,
    find_model script_file (log s banner) = (s1, Ok p) ->
    MLModel_load (str p) (st_world s1) = (w2, Ok original) ->
    quantize_model p (mkState w2 (st_trace s1 ++ [EvLoad (str p)]))
    = (s3, Ok quantized) ->
    MLModel_save quantized (str (OUTPUT_MODEL script_file)) (st_world s3)
    = (w4, Raise e) ->
    main script_file s
    = (mkState w4
         (st_trace s3 ++ validation_lines original quantized
          ++ [EvPrint (LF ++ "Saving quantized model to: "
                       ++ str (OUTPUT_MODEL script_file))%string;
              EvSave quantized (str (OUTPUT_MODEL script_file))]),
       Raise e).
Proof.
  intros s s1 p w2 original s3 quantized w4 e Hfind Hload Hq Hsave.
  rewrite (main_up_to_save script_file s s1 p w2 original s3 quantized w4 _
             Hfind Hload Hq Hsave).
  reflexivity.
Qed.

End Failures.

(* ===================================================================== *)
(** ** What the run may do after the save, and as a whole *)
(* ===================================================================== *)

Section Scope.

Context {TK : Toolkit}.
Variable script_file : Path.

(** Every event of an explicit list is within a scope. *)
Ltac in_scope :=
  repeat (apply Forall_cons || apply Forall_nil); cbn; auto.

Lemma int_truediv_raises a b e :
  int_truediv a b = Raise e ->
  exn_cls e = ZeroDivisionError \/ exn_cls e = OverflowError.
Proof.
  unfold int_truediv. destruct (b =? 0).
  - intros H. injection H as <-. left. reflexivity.
  - destruct (Float.is_infinite (Float.quotient a b)); [| discriminate].
    intros H. injection H as <-. right. reflexivity.
Qed.

(** Lines 147-150 only print, and can only fail in a division. *)
Lemma size_comparison_scope o q s :
  exists tr r,
    size_comparison o q s = (log s tr, r) /\
    Forall (report_event script_file) tr /\
    match r with
    | Ok _ => True
    | Raise e => exn_cls e = ZeroDivisionError \/ exn_cls e = OverflowError
    end.
Proof.
  unfold size_comparison.
  rewrite (bind_ok _ _ _ _ _ (run_print _ _)).
  unfold bind, lift, print, emit, log. cbn [st_world st_trace].
  unfold float_truediv_int. change (1024 =? 0) with false. cbv iota.
  destruct (int_truediv o 1024) as [o1 | e] eqn:E1.
  2:{ exists [EvPrint (LF ++ "Size comparison:")%string], (Raise e).
      split; [reflexivity |].
      split; [in_scope | apply (int_truediv_raises _ _ _ E1)]. }
  destruct (int_truediv q 1024) as [q1 | e] eqn:E2.
  2:{ eexists [_; _], (Raise e). rewrite <- app_assoc.
      split; [reflexivity |].
      split; [in_scope | apply (int_truediv_raises _ _ _ E2)]. }
  destruct (int_truediv q o) as [ratio | e] eqn:E3.
  2:{ eexists [_; _; _], (Raise e). rewrite <- !app_assoc.
      split; [reflexivity |].
      split; [in_scope | apply (int_truediv_raises _ _ _ E3)]. }
  eexists [_; _; _; _], (Ok tt). rewrite <- !app_assoc.
  split; [reflexivity |]. split; [in_scope | exact I].
Qed.

Lemma size_events_scope t p files :
  Forall (below p) files ->
  (p = SOURCE_MODEL script_file \/ p = OUTPUT_MODEL script_file) ->
  Forall (report_event script_file) (size_events t files).
Proof.
  intros Hall Hp. unfold size_events.
  induction Hall as [| f rest Hf _ IH]; [constructor |].
  cbn [flat_map]. apply Forall_app. split; [| exact IH].
  assert (Hev : below (SOURCE_MODEL script_file) f \/
                below (OUTPUT_MODEL script_file) f).
  { destruct Hp as [-> | ->]; [left | right]; exact Hf. }
  destruct (fs_is_file t f); in_scope.
Qed.

Lemma measuring_scope t :
  Forall (report_event script_file)
         (measuring t (SOURCE_MODEL script_file) (OUTPUT_MODEL script_file)).
Proof.
  unfold measuring.
  apply Forall_app. split; [in_scope |].
  apply Forall_app. split.
  { apply (size_events_scope t (SOURCE_MODEL script_file)); [| left; reflexivity].
    apply Forall_forall. intros f. apply rglob_below. }
  apply Forall_app. split; [in_scope |].
  apply (size_events_scope t (OUTPUT_MODEL script_file)); [| right; reflexivity].
  apply Forall_forall. intros f. apply rglob_below.
Qed.

Lemma closing_scope : Forall (report_event script_file) closing.
Proof. unfold closing. in_scope. Qed.

Lemma main_after_save_scope s :
  exists tr r,
    main_after_save script_file s = (log s tr, r) /\
    Forall (report_event script_file) tr /\
    match r with
    | Ok _ => True
    | Raise e => exn_cls e = ZeroDivisionError \/ exn_cls e = OverflowError
    end.
Proof.
  unfold main_after_save.
  pose proof (run_print_file_sizes script_file s) as Hrun. cbv zeta in Hrun.
  destruct (fs_exists (fs (st_world s)) (SOURCE_MODEL script_file)).
  - destruct (fs_exists (fs (st_world s)) (OUTPUT_MODEL script_file)).
    + destruct (size_comparison_scope
                  (bundle_size (fs (st_world s)) (SOURCE_MODEL script_file))
                  (bundle_size (fs (st_world s)) (OUTPUT_MODEL script_file))
                  (log s (measuring (fs (st_world s)) (SOURCE_MODEL script_file)
                                    (OUTPUT_MODEL script_file))))
        as (tr & r & Hcmp & Hall & Hr).
      rewrite Hcmp, log_log in Hrun.
      destruct r as [[] | e].
      * rewrite (bind_ok _ _ _ _ _ Hrun), run_closing, log_log.
        eexists. eexists. split; [reflexivity |]. split; [| exact I].
        apply Forall_app. split; [apply Forall_app; split |];
          [apply measuring_scope | exact Hall | apply closing_scope].
      * rewrite (bind_raise _ _ _ _ _ Hrun).
        eexists. eexists. split; [reflexivity |]. split; [| exact Hr].
        apply Forall_app. split; [apply measuring_scope | exact Hall].
    + rewrite (bind_ok _ _ _ _ _ Hrun), run_closing, log_log.
      eexists. eexists. split; [reflexivity |]. split; [| exact I].
      apply Forall_app. split; [in_scope | apply closing_scope].
  - rewrite (bind_ok _ _ _ _ _ Hrun), run_closing, log_log.
    eexists. eexists. split; [reflexivity |]. split; [| exact I].
    apply Forall_app. split; [in_scope | apply closing_scope].
Qed.

(** X10: after the save the script only looks and prints. In every state,
    lines 142-153 leave the world as the save left it, and all they add to
    the trace are printed lines, existence checks and [rglob] on the primary
    path and the output path, and [is_file] and [stat] on paths below these
    two: no import, load, quantizer call or save. *)
Theorem X10_reporting_only_reads :
  forall s : state,
    st_world (fst (main_after_save script_file s)) = st_world s /\
    exists tr,
      st_trace (fst (main_after_save script_file s)) = st_trace s ++ tr /\
      Forall (report_event script_file) tr.
Proof.
  intros s. destruct (main_after_save_scope s) as (tr & r & Hrun & Hall & _).
  rewrite Hrun. cbn [fst log st_world st_trace].
  split; [reflexivity | exists tr; auto].
Qed.

Lemma report_trace_quiet tr :
  Forall (report_event script_file) tr -> saves tr = [].
Proof.
  induction 1 as [| ev tr Hev _ IH]; [reflexivity |].
  destruct ev; cbn in Hev; try contradiction; exact IH.
Qed.

Lemma locator_in_main ev :
  locator_event script_file ev -> main_event script_file ev.
Proof.
  destruct ev; cbn; tauto.
Qed.

Lemma quantizer_in_main p ev :
  In p (candidates script_file) ->
  quantizer_event p ev -> main_event script_file ev.
Proof.
  intros Hp. destruct ev; cbn; try tauto. intros ->. exists p. auto.
Qed.

Lemma report_in_main ev :
  report_event script_file ev -> main_event script_file ev.
Proof.
  destruct ev; cbn; try tauto.
  intros [-> | ->]; [left; left; reflexivity | right; right; reflexivity].
Qed.

Lemma banner_in_main : Forall (main_event script_file) banner.
Proof. unfold banner. in_scope. Qed.

(** X11: what a run of [main] can do at all. In every state and whatever
    the toolkit and the file system answer, [main] loads only candidates of
    the locator, builds and uses only its two configurations, looks only at
    the candidates, the resources directory, the output path and what lies
    below the primary and the output path, and saves at most once, and then
    to the output path. *)
Theorem X11_main_saves_at_most_once_to_the_output_path :
  forall s : state,
    exists tr,
      st_trace (fst (main script_file s)) = st_trace s ++ tr /\
      Forall (main_event script_file) tr /\
      (saves tr = [] \/
       exists q, saves tr = [(q, str (OUTPUT_MODEL script_file))]).
Proof.
  intros s.
  destruct (find_model script_file (log s banner)) as [s1 [p | e]] eqn:Hfind.
  2:{ (* nothing found *)
      destruct (emits_find_model script_file (log s banner)) as (tr1 & Htr1 & Hall1).
      rewrite Hfind in Htr1. cbn [fst log st_trace] in Htr1.
      rewrite (main_locate_raises script_file s s1 e Hfind). cbn [fst].
      exists (banner ++ tr1). rewrite Htr1, <- app_assoc.
      split; [reflexivity |]. split.
      - apply Forall_app. split; [apply banner_in_main |].
        revert Hall1. apply Forall_impl, locator_in_main.
      - left. rewrite saves_app.
        destruct (locator_trace_quiet script_file tr1 Hall1) as (_ & _ & ->).
        reflexivity. }
  destruct (main_located script_file s s1 p Hfind) as (tr1 & Htr1 & Hall1 & Hp & _).
  destruct (locator_trace_quiet script_file tr1 Hall1) as (_ & _ & Hs1).
  assert (Hpre : Forall (main_event script_file) (banner ++ tr1 ++ [EvLoad (str p)])).
  { apply Forall_app. split; [apply banner_in_main |].
    apply Forall_app. split; [revert Hall1; apply Forall_impl, locator_in_main |].
    apply Forall_cons; [| apply Forall_nil]. exists p. auto. }
  destruct (MLModel_load (str p) (st_world s1)) as [w2 [original | e]] eqn:Hload.
  2:{ (* the load fails *)
      rewrite (main_load_raises script_file s s1 p w2 e Hfind Hload). cbn [fst st_trace].
      exists (banner ++ tr1 ++ [EvLoad (str p)]). rewrite Htr1, <- !app_assoc.
      split; [reflexivity |]. split; [exact Hpre |].
      left. rewrite !saves_app, Hs1. reflexivity. }
  destruct (quantize_model p (mkState w2 (st_trace s1 ++ [EvLoad (str p)])))
    as [s3 [quantized | e]] eqn:Hq.
  2:{ (* the quantization fails *)
      destruct (emits_quantize_model p (mkState w2 (st_trace s1 ++ [EvLoad (str p)])))
        as (tr3 & Htr3 & Hall3).
      rewrite Hq in Htr3. cbn [fst st_trace] in Htr3.
      rewrite (main_quantize_raises script_file s s1 p w2 original s3 e Hfind Hload Hq).
      cbn [fst].
      exists ((banner ++ tr1 ++ [EvLoad (str p)]) ++ tr3).
      rewrite Htr3, Htr1, <- !app_assoc.
      split; [reflexivity |]. split.
      - rewrite !app_assoc. apply Forall_app. split.
        + rewrite <- !app_assoc. exact Hpre.
        + revert Hall3. apply Forall_impl. intros ev. apply (quantizer_in_main p ev Hp).
      - left. rewrite !saves_app, Hs1, (quantizer_trace_quiet p tr3 Hall3).
        reflexivity. }
  destruct (emits_quantize_model p (mkState w2 (st_trace s1 ++ [EvLoad (str p)])))
    as (tr3 & Htr3 & Hall3).
  rewrite Hq in Htr3. cbn [fst st_trace] in Htr3.
  destruct (MLModel_save quantized (str (OUTPUT_MODEL script_file)) (st_world s3))
    as [w4 r] eqn:Hsave.
  rewrite (main_up_to_save script_file s s1 p w2 original s3 quantized w4 r
             Hfind Hload Hq Hsave).
  cbv zeta.
  set (saving := [EvPrint (LF ++ "Saving quantized model to: "
                           ++ str (OUTPUT_MODEL script_file))%string;
                  EvSave quantized (str (OUTPUT_MODEL script_file))]).
  assert (Hmid : Forall (main_event script_file)
                        (((banner ++ tr1 ++ [EvLoad (str p)]) ++ tr3)
                           ++ validation_lines original quantized ++ saving)).
  { apply Forall_app. split; [apply Forall_app; split |].
    - exact Hpre.
    - revert Hall3. apply Forall_impl. intros ev. apply (quantizer_in_main p ev Hp).
    - unfold validation_lines, saving. cbn [app]. in_scope. }
  assert (Hsaves : saves (((banner ++ tr1 ++ [EvLoad (str p)]) ++ tr3)
                            ++ validation_lines original quantized ++ saving)
                   = [(quantized, str (OUTPUT_MODEL script_file))]).
  { rewrite !saves_app, Hs1, (quantizer_trace_quiet p tr3 Hall3). reflexivity. }
  assert (Htrace : st_trace s3 ++ validation_lines original quantized ++ saving
                   = st_trace s
                     ++ (((banner ++ tr1 ++ [EvLoad (str p)]) ++ tr3)
                           ++ validation_lines original quantized ++ saving)).
  { rewrite Htr3, Htr1, <- !app_assoc. reflexivity. }
  destruct r as [[] | e].
  - match goal with
    | |- context [main_after_save script_file ?s4] =>
        destruct (main_after_save_scope s4) as (tr5 & r5 & Hrest & Hall5 & _)
    end.
    rewrite Hrest. cbn [fst log st_trace]. rewrite Htrace.
    eexists. rewrite <- app_assoc. split; [reflexivity |].
    split.
    + apply Forall_app. split; [exact Hmid |].
      revert Hall5. apply Forall_impl, report_in_main.
    + right. exists quantized.
      rewrite saves_app, Hsaves, (report_trace_quiet tr5 Hall5). reflexivity.
  - cbn [fst st_trace]. rewrite Htrace.
    eexists. split; [reflexivity |]. split; [exact Hmid |].
    right. exists quantized. exact Hsaves.
Qed.

End Scope.

(* ===================================================================== *)
(** ** An original without bytes, and a toolkit that breaks on import *)
(* ===================================================================== *)

Section Edges.

Context {TK : Toolkit}.
Variable script_file : Path.

(** What a run that got through the save has done. *)
Lemma main_until_save_inv s s4 :
  main_until_save script_file s = (s4, Ok tt) ->
  exists s1 p w2 original s3 quantized,
    find_model script_file (log s banner) = (s1, Ok p) /\
    MLModel_load (str p) (st_world s1) = (w2, Ok original) /\
    quantize_model p (mkState w2 (st_trace s1 ++ [EvLoad (str p)]))
    = (s3, Ok quantized) /\
    MLModel_save quantized (str (OUTPUT_MODEL script_file)) (st_world s3)
    = (st_world s4, Ok tt) /\
    st_trace s4
    = st_trace s3 ++ validation_lines original quantized
      ++ [EvPrint (LF ++ "Saving quantized model to: "
                   ++ str (OUTPUT_MODEL script_file))%string;
          EvSave quantized (str (OUTPUT_MODEL script_file))].
Proof.
  unfold main_until_save.
  do 4 rewrite (bind_ok _ _ _ _ _ (run_print _ _)).
  rewrite !log_log. cbn [app]. fold (@banner TK).
  destruct (find_model script_file (log s banner)) as [s1 [p | e]] eqn:Hfind.
  2:{ rewrite (bind_raise _ _ _ _ _ Hfind). discriminate. }
  rewrite (bind_ok _ _ _ _ _ Hfind).
  destruct (MLModel_load (str p) (st_world s1)) as [w2 [original | e]] eqn:Hload.
  2:{ rewrite (bind_raise _ _ _ _ _ (run_load _ _ _ _ Hload)). discriminate. }
  rewrite (bind_ok _ _ _ _ _ (run_load _ _ _ _ Hload)).
  destruct (quantize_model p (mkState w2 (st_trace s1 ++ [EvLoad (str p)])))
    as [s3 [quantized | e]] eqn:Hq.
  2:{ rewrite (bind_raise _ _ _ _ _ Hq). discriminate. }
  rewrite (bind_ok _ _ _ _ _ Hq).
  rewrite (bind_ok _ _ _ _ _ (run_validate _ _ _)).
  rewrite (bind_ok _ _ _ _ _ (run_print _ _)).
  rewrite log_log.
  destruct (MLModel_save quantized (str (OUTPUT_MODEL script_file)) (st_world s3))
    as [w4 r] eqn:Hsave.
  erewrite run_save by (cbn [log st_world]; exact Hsave).
  intros H. injection H as <- ->.
  exists s1, p, w2, original, s3, quantized.
  cbn [st_world st_trace log]. rewrite <- !app_assoc.
  repeat split; first [reflexivity | assumption].
Qed.

Lemma size_comparison_nothing_to_compare q s :
  0 <= q < 2 ^ 1023 ->
  size_comparison 0 q s
  = (log s [ EvPrint (LF ++ "Size comparison:")%string;
             EvPrint ("  - Original:  " ++ megabytes 0 ++ " MB")%string;
             EvPrint ("  - Quantized: " ++ megabytes q ++ " MB")%string ],
     Raise (mkExn ZeroDivisionError "division by zero")).
Proof.
  intros Hq. unfold size_comparison.
  rewrite (bind_ok _ _ _ _ _ (run_print _ _)).
  unfold bind, lift.
  change (int_truediv 0 1024) with (Ok (Float.quotient 0 1024)).
  rewrite (int_truediv_in_range q 1024) by lia.
  unfold float_truediv_int. change (1024 =? 0) with false. cbv iota.
  unfold print, emit, log. cbn [st_world st_trace].
  change (int_truediv q 0)
    with (@Raise Float.float (mkExn ZeroDivisionError "division by zero")).
  cbv iota. unfold megabytes. rewrite <- !app_assoc. reflexivity.
Qed.

(** X12: an original without a byte in regular files breaks the report
    after the model is saved. When both paths exist after the save and no
    regular file with bytes lies below the primary path (an empty bundle, a
    bundle of empty files or of directories only, or a single file), the run
    saves the quantized model, prints the heading and both sizes, the
    original as 0.00 MB, and then ends in a [ZeroDivisionError], with exit
    status 1 and without its closing lines. *)
Theorem X12_empty_original_breaks_the_report :
  forall (s s4 : state),
    main_until_save script_file s = (s4, Ok tt) ->
    fs_exists (fs (st_world s4)) (SOURCE_MODEL script_file) = true ->
    fs_exists (fs (st_world s4)) (OUTPUT_MODEL script_file) = true ->
    bundle_size (fs (st_world s4)) (SOURCE_MODEL script_file) = 0 ->
    bundle_size (fs (st_world s4)) (OUTPUT_MODEL script_file) < 2 ^ 1023 ->
    main script_file s
    = (log s4
         (measuring (fs (st_world s4)) (SOURCE_MODEL script_file)
                    (OUTPUT_MODEL script_file)
          ++ [ EvPrint (LF ++ "Size comparison:")%string;
               EvPrint "  - Original:  0.00 MB"%string;
               EvPrint ("  - Quantized: "
                        ++ megabytes (bundle_size (fs (st_world s4))
                                                  (OUTPUT_MODEL script_file))
                        ++ " MB")%string ]),
       Raise (mkExn ZeroDivisionError "division by zero")) /\
    exit_status (@Raise unit (mkExn ZeroDivisionError "division by zero")) = 1 /\
    exists quantized,
      last (st_trace s4) (EvPrint "")
      = EvSave quantized (str (OUTPUT_MODEL script_file)).
Proof.
  intros s s4 Hsave Hs Ho Hzero Hq.
  split; [| split; [reflexivity |]].
  - rewrite main_split, (bind_ok _ _ _ _ _ Hsave). unfold main_after_save.
    pose proof (run_print_file_sizes script_file s4) as Hrun. cbv zeta in Hrun.
    rewrite Hs, Ho, Hzero in Hrun.
    rewrite size_comparison_nothing_to_compare in Hrun
      by (split; [apply bundle_size_nonneg | exact Hq]).
    rewrite (bind_raise _ _ _ _ _ Hrun), log_log.
    rewrite megabytes_zero. reflexivity.
  - destruct (main_until_save_inv s s4 Hsave)
      as (s1 & p & w2 & original & s3 & quantized & _ & _ & _ & _ & Htr).
    exists quantized. rewrite Htr, !app_assoc.
    change [EvPrint (LF ++ "Saving quantized model to: "
                     ++ str (OUTPUT_MODEL script_file))%string;
            EvSave quantized (str (OUTPUT_MODEL script_file))]
      with ([EvPrint (LF ++ "Saving quantized model to: "
                      ++ str (OUTPUT_MODEL script_file))%string]
              ++ [EvSave quantized (str (OUTPUT_MODEL script_file))]).
    rewrite app_assoc. apply last_last.
Qed.

(** X13: the import guard catches [ImportError] and nothing else. When an
    [import] raises any other exception, the script ends with that
    exception as it is: the advice to install the toolkit is not printed,
    nothing is printed at all, and [main] does not start. *)
Theorem X13_import_guard_lets_other_exceptions_through :
  forall (s : state) (w' : world) (e : exn),
    import_fails (st_world s) w' e ->
    isinstance_ImportError e = false ->
    exists tr,
      script script_file s = (mkState w' (st_trace s ++ tr), Raise e) /\
      (tr = [EvImport "coremltools"] \/
       tr = [EvImport "coremltools"; EvImport "coremltools.optimize.coreml"]) /\
      printed tr = [].
Proof.
  intros s w' e Hfail He.
  unfold script, import_guard.
  destruct Hfail as [H1 | (w1 & H1 & H2)].
  - exists [EvImport "coremltools"]. split; [| split; [left |]; reflexivity].
    apply bind_raise. unfold try_except.
    erewrite bind_raise by (apply run_import; exact H1).
    cbv beta iota. rewrite He. reflexivity.
  - exists [EvImport "coremltools"; EvImport "coremltools.optimize.coreml"].
    split; [| split; [right |]; reflexivity].
    apply bind_raise. unfold try_except.
    erewrite bind_ok by (apply run_import; exact H1).
    erewrite run_import by (cbn [st_world]; exact H2).
    cbv beta iota. rewrite He. cbn [st_trace]. rewrite <- app_assoc. reflexivity.
Qed.

End Edges.

Section ExtraRuns.

Import Fake.

Lemma X2_quantize_model_returns_a_quantizer_result_witness :
  exists w1 model tr,
    @MLModel_load (toolkit full_unsupported) (str (SOURCE_MODEL script_file))
      (st_world (start full_unsupported (checkout [source_bundle])))
    = (w1, Ok model) /\
    st_trace (fst (@Stdout.quantize_model (toolkit full_unsupported) Stdout.accepting
                     (SOURCE_MODEL script_file)
                     (start full_unsupported (checkout [source_bundle]))))
    = st_trace (start full_unsupported (checkout [source_bundle])) ++ tr /\
    ((@cto_linear_quantize_weights (toolkit full_unsupported) model config w1
      = (st_world (fst (@Stdout.quantize_model (toolkit full_unsupported)
                          Stdout.accepting (SOURCE_MODEL script_file)
                          (start full_unsupported (checkout [source_bundle])))),
         Ok quantized_fallback) /\
      @Stdout.accepting (toolkit full_unsupported) "✅ Quantization complete"
        (st_world (fst (@Stdout.quantize_model (toolkit full_unsupported)
                          Stdout.accepting (SOURCE_MODEL script_file)
                          (start full_unsupported (checkout [source_bundle])))))
      = Ok tt /\
      quantize_calls tr = [config])
     \/
     (exists w2 first e,
         @cto_linear_quantize_weights (toolkit full_unsupported) model config w1
         = (w2, first) /\
         match first with
         | Ok _ => @Stdout.accepting (toolkit full_unsupported)
                     "✅ Quantization complete" w2 = Raise e
         | Raise e1 => e1 = e
         end /\
         isinstance_Exception e = true /\
         @cto_linear_quantize_weights (toolkit full_unsupported)
           model fallback_config w2
         = (st_world (fst (@Stdout.quantize_model (toolkit full_unsupported)
                             Stdout.accepting (SOURCE_MODEL script_file)
                             (start full_unsupported (checkout [source_bundle])))),
            Ok quantized_fallback) /\
         quantize_calls tr = [config; fallback_config])).
Proof.
  apply (@X2_quantize_model_returns_a_quantizer_result (toolkit full_unsupported) Stdout.accepting
           (SOURCE_MODEL script_file)
           (start full_unsupported (checkout [source_bundle]))
           (fst (@Stdout.quantize_model (toolkit full_unsupported) Stdout.accepting
                   (SOURCE_MODEL script_file)
                   (start full_unsupported (checkout [source_bundle]))))
           quantized_fallback).
  vm_compute. reflexivity.
Defined.

Lemma X3_interrupt_is_not_a_refusal_witness :
  exists tr,
    @quantize_model (toolkit interrupted) (SOURCE_MODEL script_file)
      (start interrupted (checkout [source_bundle]))
    = (@mkState (toolkit interrupted) (checkout [source_bundle])
         (st_trace (start interrupted (checkout [source_bundle])) ++ tr),
       Raise (mkExn KeyboardInterrupt "")) /\
    tr = @quantize_prelude (toolkit interrupted) (SOURCE_MODEL script_file) original
         ++ [@EvLinearQuantizeWeights (toolkit interrupted) original config] /\
    configs_built tr = [config] /\
    quantize_calls tr = [config].
Proof.
  apply (@X3_interrupt_is_not_a_refusal (toolkit interrupted)
           (SOURCE_MODEL script_file)
           (start interrupted (checkout [source_bundle]))
           (checkout [source_bundle]) original (checkout [source_bundle])
           (mkExn KeyboardInterrupt "")).
  - reflexivity.
  - reflexivity.
  - reflexivity.
Defined.

(** The state [main] is in when the locator has returned, in the checkout
    that holds the primary bundle only. *)
Lemma located_in_checkout b :
  @find_model (toolkit b) script_file (log (start b (checkout [source_bundle])) banner)
  = (@mkState (toolkit b) (checkout [source_bundle])
       (banner ++ [EvExists (SOURCE_MODEL script_file)]),
     Ok (SOURCE_MODEL script_file)).
Proof. vm_compute. reflexivity. Defined.

Lemma X7_load_failure_ends_the_run_witness :
  exists tr,
    @main (toolkit unreadable) script_file (start unreadable (checkout [source_bundle]))
    = (@mkState (toolkit unreadable) (checkout [source_bundle])
         (st_trace (start unreadable (checkout [source_bundle])) ++ tr),
       Raise (mkExn (OtherException "RuntimeError") "Error compiling model")) /\
    loads tr = [str (SOURCE_MODEL script_file)] /\
    quantize_calls tr = [] /\
    saves tr = [].
Proof.
  apply (@X7_load_failure_ends_the_run (toolkit unreadable) script_file
           (start unreadable (checkout [source_bundle]))
           (@mkState (toolkit unreadable) (checkout [source_bundle])
              (banner ++ [EvExists (SOURCE_MODEL script_file)]))
           (SOURCE_MODEL script_file) (checkout [source_bundle])
           (mkExn (OtherException "RuntimeError") "Error compiling model")).
  - apply located_in_checkout.
  - reflexivity.
Defined.

Lemma X8_quantization_failure_saves_nothing_witness :
  exists tr,
    @main (toolkit nothing_supported) script_file
      (start nothing_supported (checkout [source_bundle]))
    = (fst (@quantize_model (toolkit nothing_supported) (SOURCE_MODEL script_file)
              (@mkState (toolkit nothing_supported) (checkout [source_bundle])
                 (st_trace
                    (@mkState (toolkit nothing_supported) (checkout [source_bundle])
                       (banner ++ [EvExists (SOURCE_MODEL script_file)]))
                  ++ [EvLoad (str (SOURCE_MODEL script_file))]))),
       Raise unsupported) /\
    st_trace
      (fst (@quantize_model (toolkit nothing_supported) (SOURCE_MODEL script_file)
              (@mkState (toolkit nothing_supported) (checkout [source_bundle])
                 (st_trace
                    (@mkState (toolkit nothing_supported) (checkout [source_bundle])
                       (banner ++ [EvExists (SOURCE_MODEL script_file)]))
                  ++ [EvLoad (str (SOURCE_MODEL script_file))]))))
    = st_trace (start nothing_supported (checkout [source_bundle])) ++ tr /\
    saves tr = [].
Proof.
  apply (@X8_quantization_failure_saves_nothing (toolkit nothing_supported)
           script_file
           (start nothing_supported (checkout [source_bundle]))
           (@mkState (toolkit nothing_supported) (checkout [source_bundle])
              (banner ++ [EvExists (SOURCE_MODEL script_file)]))
           (SOURCE_MODEL script_file) (checkout [source_bundle]) original).
  - apply located_in_checkout.
  - reflexivity.
  - vm_compute. reflexivity.
Defined.

Lemma X9_save_failure_ends_the_run_witness :
  @main (toolkit unwritable) script_file (start unwritable (checkout [source_bundle]))
  = (@mkState (toolkit unwritable) (checkout [source_bundle])
       (st_trace
          (fst (@quantize_model (toolkit unwritable) (SOURCE_MODEL script_file)
                  (@mkState (toolkit unwritable) (checkout [source_bundle])
                     (st_trace
                        (@mkState (toolkit unwritable) (checkout [source_bundle])
                           (banner ++ [EvExists (SOURCE_MODEL script_file)]))
                      ++ [EvLoad (str (SOURCE_MODEL script_file))]))))
        ++ @validation_lines (toolkit unwritable) original quantized_full
        ++ [EvPrint (LF ++ "Saving quantized model to: "
                     ++ str (OUTPUT_MODEL script_file))%string;
            @EvSave (toolkit unwritable) quantized_full
              (str (OUTPUT_MODEL script_file))]),
     Raise (mkExn (OtherException "PermissionError") "Permission denied")).
Proof.
  apply (@X9_save_failure_ends_the_run (toolkit unwritable) script_file
           (start unwritable (checkout [source_bundle]))
           (@mkState (toolkit unwritable) (checkout [source_bundle])
              (banner ++ [EvExists (SOURCE_MODEL script_file)]))
           (SOURCE_MODEL script_file) (checkout [source_bundle]) original).
  - apply located_in_checkout.
  - reflexivity.
  - vm_compute. reflexivity.
  - vm_compute. reflexivity.
Defined.

Lemma X12_empty_original_breaks_the_report_witness :
  @main (toolkit hollow_source) script_file
    (start hollow_source (checkout [source_bundle]))
  = (log (saved hollow_source (checkout [source_bundle]))
       (measuring (fs (st_world (saved hollow_source (checkout [source_bundle]))))
                  (SOURCE_MODEL script_file) (OUTPUT_MODEL script_file)
        ++ [ EvPrint (LF ++ "Size comparison:")%string;
             EvPrint "  - Original:  0.00 MB"%string;
             EvPrint ("  - Quantized: "
                      ++ megabytes
                           (bundle_size
                              (fs (st_world (saved hollow_source
                                               (checkout [source_bundle]))))
                              (OUTPUT_MODEL script_file))
                      ++ " MB")%string ]),
     Raise (mkExn ZeroDivisionError "division by zero")) /\
  exit_status (@Raise unit (mkExn ZeroDivisionError "division by zero")) = 1 /\
  exists quantized,
    last (st_trace (saved hollow_source (checkout [source_bundle])))
         (@EvPrint (toolkit hollow_source) "")
    = EvSave quantized (str (OUTPUT_MODEL script_file)).
Proof.
  apply (@X12_empty_original_breaks_the_report (toolkit hollow_source) script_file
           (start hollow_source (checkout [source_bundle]))
           (saved hollow_source (checkout [source_bundle]))).
  - apply saved_run. vm_compute. reflexivity.
  - vm_compute. reflexivity.
  - vm_compute. reflexivity.
  - vm_compute. reflexivity.
  - vm_compute. reflexivity.
Defined.

Lemma X13_import_guard_lets_other_exceptions_through_witness :
  exists tr,
    @script (toolkit broken_install) script_file
      (start broken_install (checkout [source_bundle]))
    = (@mkState (toolkit broken_install) (checkout [source_bundle])
         (st_trace (start broken_install (checkout [source_bundle])) ++ tr),
       Raise (mkExn (OtherException "AttributeError")
                    "module 'numpy' has no attribute 'bool'")) /\
    (tr = [@EvImport (toolkit broken_install) "coremltools"] \/
     tr = [@EvImport (toolkit broken_install) "coremltools";
           EvImport "coremltools.optimize.coreml"]) /\
    printed tr = [].
Proof.
  apply (@X13_import_guard_lets_other_exceptions_through (toolkit broken_install)
           script_file
           (start broken_install (checkout [source_bundle]))
           (checkout [source_bundle])
           (mkExn (OtherException "AttributeError")
                  "module 'numpy' has no attribute 'bool'")).
  - left. reflexivity.
  - reflexivity.
Defined.

Lemma X14_no_fallback_once_success_is_printed_witness :
  exists tr,
    @Stdout.quantize_model (toolkit happy) Stdout.accepting
      (SOURCE_MODEL script_file) (start happy (checkout [source_bundle]))
    = (@mkState (toolkit happy) (checkout [source_bundle])
         (st_trace (start happy (checkout [source_bundle])) ++ tr),
       Ok quantized_full) /\
    tr = @quantize_prelude (toolkit happy) (SOURCE_MODEL script_file) original
         ++ [@EvLinearQuantizeWeights (toolkit happy) original config;
             EvPrint "✅ Quantization complete"] /\
    configs_built tr = [config] /\
    quantize_calls tr = [config] /\
    ~ In fallback_config (configs_built tr) /\
    ~ In fallback_config (quantize_calls tr).
Proof.
  apply (@X14_no_fallback_once_success_is_printed (toolkit happy) Stdout.accepting
           (SOURCE_MODEL script_file)
           (start happy (checkout [source_bundle]))
           (checkout [source_bundle]) original
           (checkout [source_bundle]) quantized_full).
  - repeat (apply Forall_cons || apply Forall_nil); reflexivity.
  - reflexivity.
  - repeat (apply Forall_cons || apply Forall_nil); reflexivity.
  - reflexivity.
  - reflexivity.
Defined.

Lemma X15_refused_success_line_is_taken_for_a_refusal_witness :
  exists w3 r tr,
    @cto_linear_quantize_weights (toolkit happy) original fallback_config
      (checkout [source_bundle]) = (w3, r) /\
    tr = @quantize_prelude (toolkit happy) (SOURCE_MODEL script_file) original
         ++ [@EvLinearQuantizeWeights (toolkit happy) original config]
         ++ @fallback_prelude (toolkit happy) original
              (mkExn (OtherException "UnicodeEncodeError")
                     "'ascii' codec can't encode character '\u2705' in position 0: ordinal not in range(128)") /\
    configs_built tr = [config; fallback_config] /\
    quantize_calls tr = [config; fallback_config] /\
    @Stdout.quantize_model (toolkit happy) Stdout.ascii
      (SOURCE_MODEL script_file) (start happy (checkout [source_bundle]))
    = match r with
      | Ok q' =>
          match @Stdout.ascii (toolkit happy)
                  "✅ Weight-only INT8 quantization complete" w3 with
          | Ok _ =>
              (@mkState (toolkit happy) w3
                 (st_trace (start happy (checkout [source_bundle])) ++ tr
                  ++ [EvPrint "✅ Weight-only INT8 quantization complete"]),
               Ok q')
          | Raise e' =>
              (@mkState (toolkit happy) w3
                 (st_trace (start happy (checkout [source_bundle])) ++ tr),
               Raise e')
          end
      | Raise e' =>
          (@mkState (toolkit happy) w3
             (st_trace (start happy (checkout [source_bundle])) ++ tr),
           Raise e')
      end.
Proof.
  apply (@X15_refused_success_line_is_taken_for_a_refusal (toolkit happy) Stdout.ascii
           (SOURCE_MODEL script_file)
           (start happy (checkout [source_bundle]))
           (checkout [source_bundle]) original
           (checkout [source_bundle]) quantized_full
           (mkExn (OtherException "UnicodeEncodeError")
                  "'ascii' codec can't encode character '\u2705' in position 0: ordinal not in range(128)")).
  - repeat (apply Forall_cons || apply Forall_nil); vm_compute; reflexivity.
  - reflexivity.
  - repeat (apply Forall_cons || apply Forall_nil); vm_compute; reflexivity.
  - reflexivity.
  - vm_compute. reflexivity.
  - reflexivity.
  - repeat (apply Forall_cons || apply Forall_nil); vm_compute; reflexivity.
Defined.

End ExtraRuns.
